(** * Contract client runtime: AssembledTransaction, SentTransaction, ContractClient

    A shallow embedding of the TypeScript sources

    - [contract/assembled_transaction.ts]  (class [AssembledTransaction]),
    - [contract/sent_transaction.ts]       (class [SentTransaction], and a
                                            class [ContractClient] after it),
    - [contract_client/client.ts]          (a second class [ContractClient]),

    together with the properties of the natural-language specification that
    concern them.

    Conventions.  A JavaScript value that may be [undefined] is an [option].
    A call that may throw returns an [Outcome]; a method that also assigns
    fields of [this] returns the new object next to its outcome.  Promises
    are run to completion at the [await] that consumes them, so an [async]
    function is modelled by the function that computes its settled result.
    Wall-clock readings ([Date.now()]) are explicit arguments, in seconds. *)

From Stdlib Require Import String Ascii List ZArith NArith Lia Bool.
From Stdlib.Strings Require Import Byte.
From stdpp Require Import base option list strings gmap.
From Equations Require Import Equations.

Set Warnings "-register-all".
Local Open Scope string_scope.
Local Open Scope list_scope.

(** ** JavaScript basics: thrown values and outcomes *)

(** The error classes the sources throw.  [AssembledTransaction.Errors] and
    [SentTransaction.Errors] are the two static tables of the classes;
    [Error] and [TypeError] are the built-in ones. *)
Inductive ErrorClass : Type :=
| Error
| TypeError
| ExpiredState
| NeedsMoreSignatures
| NoSignatureNeeded
| NoUnsignedNonInvokerAuthEntries
| NoSigner
| NotYetSimulated
| FakeAccount
| SendFailed
| SendResultOnly
| TransactionStillPending.

Global Instance ErrorClass_eq_dec : EqDecision ErrorClass.
Proof. solve_decision. Defined.

(** What a [throw] statement can raise: an error object of some class with
    its message, or any other value (JavaScript lets one throw a string
    primitive, say), of which only its rendering is kept. *)
Inductive Thrown : Type :=
| ErrorObject (cls : ErrorClass) (message : string)
| Primitive (rendering : string).

Global Instance Thrown_eq_dec : EqDecision Thrown.
Proof. solve_decision. Defined.

Definition thrown_class (e : Thrown) : option ErrorClass :=
  match e with
  | ErrorObject c _ => Some c
  | Primitive _ => None
  end.

Inductive Outcome (A : Type) : Type :=
| Returns (a : A)
| Throws (e : Thrown).
Arguments Returns {A} a.
Arguments Throws {A} e.

Definition throw {A} (cls : ErrorClass) (message : string) : Outcome A :=
  Throws (ErrorObject cls message).

Definition obind {A B} (m : Outcome A) (k : A → Outcome B) : Outcome B :=
  match m with
  | Returns a => k a
  | Throws e => Throws e
  end.

Declare Scope outcome_scope.
Delimit Scope outcome_scope with outcome.
Notation "'let!' x ':=' m 'in' k" := (obind m (fun x => k))
  (at level 10, x pattern, m at level 100, k at level 200) : outcome_scope.
Local Open Scope outcome_scope.

(** [xs.map(f)] where [f] may throw: the first exception aborts the map. *)
Fixpoint omap_all {A B} (f : A → Outcome B) (xs : list A) : Outcome (list B) :=
  match xs with
  | [] => Returns []
  | x :: xs' =>
      let! y := f x in
      let! ys := omap_all f xs' in
      Returns (y :: ys)
  end.

(** [a ?? b] *)
Definition nullish {A} (a : option A) (b : A) : A := default b a.
Infix "??" := nullish (at level 45, left associativity).

(** The double-quote character, for messages that quote a value. *)
Definition dquote : string := String (ascii_of_nat 34) EmptyString.

(** ** The XDR data model (package [@stellar/stellar-base], namespace [xdr]) *)

Definition Buffer : Type := list byte.
Definition XDR_BASE64 : Type := string.

Module xdr.

(** [ScAddress]: a union with an account arm and a contract arm.  The
    account arm holds a [PublicKey], whose only arm is an ed25519 key. *)
Inductive PublicKey : Type :=
| publicKeyTypeEd25519 (ed25519 : Buffer).

Inductive ScAddress : Type :=
| scAddressTypeAccount (accountId : PublicKey)
| scAddressTypeContract (contractId : Buffer).

Inductive ScVal : Type :=
| scvBool (b : bool)
| scvVoid
| scvError (code : N)
| scvU32 (u32 : N)
| scvI32 (i32 : Z)
| scvU64 (u64 : N)
| scvI64 (i64 : Z)
| scvU128 (u128 : N)
| scvI128 (i128 : Z)
| scvBytes (bytes : Buffer)
| scvString (str : string)
| scvSymbol (sym : string)
| scvVec (vec : list ScVal)
| scvMap (map : list (ScVal * ScVal))
| scvAddress (address : ScAddress).

(** [v.switch().name] *)
Definition switch_name (v : ScVal) : string :=
  match v with
  | scvBool _ => "scvBool"
  | scvVoid => "scvVoid"
  | scvError _ => "scvError"
  | scvU32 _ => "scvU32"
  | scvI32 _ => "scvI32"
  | scvU64 _ => "scvU64"
  | scvI64 _ => "scvI64"
  | scvU128 _ => "scvU128"
  | scvI128 _ => "scvI128"
  | scvBytes _ => "scvBytes"
  | scvString _ => "scvString"
  | scvSymbol _ => "scvSymbol"
  | scvVec _ => "scvVec"
  | scvMap _ => "scvMap"
  | scvAddress _ => "scvAddress"
  end.

Record SorobanAddressCredentials : Type := {
  address : ScAddress;
  nonce : Z;
  signatureExpirationLedger : N;
  signature : ScVal
}.

(** [SorobanCredentials]: [switch()] is one of the two constructors. *)
Inductive SorobanCredentials : Type :=
| sorobanCredentialsSourceAccount
| sorobanCredentialsAddress (addr : SorobanAddressCredentials).

Inductive SorobanAuthorizedInvocation : Type :=
| AuthorizedInvocation (contractAddress : ScAddress) (functionName : string)
    (args : list ScVal) (subInvocations : list SorobanAuthorizedInvocation).

Record SorobanAuthorizationEntry : Type := {
  credentials : SorobanCredentials;
  rootInvocation : SorobanAuthorizedInvocation
}.

Inductive LedgerKey : Type :=
| ledgerKeyAccount (accountId : PublicKey)
| ledgerKeyContractData (contract : ScAddress) (key : ScVal) (persistent : bool)
| ledgerKeyContractCode (hash : Buffer).

Record LedgerFootprint : Type := {
  readOnly : list LedgerKey;
  readWrite : list LedgerKey
}.

Record SorobanResources : Type := {
  footprint : LedgerFootprint;
  instructions : N;
  readBytes : N;
  writeBytes : N
}.

Record SorobanTransactionData : Type := {
  resources : SorobanResources;
  resourceFee : N
}.

(** A union accessor called on the wrong arm throws. *)
Definition ScAddress_accountId (a : ScAddress) : Outcome PublicKey :=
  match a with
  | scAddressTypeAccount pk => Returns pk
  | scAddressTypeContract _ => throw TypeError "accountId not set"
  end.

Definition PublicKey_ed25519 (pk : PublicKey) : Buffer :=
  match pk with publicKeyTypeEd25519 b => b end.

(** [c.address()] on a [SorobanCredentials] *)
Definition credentials_address (c : SorobanCredentials)
  : Outcome SorobanAddressCredentials :=
  match c with
  | sorobanCredentialsAddress a => Returns a
  | sorobanCredentialsSourceAccount => throw TypeError "address not set"
  end.

Definition is_sorobanCredentialsAddress (c : SorobanCredentials) : bool :=
  match c with
  | sorobanCredentialsAddress _ => true
  | sorobanCredentialsSourceAccount => false
  end.

End xdr.

(** The binary codec of an XDR type: [x.toXDR("base64")] and
    [X.fromXDR(s, "base64")], which throws on input it cannot decode. *)
Class XdrCodec (A : Type) : Type := {
  toXDR : A → XDR_BASE64;
  fromXDR : XDR_BASE64 → option A
}.

(** A value survives the codec when decoding its encoding gives it back. *)
Definition RoundTrips {A} `{XdrCodec A} (a : A) : Prop :=
  fromXDR (toXDR a) = Some a.

Definition decodeXDR {A} `{XdrCodec A} (s : XDR_BASE64) : Outcome A :=
  match fromXDR s with
  | Some a => Returns a
  | None => throw Error "XDR Read Error"
  end.

(** ** Transactions (package [@stellar/stellar-base]) *)

Record TimeBounds : Type := {
  minTime : nat;
  maxTime : nat
}.

Inductive HostFunction : Type :=
| hostFunctionTypeInvokeContract (contractId : string) (functionName : string)
    (args : list xdr.ScVal)
| hostFunctionTypeUploadContractWasm (wasm : Buffer).

Inductive Operation : Type :=
| InvokeHostFunction (func : HostFunction)
    (auth : list xdr.SorobanAuthorizationEntry)
| OtherOperation (type : string).

(** [op.auth]: only an invoke-host-function operation has the property. *)
Definition Operation_auth (op : Operation)
  : option (list xdr.SorobanAuthorizationEntry) :=
  match op with
  | InvokeHostFunction _ auth => Some auth
  | OtherOperation _ => None
  end.

Record TransactionBody : Type := {
  source : string;
  fee : N;
  sequence : N;
  timeBounds : option TimeBounds;
  memo : option string;
  operations : list Operation;
  sorobanData : option xdr.SorobanTransactionData;
  signatures : list Buffer
}.

Record FeeBumpBody : Type := {
  feeSource : string;
  feeBumpFee : N;
  innerTransaction : TransactionBody;
  feeBumpSignatures : list Buffer
}.

(** What [toXDR()] of a transaction serialises: the envelope. *)
Inductive TransactionEnvelope : Type :=
| envelopeTypeTx (tx : TransactionBody)
| envelopeTypeTxFeeBump (feeBump : FeeBumpBody).

(** A [Transaction] or [FeeBumpTransaction] object: an envelope and the
    passphrase of the network it was parsed or built for.  The passphrase is
    not part of the serialised form. *)
Record Tx : Type := {
  envelope : TransactionEnvelope;
  networkPassphrase : string
}.

(** [tx.toXDR()] *)
Definition Tx_toXDR `{XdrCodec TransactionEnvelope} (tx : Tx) : XDR_BASE64 :=
  toXDR (envelope tx).

(** [tx.fee] *)
Definition Tx_fee (tx : Tx) : N :=
  match envelope tx with
  | envelopeTypeTx b => fee b
  | envelopeTypeTxFeeBump fb => feeBumpFee fb
  end.

(** [tx.operations], absent on a fee-bump transaction
    (["operations" in tx] is false there). *)
Definition Tx_operations (tx : Tx) : option (list Operation) :=
  match envelope tx with
  | envelopeTypeTx b => Some (operations b)
  | envelopeTypeTxFeeBump _ => None
  end.

Record Account : Type := {
  accountId : string;
  sequenceNumber : N
}.

Definition BASE_FEE : N := 100.

Module TransactionBuilder.

(** Modelled from the spec: the transaction builder of the external
    transaction library (construction, [addOperation], [setTimeout],
    [build], [cloneFrom], [fromXDR]).  The spec words it as: a built
    transaction has "fee = options.fee or platform minimum, timebounds =
    now + timeoutInSeconds"; a clone is made "preserving fee and the
    post-simulation soroban data", and a timeout is "re-applied" to it
    once its time bounds are cleared. *)
Record t : Type := {
  sourceAccount : Account;
  baseFee : N;
  timebounds : option TimeBounds;
  builderOperations : list Operation;
  builderMemo : option string;
  builderSorobanData : option xdr.SorobanTransactionData;
  builderPassphrase : string
}.

(** [new TransactionBuilder(account, { fee, networkPassphrase })] *)
Definition new (account : Account) (fee : N) (passphrase : string) : t :=
  {| sourceAccount := account;
     baseFee := fee;
     timebounds := None;
     builderOperations := [];
     builderMemo := None;
     builderSorobanData := None;
     builderPassphrase := passphrase |}.

Definition addOperation (op : Operation) (b : t) : t :=
  {| sourceAccount := sourceAccount b;
     baseFee := baseFee b;
     timebounds := timebounds b;
     builderOperations := builderOperations b ++ [op];
     builderMemo := builderMemo b;
     builderSorobanData := builderSorobanData b;
     builderPassphrase := builderPassphrase b |}.

(** [b.setTimeout(seconds)], run when the clock reads [now]: the
    transaction is valid until [now + seconds]. *)
Definition setTimeout (now seconds : nat) (b : t) : t :=
  {| sourceAccount := sourceAccount b;
     baseFee := baseFee b;
     timebounds :=
       Some {| minTime := from_option minTime 0 (timebounds b);
               maxTime := now + seconds |};
     builderOperations := builderOperations b;
     builderMemo := builderMemo b;
     builderSorobanData := builderSorobanData b;
     builderPassphrase := builderPassphrase b |}.

(** [b.build()]: the transaction takes the next sequence number of the
    source account. *)
Definition build (b : t) : Tx :=
  {| envelope :=
       envelopeTypeTx
         {| source := accountId (sourceAccount b);
            fee := baseFee b;
            sequence := (sequenceNumber (sourceAccount b) + 1)%N;
            timeBounds := timebounds b;
            memo := builderMemo b;
            operations := builderOperations b;
            sorobanData := builderSorobanData b;
            signatures := [] |};
     networkPassphrase := builderPassphrase b |}.

(** [TransactionBuilder.cloneFrom(tx, { fee, timebounds, sorobanData })]:
    a builder that rebuilds [tx] with the three given settings in place of
    its own.  A fee-bump transaction cannot be cloned. *)
Definition cloneFrom (tx : Tx) (fee' : N) (timebounds' : option TimeBounds)
    (sorobanData' : xdr.SorobanTransactionData) : Outcome t :=
  match envelope tx with
  | envelopeTypeTxFeeBump _ =>
      throw TypeError "expected a 'Transaction'"
  | envelopeTypeTx body =>
      Returns
        {| sourceAccount :=
             {| accountId := source body;
                sequenceNumber := (sequence body - 1)%N |};
           baseFee := fee';
           timebounds := timebounds';
           builderOperations := operations body;
           builderMemo := memo body;
           builderSorobanData := Some sorobanData';
           builderPassphrase := networkPassphrase tx |}
  end.

(** [TransactionBuilder.fromXDR(envelope, networkPassphrase)] *)
Definition fromXDR `{XdrCodec TransactionEnvelope}
    (s : XDR_BASE64) (passphrase : string) : Outcome Tx :=
  let! env := decodeXDR s in
  Returns {| envelope := env; networkPassphrase := passphrase |}.

End TransactionBuilder.

(** ** RPC responses (module [rpc/api], namespace [Api]) *)

Module Api.

Record SimulateHostFunctionResult : Type := {
  auth : list xdr.SorobanAuthorizationEntry;
  retval : xdr.ScVal
}.

Record RestorePreamble : Type := {
  restoreMinResourceFee : N;
  restoreTransactionData : xdr.SorobanTransactionData
}.

(** A successful simulation.  [transactionData] is a [SorobanDataBuilder];
    its [build()] yields the data it wraps, so the data stands for it. *)
Record SimulateTransactionSuccessResponse : Type := {
  transactionData : xdr.SorobanTransactionData;
  minResourceFee : N;
  result : option SimulateHostFunctionResult;
  restorePreamble : option RestorePreamble;
  latestLedger : N
}.

Inductive SimulateTransactionResponse : Type :=
| SimulationError (error : string)
| SimulationSuccess (s : SimulateTransactionSuccessResponse).

Definition isSimulationError (sim : SimulateTransactionResponse) : bool :=
  match sim with SimulationError _ => true | SimulationSuccess _ => false end.

Definition isSimulationSuccess (sim : SimulateTransactionResponse) : bool :=
  match sim with SimulationError _ => false | SimulationSuccess _ => true end.

Definition isSimulationRestore (sim : SimulateTransactionResponse) : bool :=
  match sim with
  | SimulationError _ => false
  | SimulationSuccess s => bool_decide (is_Some (restorePreamble s))
  end.

Inductive GetTransactionStatus : Type := SUCCESS | NOT_FOUND | FAILED.

Global Instance GetTransactionStatus_eq_dec : EqDecision GetTransactionStatus.
Proof. solve_decision. Defined.

Record GetTransactionResponse : Type := {
  status : GetTransactionStatus;
  returnValue : option xdr.ScVal;
  ledger : N
}.

Inductive SendTransactionStatus : Type :=
| PENDING | DUPLICATE | TRY_AGAIN_LATER | ERROR.

Global Instance SendTransactionStatus_eq_dec : EqDecision SendTransactionStatus.
Proof. solve_decision. Defined.

Record SendTransactionResponse : Type := {
  sendStatus : SendTransactionStatus;
  hash : string;
  errorResult : option string
}.

Record LedgerEntryResult : Type := {
  liveUntilLedgerSeq : option nat
}.

Record GetLedgerEntriesResponse : Type := {
  entries : option (list LedgerEntryResult)
}.

End Api.

(** ** The RPC endpoint (module [rpc/server]) *)

(** [new Server(url, { allowHttp })]: the object is kept by the two
    settings it is given.  The class is not among the sources; what its
    constructor checks of the two is not part of this model. *)
Record Server : Type := {
  serverURL : string;
  serverAllowHttp : bool
}.

(** What the node behind an RPC URL answers.  [getTransaction] depends on the
    time of the request: a submitted transaction is [NOT_FOUND] until the
    network has closed a ledger with it. *)
Record Network : Type := {
  getAccount : string → Outcome Account;
  simulateTransaction : Tx → Outcome Api.SimulateTransactionResponse;
  sendTransaction : Tx → Outcome Api.SendTransactionResponse;
  getTransaction : string → nat → Outcome Api.GetTransactionResponse;
  getLedgerEntries : string → Outcome Api.GetLedgerEntriesResponse
}.

(** ** Options (module [contract/types]) *)

Definition SignTransaction : Type := XDR_BASE64 → string → Outcome XDR_BASE64.
Definition SignAuthEntry : Type := XDR_BASE64 → Outcome string.

Record ErrorMessage : Type := { message : string }.

(** [AssembledTransactionOptions<T>]: [ClientOptions], [MethodOptions] and the
    fields of one invocation. *)
Module Options.
Record t (T : Type) : Type := {
  (* ClientOptions *)
  rpcUrl : string;
  contractId : string;
  networkPassphrase : string;
  allowHttp : option bool;
  publicKey : option string;
  signTransaction : option SignTransaction;
  signAuthEntry : option SignAuthEntry;
  errorTypes : option (gmap N ErrorMessage);
  (* MethodOptions *)
  fee : option N;
  timeoutInSeconds : option nat;
  simulate : option bool;
  (* the invocation *)
  method : string;
  args : option (list xdr.ScVal);
  parseResultXdr : xdr.ScVal → Outcome T
}.
Arguments rpcUrl {T}.
Arguments contractId {T}.
Arguments networkPassphrase {T}.
Arguments allowHttp {T}.
Arguments publicKey {T}.
Arguments signTransaction {T}.
Arguments signAuthEntry {T}.
Arguments errorTypes {T}.
Arguments fee {T}.
Arguments timeoutInSeconds {T}.
Arguments simulate {T}.
Arguments method {T}.
Arguments args {T}.
Arguments parseResultXdr {T}.

(** [options.simulate = v] *)
Definition set_simulate {T} (v : bool) (o : t T) : t T :=
  {| rpcUrl := rpcUrl o; contractId := contractId o;
     networkPassphrase := networkPassphrase o; allowHttp := allowHttp o;
     publicKey := publicKey o; signTransaction := signTransaction o;
     signAuthEntry := signAuthEntry o; errorTypes := errorTypes o;
     fee := fee o; timeoutInSeconds := timeoutInSeconds o;
     simulate := Some v; method := method o; args := args o;
     parseResultXdr := parseResultXdr o |}.
End Options.

(** Modelled from the spec: [DEFAULT_TIMEOUT] of module [contract/utils],
    which is not among the sources.  The spec gives the default of
    [timeoutInSeconds] as 30. *)
Definition DEFAULT_TIMEOUT : nat := 30.

Definition NULL_ACCOUNT : string :=
  "GAAAAAAAAAAAAAAAAAAAAAAAAAAAAAAAAAAAAAAAAAAAAAAAAAAAAWHF".

(** ** Helpers of module [contract/utils] and of the JavaScript runtime *)

(** A non-empty string is truthy. *)
Definition truthy_string (s : option string) : bool :=
  match s with
  | Some (String _ _) => true
  | _ => false
  end.

(** An array is an object, and every object is truthy: [!xs] is [false]
    whatever the length of [xs]. *)
Definition truthy_array {A} (xs : list A) : bool := true.

(** [e.toString()] of a thrown value.  The error classes of the sources
    extend [Error] without setting [name], so they render as [Error]. *)
Definition error_name (c : ErrorClass) : string :=
  match c with
  | TypeError => "TypeError"
  | _ => "Error"
  end.

Definition toString (e : Thrown) : string :=
  match e with
  | ErrorObject c EmptyString => error_name c
  | ErrorObject c m => error_name c ++ ": " ++ m
  | Primitive r => r
  end.

(** Modelled from the spec: [implementsToString(e)] of module
    [contract/utils], which is not among the sources; the spec speaks of
    "an error whose string representation matches".  An error object has a
    [toString] method; a thrown primitive is not an object. *)
Definition implementsToString (e : Thrown) : bool :=
  match e with
  | ErrorObject _ _ => true
  | Primitive _ => false
  end.

Definition is_digit (c : ascii) : bool :=
  let n := nat_of_ascii c in (48 <=? n)%nat && (n <=? 57)%nat.

(** The longest run of decimal digits at the start of a string: [\d*]. *)
Fixpoint take_digits (s : string) : string :=
  match s with
  | String c r => if is_digit c then String c (take_digits r) else EmptyString
  | EmptyString => EmptyString
  end.

Fixpoint strip_prefix (p s : string) : option string :=
  match p, s with
  | EmptyString, _ => Some s
  | String a p', String b s' =>
      if Ascii.eqb a b then strip_prefix p' s' else None
  | String _ _, EmptyString => None
  end.

Fixpoint string_drop (n : nat) (s : string) : string :=
  match n, s with
  | S n', String _ r => string_drop n' r
  | _, _ => s
  end.

(** Modelled from the spec: [contractErrorPattern] of module
    [contract/utils], which the spec gives as [/Error\(Contract, #(\d+)\)/]:
    the literal text below, one decimal digit or more (capture group 1) and
    a closing bracket. *)
Definition contractErrorPrefix : string := "Error(Contract, #".

(** The pattern tried at the start of [s]; the answer is capture group 1. *)
Definition match_contractError_here (s : string) : option string :=
  match strip_prefix contractErrorPrefix s with
  | Some rest =>
      match take_digits rest with
      | EmptyString => None
      | ds =>
          match strip_prefix ")" (string_drop (String.length ds) rest) with
          | Some _ => Some ds
          | None => None
          end
      end
  | None => None
  end.

(** [s.match(contractErrorPattern)]: the leftmost match, [match[1]]. *)
Fixpoint match_contractErrorPattern (s : string) : option string :=
  match match_contractError_here s with
  | Some ds => Some ds
  | None =>
      match s with
      | EmptyString => None
      | String _ r => match_contractErrorPattern r
      end
  end.

(** [parseInt(ds, 10)] on a string of decimal digits.  A JavaScript number
    holds an integer below 2^53 exactly; the codes of a contract are
    unsigned 32-bit integers, so the digits of a registered code are read
    exactly. *)
Definition digit_value (c : ascii) : N := N.of_nat (nat_of_ascii c - 48).

Fixpoint parseInt_from (acc : N) (ds : string) : N :=
  match ds with
  | EmptyString => acc
  | String c r => parseInt_from (acc * 10 + digit_value c)%N r
  end.

Definition parseInt (ds : string) : N := parseInt_from 0%N ds.

(** [new Set(xs)] spread back into an array: the values in insertion order,
    a value being inserted when it is not in the set yet. *)
Fixpoint Set_insert_all (seen : list string) (xs : list string) : list string :=
  match xs with
  | [] => seen
  | x :: xs' =>
      if bool_decide (x ∈ seen) then Set_insert_all seen xs'
      else Set_insert_all (seen ++ [x]) xs'
  end.

Definition Set_values (xs : list string) : list string := Set_insert_all [] xs.

(** [xs.indexOf(x) === -1] *)
Definition indexOf_is_minus_one (xs : list string) (x : string) : bool :=
  negb (bool_decide (x ∈ xs)).

(** The rust-like result of module [contract/rust_result]: [.result] yields
    the parsed value, or [new Err(error)]. *)
Inductive ResultValue (T : Type) : Type :=
| Value (v : T)
| Err (error : ErrorMessage).
Arguments Value {T} v.
Arguments Err {T} error.

(** The document a JSON text denotes.  [JSON.stringify] leaves a property
    whose value is [undefined] out of an object. *)
Inductive JSON : Type :=
| JSONString (s : string)
| JSONArray (items : list JSON)
| JSONObject (properties : list (string * JSON)).

Fixpoint JSON_property (key : string) (props : list (string * JSON)) : option JSON :=
  match props with
  | [] => None
  | (k, v) :: rest => if String.eqb k key then Some v else JSON_property key rest
  end.

(** [obj.key] where [obj] may be [undefined] or not an object: reading a
    property of [undefined] throws, of another value gives [undefined]. *)
Definition JSON_get (obj : option JSON) (key : string) : Outcome (option JSON) :=
  match obj with
  | None => throw TypeError "Cannot read properties of undefined"
  | Some (JSONObject props) => Returns (JSON_property key props)
  | Some _ => Returns None
  end.

Definition optional_property (key : string) (v : option JSON)
  : list (string * JSON) :=
  match v with
  | Some j => [(key, j)]
  | None => []
  end.

(** ** Methods: an outcome together with the object as the call leaves it *)

Definition Method (S A : Type) : Type := S → Outcome A * S.

Definition mreturn {S A} (a : A) : Method S A := fun this => (Returns a, this).

Definition mthrow {S A} (cls : ErrorClass) (msg : string) : Method S A :=
  fun this => (throw cls msg, this).

Definition mlift {S A} (o : Outcome A) : Method S A := fun this => (o, this).

Definition mbind_method {S A B} (m : Method S A) (k : A → Method S B)
  : Method S B :=
  fun this =>
    match m this with
    | (Returns a, this') => k a this'
    | (Throws e, this') => (Throws e, this')
    end.

Definition mget {S} : Method S S := fun this => (Returns this, this).

Definition massign {S} (f : S → S) : Method S unit :=
  fun this => (Returns tt, f this).

Notation "'do!' x ':=' m 'in' k" := (mbind_method m (fun x => k))
  (at level 10, x pattern, m at level 100, k at level 200) : outcome_scope.

(** ** [class AssembledTransaction<T>] *)

Module SimulationData.
Record t : Type := {
  result : Api.SimulateHostFunctionResult;
  transactionData : xdr.SorobanTransactionData
}.
End SimulationData.

Module AssembledTransaction.

Record t (T : Type) : Type := {
  options : Options.t T;
  raw : option TransactionBuilder.t;
  built : option Tx;
  simulation : option Api.SimulateTransactionResponse;
  simulationResult : option Api.SimulateHostFunctionResult;
  simulationTransactionData : option xdr.SorobanTransactionData;
  server : Server;
  signed : option Tx
}.
Arguments options {T}.
Arguments raw {T}.
Arguments built {T}.
Arguments simulation {T}.
Arguments simulationResult {T}.
Arguments simulationTransactionData {T}.
Arguments server {T}.
Arguments signed {T}.

Section fields.
Context {T : Type}.

Definition set_raw (v : option TransactionBuilder.t) (this : t T) : t T :=
  {| options := options this; raw := v; built := built this;
     simulation := simulation this; simulationResult := simulationResult this;
     simulationTransactionData := simulationTransactionData this;
     server := server this; signed := signed this |}.

Definition set_built (v : option Tx) (this : t T) : t T :=
  {| options := options this; raw := raw this; built := v;
     simulation := simulation this; simulationResult := simulationResult this;
     simulationTransactionData := simulationTransactionData this;
     server := server this; signed := signed this |}.

Definition set_simulation (v : option Api.SimulateTransactionResponse)
    (this : t T) : t T :=
  {| options := options this; raw := raw this; built := built this;
     simulation := v; simulationResult := simulationResult this;
     simulationTransactionData := simulationTransactionData this;
     server := server this; signed := signed this |}.

Definition set_simulationResult (v : option Api.SimulateHostFunctionResult)
    (this : t T) : t T :=
  {| options := options this; raw := raw this; built := built this;
     simulation := simulation this; simulationResult := v;
     simulationTransactionData := simulationTransactionData this;
     server := server this; signed := signed this |}.

Definition set_simulationTransactionData
    (v : option xdr.SorobanTransactionData) (this : t T) : t T :=
  {| options := options this; raw := raw this; built := built this;
     simulation := simulation this; simulationResult := simulationResult this;
     simulationTransactionData := v;
     server := server this; signed := signed this |}.

Definition set_signed (v : option Tx) (this : t T) : t T :=
  {| options := options this; raw := raw this; built := built this;
     simulation := simulation this; simulationResult := simulationResult this;
     simulationTransactionData := simulationTransactionData this;
     server := server this; signed := v |}.

End fields.

Section methods.
Context {T : Type}.
Context {envelope_codec : XdrCodec TransactionEnvelope}.
Context {scval_codec : XdrCodec xdr.ScVal}.
Context {auth_codec : XdrCodec xdr.SorobanAuthorizationEntry}.
Context {data_codec : XdrCodec xdr.SorobanTransactionData}.

(** The node the RPC calls reach. *)
Variable net : Network.

(** [StrKey.encodeEd25519PublicKey], of the external transaction library. *)
Variable encodeEd25519PublicKey : Buffer → string.

(** [assembleTransaction] of module [rpc/transaction]: the builder that
    merges a successful simulation into the transaction. *)
Variable assembleTransaction :
  Tx → Api.SimulateTransactionSuccessResponse → Outcome TransactionBuilder.t.

(** [authorizeEntry] of the external transaction library: the entry signed
    through the given callback, valid until the given ledger. *)
Variable authorizeEntry :
  xdr.SorobanAuthorizationEntry → SignAuthEntry → nat → string →
  Outcome xdr.SorobanAuthorizationEntry.

(** [JSON.stringify(x, null, 2)] inside error messages. *)
Variable JSON_stringify : ∀ A : Type, A → string.

(** [private constructor(public options)] *)
Definition constructor (options0 : Options.t T) : t T :=
  let options1 :=
    Options.set_simulate (Options.simulate options0 ?? true) options0 in
  {| options := options1;
     raw := None;
     built := None;
     simulation := None;
     simulationResult := None;
     simulationTransactionData := None;
     server := {| serverURL := Options.rpcUrl options1;
                  serverAllowHttp := Options.allowHttp options1 ?? false |};
     signed := None |}.

(** [get simulationData()] *)
Definition simulationData : Method (t T) SimulationData.t :=
  fun this =>
    match simulationResult this, simulationTransactionData this with
    | Some r, Some d =>
        (Returns {| SimulationData.result := r;
                    SimulationData.transactionData := d |}, this)
    | _, _ =>
        match simulation this with
        | None =>
            (throw NotYetSimulated "Transaction has not yet been simulated",
             this)
        | Some (Api.SimulationError error) =>
            (throw Error
               ("Transaction simulation failed: " ++ dquote ++ error ++ dquote),
             this)
        | Some (Api.SimulationSuccess s as sim) =>
            if Api.isSimulationRestore sim then
              (throw ExpiredState
                 ("You need to restore some contract state before you can invoke this method. "
                  ++ JSON_stringify _ sim), this)
            else
              match Api.result s with
              | None =>
                  (throw Error
                     ("Expected an invocation simulation, but got no 'result' field. Simulation: "
                      ++ JSON_stringify _ sim), this)
              | Some r =>
                  (* add to object for serialization & deserialization *)
                  let this1 := set_simulationResult (Some r) this in
                  let this2 :=
                    set_simulationTransactionData
                      (Some (Api.transactionData s)) this1 in
                  (Returns {| SimulationData.result := r;
                              SimulationData.transactionData :=
                                Api.transactionData s |}, this2)
              end
        end
    end.

(** [toJSON()]: the document of the JSON text it returns. *)
Definition toJSON : Method (t T) JSON :=
  do! this := mget in
  let method := Options.method (options this) in
  let tx := Tx_toXDR <$> built this in
  do! sd1 := simulationData in
  let auth := (fun a => JSONString (toXDR a))
                <$> Api.auth (SimulationData.result sd1) in
  do! sd2 := simulationData in
  let retval := toXDR (Api.retval (SimulationData.result sd2)) in
  do! sd3 := simulationData in
  let simulationTransactionData :=
    toXDR (SimulationData.transactionData sd3) in
  mreturn
    (JSONObject
       ([("method", JSONString method)]
        ++ optional_property "tx" (JSONString <$> tx)
        ++ [("simulationResult",
              JSONObject [("auth", JSONArray auth);
                          ("retval", JSONString retval)]);
            ("simulationTransactionData",
              JSONString simulationTransactionData)])).

(** An argument of [fromXDR] that is not a string cannot be decoded. *)
Definition decode_property {A} `{XdrCodec A} (j : option JSON) : Outcome A :=
  match j with
  | Some (JSONString s) => decodeXDR s
  | _ => throw TypeError "XDR Read Error: not a string"
  end.

(** [xs.map(f)] of a property that should be an array. *)
Definition map_property {A} (f : option JSON → Outcome A) (j : option JSON)
  : Outcome (list A) :=
  match j with
  | Some (JSONArray items) => omap_all (fun item => f (Some item)) items
  | None => throw TypeError "Cannot read properties of undefined"
  | Some _ => throw TypeError "map is not a function"
  end.

(** [static fromJSON(options, { tx, simulationResult,
    simulationTransactionData })], the second argument being a parsed JSON
    document. *)
Definition fromJSON (options0 : Options.t T) (json : JSON) : Outcome (t T) :=
  let! tx := JSON_get (Some json) "tx" in
  let! simulationResult0 := JSON_get (Some json) "simulationResult" in
  let! simulationTransactionData0 :=
    JSON_get (Some json) "simulationTransactionData" in
  let txn := constructor options0 in
  let! built0 :=
    match tx with
    | Some (JSONString s) =>
        TransactionBuilder.fromXDR s (Options.networkPassphrase options0)
    | _ => throw TypeError "XDR Read Error: not a string"
    end in
  let txn := set_built (Some built0) txn in
  let! auth_json := JSON_get simulationResult0 "auth" in
  let! auth := map_property decode_property auth_json in
  let! retval_json := JSON_get simulationResult0 "retval" in
  let! retval := decode_property retval_json in
  let txn :=
    set_simulationResult
      (Some {| Api.auth := auth; Api.retval := retval |}) txn in
  let! data := decode_property simulationTransactionData0 in
  let txn := set_simulationTransactionData (Some data) txn in
  Returns txn.

(** [simulate = async () => ...] *)
Definition simulate : Method (t T) unit :=
  do! this := mget in
  match raw this with
  | None =>
      mthrow Error
        "Transaction has not yet been assembled; call `AssembledTransaction.build` first."
  | Some raw0 =>
      let built0 := TransactionBuilder.build raw0 in
      do! _ := massign (set_built (Some built0)) in
      do! sim := mlift (simulateTransaction net built0) in
      do! _ := massign (set_simulation (Some sim)) in
      match sim with
      | Api.SimulationSuccess s =>
          do! assembled := mlift (assembleTransaction built0 s) in
          massign (set_built (Some (TransactionBuilder.build assembled)))
      | Api.SimulationError _ => mreturn tt
      end
  end.

(** [new Contract(contractId)], of the external transaction library: the
    library decodes the id and throws on a string that is no contract id.
    The contract object is kept by the id it holds. *)
Variable new_Contract : string → Outcome string.

(** [contract.call(method, ...args)] *)
Definition Contract_call (contractId method : string) (args : list xdr.ScVal)
  : Operation :=
  InvokeHostFunction (hostFunctionTypeInvokeContract contractId method args) [].

(** [static async build(options)], called when the clock reads [now]. *)
Definition build (now : nat) (options0 : Options.t T) : Outcome (t T) :=
  let tx := constructor options0 in
  let! contract := new_Contract (Options.contractId options0) in
  let! account :=
    if truthy_string (Options.publicKey options0)
    then getAccount net (Options.publicKey options0 ?? EmptyString)
    else Returns {| accountId := NULL_ACCOUNT; sequenceNumber := 0 |} in
  let raw0 :=
    TransactionBuilder.setTimeout now
      (Options.timeoutInSeconds options0 ?? DEFAULT_TIMEOUT)
      (TransactionBuilder.addOperation
         (Contract_call contract
            (Options.method options0) (Options.args options0 ?? []))
         (TransactionBuilder.new account
            (Options.fee options0 ?? BASE_FEE)
            (Options.networkPassphrase options0))) in
  let tx := set_raw (Some raw0) tx in
  if Options.simulate (options tx) ?? false then
    match simulate tx with
    | (Returns _, tx') => Returns tx'
    | (Throws e, _) => Throws e
    end
  else Returns tx.

(** [private parseError(errorMessage)] *)
Definition parseError (this : t T) (errorMessage : string)
  : option (ResultValue T) :=
  match Options.errorTypes (options this) with
  | None => None
  | Some errorTypes =>
      match match_contractErrorPattern errorMessage with
      | None => None
      | Some group1 =>
          let i := parseInt group1 in
          match errorTypes !! i with
          | None => None
          | Some err => Some (Err err)
          end
      end
  end.

(** The [catch] clause of [get result()]. *)
Definition result_catch (e : Thrown) : Method (t T) (ResultValue T) :=
  fun this =>
    if negb (implementsToString e) then (Throws e, this)
    else
      match parseError this (toString e) with
      | Some err => (Returns err, this)
      | None => (Throws e, this)
      end.

(** [get result()]: the [try] block reads [simulationData] and parses the
    return value; whatever either throws reaches the [catch] clause. *)
Definition result : Method (t T) (ResultValue T) :=
  fun this =>
    match simulationData this with
    | (Throws e, this') => result_catch e this'
    | (Returns sd, this') =>
        match Options.parseResultXdr (options this')
                (Api.retval (SimulationData.result sd)) with
        | Returns v => (Returns (Value v), this')
        | Throws e => result_catch e this'
        end
    end.

(** The callback of [filter] in [needsNonInvokerSigningBy]. *)
Definition needs_signing (includeAlreadySigned : bool)
    (entry : xdr.SorobanAuthorizationEntry) : bool :=
  match xdr.credentials entry with
  | xdr.sorobanCredentialsAddress a =>
      includeAlreadySigned
      || bool_decide (xdr.switch_name (xdr.signature a) = "scvVoid")
  | xdr.sorobanCredentialsSourceAccount => false
  end.

(** [StrKey.encodeEd25519PublicKey(
       entry.credentials().address().address().accountId().ed25519())] *)
Definition entry_publicKey (entry : xdr.SorobanAuthorizationEntry)
  : Outcome string :=
  let! a := xdr.credentials_address (xdr.credentials entry) in
  let! account := xdr.ScAddress_accountId (xdr.address a) in
  Returns (encodeEd25519PublicKey (xdr.PublicKey_ed25519 account)).

(** [this.built.operations[0]], as the two methods below read it. *)
Definition first_operation (ops : list Operation) : Outcome Operation :=
  match ops with
  | op :: _ => Returns op
  | [] => throw TypeError "Cannot read properties of undefined (reading 'auth')"
  end.

(** [needsNonInvokerSigningBy = ({ includeAlreadySigned = false } = {}) => ...] *)
Definition needsNonInvokerSigningBy (includeAlreadySigned : bool)
    (this : t T) : Outcome (list string) :=
  match built this with
  | None => throw Error "Transaction has not yet been simulated"
  | Some built0 =>
      match Tx_operations built0 with
      | None =>
          throw Error
            ("Unexpected Transaction type; no operations: "
             ++ JSON_stringify _ built0)
      | Some ops =>
          let! rawInvokeHostFunctionOp := first_operation ops in
          let! keys :=
            omap_all entry_publicKey
              (List.filter (needs_signing includeAlreadySigned)
                 (Operation_auth rawInvokeHostFunctionOp ?? [])) in
          Returns (Set_values keys)
      end
  end.

(** [get isReadCall()] *)
Definition isReadCall : Method (t T) bool :=
  do! sd1 := simulationData in
  let authsCount := length (Api.auth (SimulationData.result sd1)) in
  do! sd2 := simulationData in
  let writeLength :=
    length (xdr.readWrite (xdr.footprint
              (xdr.resources (SimulationData.transactionData sd2)))) in
  mreturn (Nat.eqb authsCount 0 && Nat.eqb writeLength 0).

(** [sign = async ({ force = false, signTransaction =
    this.options.signTransaction } = {}) => ...], started when the clock
    reads [now]. *)
Definition sign (now : nat) (force : option bool)
    (signTransaction_arg : option SignTransaction) : Method (t T) unit :=
  do! this := mget in
  let force := force ?? false in
  let signTransaction :=
    match signTransaction_arg with
    | Some f => Some f
    | None => Options.signTransaction (options this)
    end in
  match built this with
  | None => mthrow Error "Transaction has not yet been simulated"
  | Some _ =>
      do! readCall := (if force then mreturn false else isReadCall) in
      if readCall then
        mthrow NoSignatureNeeded
          "This is a read call. It requires no signature or sending. Use `force: true` to sign and send anyway."
      else
        match signTransaction with
        | None =>
            mthrow NoSigner
              "You must provide a signTransaction function, either when calling `signAndSend` or when initializing your Client"
        | Some signTransaction =>
            do! this := mget in
            do! needs := mlift (needsNonInvokerSigningBy false this) in
            if negb (Nat.eqb (length needs) 0) then
              mthrow NeedsMoreSignatures
                "Transaction requires more signatures. See `needsNonInvokerSigningBy` for details."
            else
              let timeoutInSeconds :=
                Options.timeoutInSeconds (options this) ?? DEFAULT_TIMEOUT in
              match built this with
              | None => mthrow TypeError "Cannot read properties of undefined"
              | Some built0 =>
                  let fee0 := Tx_fee built0 in
                  do! sd := simulationData in
                  do! clone :=
                    mlift (TransactionBuilder.cloneFrom built0 fee0 None
                             (SimulationData.transactionData sd)) in
                  let built1 :=
                    TransactionBuilder.build
                      (TransactionBuilder.setTimeout now timeoutInSeconds clone) in
                  do! _ := massign (set_built (Some built1)) in
                  do! signature :=
                    mlift (signTransaction (Tx_toXDR built1)
                             (Options.networkPassphrase (options this))) in
                  do! signed0 :=
                    mlift (TransactionBuilder.fromXDR signature
                             (Options.networkPassphrase (options this))) in
                  massign (set_signed (Some signed0))
              end
        end
  end.

(** [private getStorageExpiration = async () => ...] *)
Definition getStorageExpiration (this : t T) : Outcome nat :=
  let! entryRes := getLedgerEntries net (Options.contractId (options this)) in
  match Api.entries entryRes with
  | Some (entry :: _) =>
      match Api.liveUntilLedgerSeq entry with
      | Some (S n) => Returns (S n)
      | _ => throw Error "failed to get ledger entry"
      end
  | _ => throw Error "failed to get ledger entry"
  end.

(** The [for] loop of [signAuthEntries] over [authEntries.entries()]:
    [signed_so_far] are the entries already visited, as the loop left them.
    The array is assigned in place, so an exception leaves the entries
    signed before it in the array. *)
Fixpoint signAuthEntries_loop (expiration : Outcome nat)
    (signAuthEntry : SignAuthEntry) (publicKey : option string)
    (passphrase : string)
    (signed_so_far todo : list xdr.SorobanAuthorizationEntry)
  : Outcome unit * list xdr.SorobanAuthorizationEntry :=
  match todo with
  | [] => (Returns tt, signed_so_far)
  | entry :: rest =>
      let continue e :=
        signAuthEntries_loop expiration signAuthEntry publicKey passphrase
          (signed_so_far ++ [e]) rest in
      let abort (e : Thrown) := (Throws e, signed_so_far ++ todo) in
      if negb (xdr.is_sorobanCredentialsAddress (xdr.credentials entry)) then
        (* the invoker/source account: the envelope signature covers it *)
        continue entry
      else
        match entry_publicKey entry with
        | Throws e => abort e
        | Returns pk =>
            if negb (bool_decide (Some pk = publicKey)) then continue entry
            else
              match expiration with
              | Throws e => abort e
              | Returns ledger =>
                  match authorizeEntry entry signAuthEntry ledger passphrase with
                  | Throws e => abort e
                  | Returns entry' => continue entry'
                  end
              end
        end
  end.

(** [rawInvokeHostFunctionOp.auth] after the loop assigned into it. *)
Definition with_auth (auth' : list xdr.SorobanAuthorizationEntry) (built0 : Tx)
  : Tx :=
  match envelope built0 with
  | envelopeTypeTx body =>
      match operations body with
      | InvokeHostFunction func _ :: rest =>
          {| envelope :=
               envelopeTypeTx
                 {| source := source body; fee := fee body;
                    sequence := sequence body; timeBounds := timeBounds body;
                    memo := memo body;
                    operations := InvokeHostFunction func auth' :: rest;
                    sorobanData := sorobanData body;
                    signatures := signatures body |};
             networkPassphrase := networkPassphrase built0 |}
      | _ => built0
      end
  | envelopeTypeTxFeeBump _ => built0
  end.

(** [signAuthEntries = async ({ expiration = this.getStorageExpiration(),
    signAuthEntry = this.options.signAuthEntry,
    publicKey = this.options.publicKey } = {}) => ...] *)
Definition signAuthEntries (expiration_arg : option (Outcome nat))
    (signAuthEntry_arg : option SignAuthEntry)
    (publicKey_arg : option string) : Method (t T) unit :=
  do! this := mget in
  let expiration :=
    match expiration_arg with
    | Some e => e
    | None => getStorageExpiration this
    end in
  let signAuthEntry :=
    match signAuthEntry_arg with
    | Some f => Some f
    | None => Options.signAuthEntry (options this)
    end in
  let publicKey :=
    match publicKey_arg with
    | Some k => Some k
    | None => Options.publicKey (options this)
    end in
  match built this with
  | None => mthrow Error "Transaction has not yet been assembled or simulated"
  | Some built0 =>
      do! needsNonInvokerSigningBy0 :=
        mlift (needsNonInvokerSigningBy false this) in
      if negb (truthy_array needsNonInvokerSigningBy0) then
        mthrow NoUnsignedNonInvokerAuthEntries
          "No unsigned non-invoker auth entries; maybe you already signed?"
      else if indexOf_is_minus_one needsNonInvokerSigningBy0
                (publicKey ?? EmptyString) then
        mthrow NoSignatureNeeded
          ("No auth entries for public key " ++ dquote
           ++ (publicKey ?? "undefined") ++ dquote)
      else
        match signAuthEntry with
        | None =>
            mthrow NoSigner
              "You must provide `signAuthEntry` when calling `signAuthEntries`, or when constructing the `Client` or `AssembledTransaction`"
        | Some signAuthEntry =>
            do! ops := mlift (match Tx_operations built0 with
                              | Some ops => Returns ops
                              | None => throw TypeError "Cannot read properties of undefined"
                              end) in
            do! rawInvokeHostFunctionOp := mlift (first_operation ops) in
            let authEntries := Operation_auth rawInvokeHostFunctionOp ?? [] in
            match signAuthEntries_loop expiration signAuthEntry publicKey
                    (Options.networkPassphrase (options this)) [] authEntries
            with
            | (outcome, authEntries') =>
                do! _ := massign (set_built (Some (with_auth authEntries' built0))) in
                mlift outcome
            end
        end
  end.

(** [SentTransaction.init(this.options, this.signed)], as [send] calls it.
    The class [SentTransaction] is declared further down, on top of this
    one, so [send] and [signAndSend] take their callee as an argument here;
    [AssembledTransaction_send] and [AssembledTransaction_signAndSend],
    after [SentTransaction], are the two methods with [init] as it is. *)
Variable Sent : Type.
Variable SentTransaction_init : Options.t T → Tx → Outcome Sent.

(** [async send()] *)
Definition send : Method (t T) Sent :=
  do! this := mget in
  match signed this with
  | None =>
      mthrow Error
        "The transaction has not yet been signed. Run `sign` first, or use `signAndSend` instead."
  | Some signed0 => mlift (SentTransaction_init (options this) signed0)
  end.

(** [signAndSend = async ({ force = false, signTransaction =
    this.options.signTransaction } = {}) => ...], started when the clock
    reads [now]. *)
Definition signAndSend (now : nat) (force : option bool)
    (signTransaction_arg : option SignTransaction) : Method (t T) Sent :=
  do! this := mget in
  let force := force ?? false in
  let signTransaction :=
    match signTransaction_arg with
    | Some f => Some f
    | None => Options.signTransaction (options this)
    end in
  do! _ :=
    (match signed this with
     | None => sign now (Some force) signTransaction
     | Some _ => mreturn tt
     end) in
  send.

End methods.

End AssembledTransaction.

(** ** [withExponentialBackoff] (module [contract/utils]) *)

(** Modelled from the spec: [withExponentialBackoff(fn, keepWaitingIf,
    timeoutInSeconds)], which is not among the sources.  The spec gives its
    schedule: "Let deadline = start + timeoutInSeconds.  Attempt 0
    immediately after submission.  After attempt i, sleep min(2^i,
    remaining) seconds before attempt i+1.  Stop when the predicate status ≠
    NOT_FOUND or now ≥ deadline.  Attempts and their timestamps are all
    recorded."  [fn now] is the answer to an attempt made at time [now]; an
    attempt that throws rejects the whole call. *)
Equations? backoff_attempts {A : Type} (fn : nat → Outcome A)
    (keepWaitingIf : A → bool) (deadline : nat) (i now : nat)
    (attempts : list A) : Outcome (list A) by wf (deadline - now) lt :=
  backoff_attempts fn keepWaitingIf deadline i now attempts with fn now => {
    | Throws e := Throws e
    | Returns r with keepWaitingIf r => {
        | false := Returns (attempts ++ [r])
        | true with decide (now < deadline) => {
            | right _ := Returns (attempts ++ [r])
            | left _ :=
                backoff_attempts fn keepWaitingIf deadline (S i)
                  (now + Nat.min (2 ^ i) (deadline - now)) (attempts ++ [r])
          }
      }
  }.
Proof.
  pose proof (Nat.pow_nonzero 2 i). lia.
Qed.

Definition withExponentialBackoff {A : Type} (start : nat)
    (fn : nat → Outcome A) (keepWaitingIf : A → bool)
    (timeoutInSeconds : nat) : Outcome (list A) :=
  backoff_attempts fn keepWaitingIf (start + timeoutInSeconds) 0 start [].

(** ** [class SentTransaction<T>] *)

Module SentTransaction.

Record t (T : Type) : Type := {
  signTransaction : option SignTransaction;
  assembled : AssembledTransaction.t T;
  server : Server;
  signed : option Tx;
  sendTransactionResponse : option Api.SendTransactionResponse;
  getTransactionResponseAll : option (list Api.GetTransactionResponse);
  getTransactionResponse : option Api.GetTransactionResponse
}.
Arguments signTransaction {T}.
Arguments assembled {T}.
Arguments server {T}.
Arguments signed {T}.
Arguments sendTransactionResponse {T}.
Arguments getTransactionResponseAll {T}.
Arguments getTransactionResponse {T}.

(** TypeScript's parameter types are gone when the program runs: the
    constructor and [init] take the values they are called with.  Besides
    the declared ones (a function or [undefined], an assembled
    transaction), [AssembledTransaction.send] passes an options object and
    a transaction. *)
Inductive Argument (T : Type) : Type :=
| undefined_value
| function_value (f : SignTransaction)
| options_value (o : Options.t T)
| assembled_value (a : AssembledTransaction.t T)
| transaction_value (tx : Tx).
Arguments undefined_value {T}.
Arguments function_value {T} f.
Arguments options_value {T} o.
Arguments assembled_value {T} a.
Arguments transaction_value {T} tx.

Section fields.
Context {T : Type}.

Definition set_assembled (v : AssembledTransaction.t T) (this : t T) : t T :=
  {| signTransaction := signTransaction this; assembled := v;
     server := server this; signed := signed this;
     sendTransactionResponse := sendTransactionResponse this;
     getTransactionResponseAll := getTransactionResponseAll this;
     getTransactionResponse := getTransactionResponse this |}.

Definition set_signed (v : option Tx) (this : t T) : t T :=
  {| signTransaction := signTransaction this; assembled := assembled this;
     server := server this; signed := v;
     sendTransactionResponse := sendTransactionResponse this;
     getTransactionResponseAll := getTransactionResponseAll this;
     getTransactionResponse := getTransactionResponse this |}.

Definition set_sendTransactionResponse
    (v : option Api.SendTransactionResponse) (this : t T) : t T :=
  {| signTransaction := signTransaction this; assembled := assembled this;
     server := server this; signed := signed this;
     sendTransactionResponse := v;
     getTransactionResponseAll := getTransactionResponseAll this;
     getTransactionResponse := getTransactionResponse this |}.

Definition set_getTransactionResponseAll
    (v : option (list Api.GetTransactionResponse)) (this : t T) : t T :=
  {| signTransaction := signTransaction this; assembled := assembled this;
     server := server this; signed := signed this;
     sendTransactionResponse := sendTransactionResponse this;
     getTransactionResponseAll := v;
     getTransactionResponse := getTransactionResponse this |}.

Definition set_getTransactionResponse
    (v : option Api.GetTransactionResponse) (this : t T) : t T :=
  {| signTransaction := signTransaction this; assembled := assembled this;
     server := server this; signed := signed this;
     sendTransactionResponse := sendTransactionResponse this;
     getTransactionResponseAll := getTransactionResponseAll this;
     getTransactionResponse := v |}.

End fields.

Section methods.
Context {T : Type}.
Context {envelope_codec : XdrCodec TransactionEnvelope}.
Context {data_codec : XdrCodec xdr.SorobanTransactionData}.
Variable net : Network.
Variable JSON_stringify : ∀ A : Type, A → string.

(** [constructor(public signTransaction, public assembled)] *)
Definition constructor (signTransaction0 : option SignTransaction)
    (assembled0 : AssembledTransaction.t T) : Outcome (t T) :=
  match signTransaction0 with
  | None =>
      throw Error
        "You must provide a `signTransaction` function to send a transaction"
  | Some _ =>
      let o := AssembledTransaction.options assembled0 in
      Returns
        {| signTransaction := signTransaction0;
           assembled := assembled0;
           server := {| serverURL := Options.rpcUrl o;
                        serverAllowHttp := Options.allowHttp o ?? false |};
           signed := None;
           sendTransactionResponse := None;
           getTransactionResponseAll := None;
           getTransactionResponse := None |}
  end.

(** A getter or method of [this.assembled], run on the field. *)
Definition on_assembled {A} (m : Method (AssembledTransaction.t T) A)
  : Method (t T) A :=
  fun this =>
    match m (assembled this) with
    | (o, assembled') => (o, set_assembled assembled' this)
    end.

Definition undefined_property {A} : Outcome A :=
  throw TypeError "Cannot read properties of undefined".

(** The first half of [send]: refresh the envelope, have it signed, submit
    it.  The answer is the [hash] of a [PENDING] submission. *)
Definition send_submit (now : nat) (updateTimeout : bool)
    (timeoutInSeconds : nat) : Method (t T) string :=
  do! this := mget in
  let options0 := AssembledTransaction.options (assembled this) in
  do! _ :=
    (if updateTimeout then
       do! built0 := mlift (match AssembledTransaction.built (assembled this) with
                            | Some b => Returns b
                            | None => undefined_property
                            end) in
       let fee0 := Tx_fee built0 in
       do! sd := on_assembled (AssembledTransaction.simulationData JSON_stringify) in
       do! sorobanData0 :=
         mlift (decodeXDR (toXDR (SimulationData.transactionData sd))) in
       do! clone :=
         mlift (TransactionBuilder.cloneFrom built0 fee0 None sorobanData0) in
       on_assembled
         (massign
            (AssembledTransaction.set_built
               (Some (TransactionBuilder.build
                        (TransactionBuilder.setTimeout now timeoutInSeconds
                           clone)))))
     else mreturn tt) in
  do! this := mget in
  do! built1 := mlift (match AssembledTransaction.built (assembled this) with
                       | Some b => Returns b
                       | None => undefined_property
                       end) in
  do! sign0 := mlift (match signTransaction this with
                      | Some f => Returns f
                      | None => throw TypeError "this.signTransaction is not a function"
                      end) in
  do! signature :=
    mlift (sign0 (Tx_toXDR built1) (Options.networkPassphrase options0)) in
  do! signed0 :=
    mlift (TransactionBuilder.fromXDR signature
             (Options.networkPassphrase options0)) in
  do! _ := massign (set_signed (Some signed0)) in
  do! response := mlift (sendTransaction net signed0) in
  do! _ := massign (set_sendTransactionResponse (Some response)) in
  if negb (bool_decide (Api.sendStatus response = Api.PENDING)) then
    mthrow SendFailed
      ("Sending the transaction to the network failed!"
       ++ JSON_stringify _ response)
  else mreturn (Api.hash response).

Definition keepWaiting (resp : Api.GetTransactionResponse) : bool :=
  bool_decide (Api.status resp = Api.NOT_FOUND).

(** The second half of [send]: poll [getTransaction(hash)], the first
    attempt being made at time [start]. *)
Definition send_poll (start : nat) (timeoutInSeconds : nat) (hash : string)
  : Method (t T) unit :=
  do! all :=
    mlift (withExponentialBackoff start (getTransaction net hash) keepWaiting
             timeoutInSeconds) in
  do! _ := massign (set_getTransactionResponseAll (Some all)) in
  do! _ := massign (set_getTransactionResponse (last all)) in
  do! this := mget in
  match last all with
  | None => mlift undefined_property
  | Some response =>
      if bool_decide (Api.status response = Api.NOT_FOUND) then
        mthrow TransactionStillPending
          ("Waited " ++ JSON_stringify _ timeoutInSeconds
           ++ " seconds for transaction to complete, but it did not. "
           ++ "Returning anyway. Check the transaction status manually. "
           ++ "Sent transaction: "
           ++ JSON_stringify _ (sendTransactionResponse this)
           ++ "All attempts to get the result: " ++ JSON_stringify _ all)
      else mreturn tt
  end.

(** [private send = async (updateTimeout = true) => ...]: the envelope is
    refreshed at time [now] and the first poll is made at time [start]. *)
Definition send (now start : nat) (updateTimeout : option bool)
  : Method (t T) unit :=
  do! this := mget in
  let timeoutInSeconds :=
    Options.timeoutInSeconds (AssembledTransaction.options (assembled this))
      ?? DEFAULT_TIMEOUT in
  do! hash := send_submit now (updateTimeout ?? true) timeoutInSeconds in
  send_poll start timeoutInSeconds hash.

(** [static init = async (signTransaction, assembled, updateTimeout = true)] *)
Definition init (now start : nat) (signTransaction0 : option SignTransaction)
    (assembled0 : AssembledTransaction.t T) (updateTimeout : option bool)
  : Outcome (t T) :=
  let! tx := constructor signTransaction0 assembled0 in
  match send now start (Some (updateTimeout ?? true)) tx with
  | (Returns _, sent) => Returns sent
  | (Throws e, _) => Throws e
  end.

(** [!v] *)
Definition falsy (v : Argument T) : bool :=
  match v with undefined_value => true | _ => false end.

(** The declared first argument as a value. *)
Definition signer_value (signTransaction0 : option SignTransaction)
  : Argument T :=
  match signTransaction0 with
  | Some f => function_value f
  | None => undefined_value
  end.

(** What a call of [this.signTransaction] can use of a value: the function,
    if it is one.  Calling anything else throws the [TypeError] that
    [send] throws on [None]. *)
Definition callable (v : Argument T) : option SignTransaction :=
  match v with function_value f => Some f | _ => None end.

(** [new SentTransaction(signTransaction, assembled)] on any two values.
    The parameter properties are assigned, then the body runs: it tests
    [!signTransaction] and reads [this.assembled.options.rpcUrl].  Of the
    values above only an assembled transaction has a property [options]:
    on the others [this.assembled.options] is [undefined], and reading
    [rpcUrl] of it throws; on [undefined] reading [options] throws. *)
Definition new (signTransaction0 assembled0 : Argument T) : Outcome (t T) :=
  if falsy signTransaction0 then
    throw Error
      "You must provide a `signTransaction` function to send a transaction"
  else
    match assembled0 with
    | assembled_value a =>
        let o := AssembledTransaction.options a in
        Returns
          {| signTransaction := callable signTransaction0;
             assembled := a;
             server := {| serverURL := Options.rpcUrl o;
                          serverAllowHttp := Options.allowHttp o ?? false |};
             signed := None;
             sendTransactionResponse := None;
             getTransactionResponseAll := None;
             getTransactionResponse := None |}
    | undefined_value =>
        throw TypeError
          "Cannot read properties of undefined (reading 'options')"
    | function_value _ | options_value _ | transaction_value _ =>
        throw TypeError
          "Cannot read properties of undefined (reading 'rpcUrl')"
    end.

(** [SentTransaction.init(signTransaction, assembled, updateTimeout)] on
    any two values. *)
Definition init_call (now start : nat)
    (signTransaction0 assembled0 : Argument T) (updateTimeout : option bool)
  : Outcome (t T) :=
  let! tx := new signTransaction0 assembled0 in
  match send now start (Some (updateTimeout ?? true)) tx with
  | (Returns _, sent) => Returns sent
  | (Throws e, _) => Throws e
  end.

(** [get result()] *)
Definition result (this : t T) : Outcome T :=
  match getTransactionResponse this with
  | Some response =>
      match Api.returnValue response with
      | Some returnValue =>
          Options.parseResultXdr
            (AssembledTransaction.options (assembled this)) returnValue
      | None => throw Error "Transaction failed! Cannot parse result."
      end
  | None =>
      match sendTransactionResponse this with
      | Some response =>
          match Api.errorResult response with
          | Some errorResult =>
              throw SendFailed
                ("Transaction simulation looked correct, but attempting to send the transaction failed. Check `simulation` and `sendTransactionResponseAll` to troubleshoot. Decoded `sendTransactionResponse.errorResultXdr`: "
                 ++ errorResult)
          | None =>
              throw SendResultOnly
                "Transaction was sent to the network, but not yet awaited. No result to show. Await transaction completion with `getTransaction(sendTransactionResponse.hash)`"
          end
      | None =>
          throw Error
            ("Sending transaction failed: " ++ JSON_stringify _ (assembled this))
      end
  end.

End methods.

End SentTransaction.

(** ** [AssembledTransaction.send] and [signAndSend] with their callee *)

Section sending.
Context {T : Type}.
Context {envelope_codec : XdrCodec TransactionEnvelope}.
Context {data_codec : XdrCodec xdr.SorobanTransactionData}.
Variable net : Network.
Variable encodeEd25519PublicKey : Buffer → string.
Variable JSON_stringify : ∀ A : Type, A → string.

(** [SentTransaction.init(this.options, this.signed)]: the options object
    goes where [signTransaction] is declared, the signed transaction where
    [assembled] is, and [updateTimeout] is left out.  The call is made when
    the clock reads [now], a poll would start at [start]. *)
Definition SentTransaction_init_of_send (now start : nat)
    (options0 : Options.t T) (signed0 : Tx) : Outcome (SentTransaction.t T) :=
  SentTransaction.init_call net JSON_stringify now start
    (SentTransaction.options_value options0)
    (SentTransaction.transaction_value signed0) None.

(** [async send()] of [AssembledTransaction] *)
Definition AssembledTransaction_send (now start : nat)
  : Method (AssembledTransaction.t T) (SentTransaction.t T) :=
  AssembledTransaction.send (SentTransaction.t T)
    (SentTransaction_init_of_send now start).

(** [signAndSend] of [AssembledTransaction]: [sign] runs when the clock
    reads [signing]. *)
Definition AssembledTransaction_signAndSend (signing now start : nat)
    (force : option bool) (signTransaction_arg : option SignTransaction)
  : Method (AssembledTransaction.t T) (SentTransaction.t T) :=
  AssembledTransaction.signAndSend encodeEd25519PublicKey JSON_stringify
    (SentTransaction.t T) (SentTransaction_init_of_send now start)
    signing force signTransaction_arg.

End sending.

(** ** [class ContractClient] *)

(** The values the option objects of the client hold.  A function value is
    kept by what it is: [JsParseResultXdr m] is the closure
    [(result) => spec.funcResToNative(m, result)], [JsFunction f] a callback
    supplied by the caller. *)
Inductive JsValue : Type :=
| JsUndefined
| JsBoolean (b : bool)
| JsNumber (n : Z)
| JsString (s : string)
| JsScVals (vals : list xdr.ScVal)
| JsErrorTypes (table : gmap N ErrorMessage)
| JsParseResultXdr (method : string)
| JsFunction (name : string)
| JsObject (properties : gmap string JsValue).

(** An object literal [{ ...a, ...b }]: the properties of [b] win.  Spreading
    [undefined] adds nothing. *)
Definition spread (base : gmap string JsValue)
    (obj : option (gmap string JsValue)) : gmap string JsValue :=
  match obj with
  | Some props => props ∪ base
  | None => base
  end.

(** The interface description of a contract ([ContractSpec], of the package
    root): its function and error-case entries and its marshalling of
    arguments. *)
Record ScSpecFunctionV0 : Type := {
  name : string;
  inputs : list (string * string);
  outputs : list string
}.

Record ScSpecUdtErrorEnumCaseV0 : Type := {
  doc : string;
  value : N
}.

(** The class is not among the sources: what [funcs()] and [errorCases()]
    return is data, and [getFunc(name)] and [funcArgsToScVals(name, args)]
    are kept as the functions they are, each free to throw. *)
Record ContractSpec : Type := {
  funcs : list ScSpecFunctionV0;
  errorCases : list ScSpecUdtErrorEnumCaseV0;
  getFunc : string → Outcome ScSpecFunctionV0;
  funcArgsToScVals :
    string → option (gmap string JsValue) → Outcome (list xdr.ScVal)
}.

(** [spec.errorCases().reduce((acc, curr) => ({ ...acc, [curr.value()]:
    { message: curr.doc().toString() } }), {})] *)
Definition errorTypes_of (spec : ContractSpec) : gmap N ErrorMessage :=
  fold_left
    (fun acc curr => <[value curr := {| message := doc curr |}]> acc)
    (errorCases spec) ∅.

(** A method attached to the client: the parameters its function value
    declares, and what argument of [AssembledTransaction.build] a call with
    two positional arguments (each possibly [undefined]) makes. *)
Record ClientMethod : Type := {
  parameters : list string;
  call : option (gmap string JsValue) → option (gmap string JsValue) →
         Outcome (gmap string JsValue)
}.

(** [this[method] = f] over a fresh object. *)
Definition attach (methods : gmap string ClientMethod) (method : string)
    (f : ClientMethod) : gmap string ClientMethod :=
  <[method := f]> methods.

(** The class [ContractClient] whose source follows [SentTransaction] in
    [contract/sent_transaction.ts]. *)
Module ContractClient.

Section constructor.
Variable spec : ContractSpec.
Variable options : gmap string JsValue.

(** [const assembleTransaction = (args?, methodOptions?) =>
      AssembledTransaction.build({ method, args: args &&
      spec.funcArgsToScVals(method, args), ...options, ...methodOptions,
      errorTypes: ..., parseResultXdr: ... })]: the object passed to
    [build]. *)
Definition assembleTransaction (method : string)
    (args methodOptions : option (gmap string JsValue))
  : Outcome (gmap string JsValue) :=
  let! args' :=
    match args with
    | Some a => let! vals := funcArgsToScVals spec method (Some a) in
                Returns (JsScVals vals)
    | None => Returns JsUndefined
    end in
  Returns
    (<["parseResultXdr" := JsParseResultXdr method]>
       (<["errorTypes" := JsErrorTypes (errorTypes_of spec)]>
          (spread
             (spread (<["args" := args']> {["method" := JsString method]})
                (Some options))
             methodOptions))).

(** The body of the [forEach] callback for one function entry. *)
Definition bind_method (methods : gmap string ClientMethod)
    (xdrFn : ScSpecFunctionV0) : Outcome (gmap string ClientMethod) :=
  let method := name xdrFn in
  let! fn := getFunc spec method in
  Returns
    (attach methods method
       (if Nat.eqb (length (inputs fn)) 0 then
          {| parameters := ["opts"];
             call := fun opts _ => assembleTransaction method None opts |}
        else
          {| parameters := ["args"; "methodOptions"];
             call := assembleTransaction method |})).

Fixpoint forEach (fns : list ScSpecFunctionV0)
    (methods : gmap string ClientMethod) : Outcome (gmap string ClientMethod) :=
  match fns with
  | [] => Returns methods
  | xdrFn :: rest =>
      let! methods' := bind_method methods xdrFn in
      forEach rest methods'
  end.

(** [constructor(spec, options)]: the methods of the new client. *)
Definition constructor : Outcome (gmap string ClientMethod) :=
  forEach (funcs spec) ∅.

End constructor.

End ContractClient.

(** The class [ContractClient] of [contract_client/client.ts]. *)
Module contract_client.
Module ContractClient.

Section constructor.
Variable spec : ContractSpec.
Variable this_options : gmap string JsValue.

(** [this[name] = async (args, options) => await
      AssembledTransaction.build({ method: name, args:
      spec.funcArgsToScVals(name, args), ...options, ...this.options,
      errorTypes: ..., parseResultXdr: ... })]: the object passed to
    [build]. *)
Definition method_body (name0 : string)
    (args options : option (gmap string JsValue))
  : Outcome (gmap string JsValue) :=
  let! vals := funcArgsToScVals spec name0 args in
  Returns
    (<["parseResultXdr" := JsParseResultXdr name0]>
       (<["errorTypes" := JsErrorTypes (errorTypes_of spec)]>
          (spread
             (spread (<["args" := JsScVals vals]> {["method" := JsString name0]})
                options)
             (Some this_options)))).

Definition bind_method (methods : gmap string ClientMethod)
    (method : ScSpecFunctionV0) : gmap string ClientMethod :=
  let name0 := name method in
  attach methods name0
    {| parameters := ["args"; "options"];
       call := method_body name0 |}.

(** [constructor(spec, options)]: the methods of the new client. *)
Definition constructor : gmap string ClientMethod :=
  fold_left bind_method (funcs spec) ∅.

End constructor.

End ContractClient.
End contract_client.

(** ** Reference definitions

    The spec's wording of two operations, against which the code is
    compared. *)

(** "Deduplicate preserving first-seen order": the first element is kept,
    its later occurrences are dropped, and so on for the rest. *)
Fixpoint first_occurrences (xs : list string) : list string :=
  match xs with
  | [] => []
  | x :: xs' =>
      x :: List.filter (fun y => negb (String.eqb y x)) (first_occurrences xs')
  end.

(** [co_signers auth accounts]: [accounts] are the keys, in order, of the
    entries of [auth] that are address-credentialed for an account with the
    signature slot still void; the other entries are source-credentialed,
    or address-credentialed with the slot filled. *)
Inductive co_signers
  : list xdr.SorobanAuthorizationEntry → list Buffer → Prop :=
| co_signers_nil : co_signers [] []
| co_signers_source entry auth accounts :
    xdr.credentials entry = xdr.sorobanCredentialsSourceAccount →
    co_signers auth accounts →
    co_signers (entry :: auth) accounts
| co_signers_signed entry a auth accounts :
    xdr.credentials entry = xdr.sorobanCredentialsAddress a →
    xdr.switch_name (xdr.signature a) ≠ "scvVoid" →
    co_signers auth accounts →
    co_signers (entry :: auth) accounts
| co_signers_address entry a key auth accounts :
    xdr.credentials entry = xdr.sorobanCredentialsAddress a →
    xdr.address a = xdr.scAddressTypeAccount (xdr.publicKeyTypeEd25519 key) →
    xdr.signature a = xdr.scvVoid →
    co_signers auth accounts →
    co_signers (entry :: auth) (key :: accounts).

(** [contract_error this e err]: the string form of the thrown value [e]
    matches the contract-error pattern with a numeric code that the error
    table of the options registers, with entry [err]. *)
Definition contract_error {T} (this : AssembledTransaction.t T) (e : Thrown)
    (err : ErrorMessage) : Prop :=
  implementsToString e = true
  ∧ ∃ errorTypes group1,
      Options.errorTypes (AssembledTransaction.options this) = Some errorTypes
      ∧ match_contractErrorPattern (toString e) = Some group1
      ∧ errorTypes !! parseInt group1 = Some err.

(** A string of decimal digits. *)
Fixpoint all_digits (s : string) : bool :=
  match s with
  | EmptyString => true
  | String c r => is_digit c && all_digits r
  end.

(** The [publicKey] parameter of [signAuthEntries] after its default. *)
Definition effective_publicKey {T} (this : AssembledTransaction.t T)
    (publicKey_arg : option string) : option string :=
  match publicKey_arg with
  | Some k => Some k
  | None => Options.publicKey (AssembledTransaction.options this)
  end.

(** The spec's words for the method of a function: "[(args,
    methodOptions?)] if the function has ≥1 declared input;
    [(methodOptions?)] if the function has 0 inputs." *)
Definition declared_method (spec : ContractSpec)
    (options : gmap string JsValue) (f : ScSpecFunctionV0) : ClientMethod :=
  match inputs f with
  | [] =>
      {| parameters := ["opts"];
         call := fun methodOptions _ =>
           ContractClient.assembleTransaction spec options (name f) None
             methodOptions |}
  | _ :: _ =>
      {| parameters := ["args"; "methodOptions"];
         call := ContractClient.assembleTransaction spec options (name f) |}
  end.

(** The keys the spec gives the two option records: "ClientOptions —
    configuration for one client instance. Recognised options: rpcUrl,
    contractId, networkPassphrase, allowHttp, publicKey, signTransaction,
    signAuthEntry, errorTypes" and "MethodOptions — per-invocation
    overrides: fee, timeoutInSeconds, simulate". *)
Definition ClientOptions_keys : list string :=
  ["rpcUrl"; "contractId"; "networkPassphrase"; "allowHttp"; "publicKey";
   "signTransaction"; "signAuthEntry"; "errorTypes"].

Definition MethodOptions_keys : list string :=
  ["fee"; "timeoutInSeconds"; "simulate"].

(** What the claim asks of the object passed to
    [AssembledTransaction.build]: every per-invocation value is in it under
    its key, and the error table and the result parser are the ones made
    from the spec. *)
Definition passes_method_options (spec : ContractSpec) (method : string)
    (methodOptions obj : gmap string JsValue) : Prop :=
  (∀ k v, methodOptions !! k = Some v → obj !! k = Some v)
  ∧ obj !! "errorTypes" = Some (JsErrorTypes (errorTypes_of spec))
  ∧ obj !! "parseResultXdr" = Some (JsParseResultXdr method).

(** The spec's schedule of the polls: "Attempt 0 immediately after
    submission.  After attempt i, sleep min(2^i, remaining) seconds before
    attempt i+1", for as long as the deadline has not come.
    [schedule fuel i now deadline] lists the time of attempt [i], made at
    [now], and of the attempts after it; [fuel] bounds their number. *)
Fixpoint schedule (fuel i now deadline : nat) : list nat :=
  match fuel with
  | 0 => [now]
  | S fuel' =>
      if decide (now < deadline)%nat
      then now :: schedule fuel' (S i)
                    (now + Nat.min (2 ^ i) (deadline - now)) deadline
      else [now]
  end.

(** The times of all the polls of a submission polled from [start] on,
    when no poll ends the wait. *)
Definition attempt_times (start timeoutInSeconds : nat) : list nat :=
  schedule timeoutInSeconds 0 start (start + timeoutInSeconds).

(** ** Sample data

    Concrete values on which the definitions are run: two accounts, the
    authorization entries of a swap between them, a built transaction, the
    answer of a simulation, and table codecs that serialise these values. *)

Definition sample_encodeEd25519PublicKey (key : Buffer) : string :=
  ("G" ++ string_of_list_byte key)%string.

Definition sample_JSON_stringify (A : Type) (x : A) : string := "{...}".

Definition alice : Buffer := list_byte_of_string "ALICE".
Definition bob : Buffer := list_byte_of_string "BOB".

Definition swap_invocation : xdr.SorobanAuthorizedInvocation :=
  xdr.AuthorizedInvocation (xdr.scAddressTypeContract (list_byte_of_string "SWAP"))
    "swap" [xdr.scvU32 10; xdr.scvU32 5] [].

Definition unsigned_entry (key : Buffer) : xdr.SorobanAuthorizationEntry :=
  {| xdr.credentials :=
       xdr.sorobanCredentialsAddress
         {| xdr.address :=
              xdr.scAddressTypeAccount (xdr.publicKeyTypeEd25519 key);
            xdr.nonce := 7;
            xdr.signatureExpirationLedger := 0;
            xdr.signature := xdr.scvVoid |};
     xdr.rootInvocation := swap_invocation |}.

Definition signed_entry (key : Buffer) : xdr.SorobanAuthorizationEntry :=
  {| xdr.credentials :=
       xdr.sorobanCredentialsAddress
         {| xdr.address :=
              xdr.scAddressTypeAccount (xdr.publicKeyTypeEd25519 key);
            xdr.nonce := 7;
            xdr.signatureExpirationLedger := 1000;
            xdr.signature := xdr.scvVec [xdr.scvBytes key] |};
     xdr.rootInvocation := swap_invocation |}.

Definition source_entry : xdr.SorobanAuthorizationEntry :=
  {| xdr.credentials := xdr.sorobanCredentialsSourceAccount;
     xdr.rootInvocation := swap_invocation |}.

Definition sample_data (writes : list xdr.LedgerKey)
  : xdr.SorobanTransactionData :=
  {| xdr.resources :=
       {| xdr.footprint :=
            {| xdr.readOnly :=
                 [xdr.ledgerKeyContractCode (list_byte_of_string "WASM")];
               xdr.readWrite := writes |};
          xdr.instructions := 1000;
          xdr.readBytes := 200;
          xdr.writeBytes := 0 |};
     xdr.resourceFee := 5000 |}.

Definition sample_body (auth : list xdr.SorobanAuthorizationEntry)
  : TransactionBody :=
  {| source := "GINVOKER";
     fee := 5100;
     sequence := 42;
     timeBounds := Some {| minTime := 0; maxTime := 1030 |};
     memo := None;
     operations :=
       [InvokeHostFunction
          (hostFunctionTypeInvokeContract "CSWAP" "swap"
             [xdr.scvU32 10; xdr.scvU32 5]) auth];
     sorobanData := Some (sample_data []);
     signatures := [] |}.

Definition sample_tx (auth : list xdr.SorobanAuthorizationEntry) : Tx :=
  {| envelope := envelopeTypeTx (sample_body auth);
     networkPassphrase := "Standalone Network ; February 2017" |}.

(** A table codec: the one value [x] it knows is written as [text]. *)
Definition table_codec {A} (x : A) (text : string) : XdrCodec A :=
  {| toXDR := fun _ => text;
     fromXDR := fun s => if String.eqb s text then Some x else None |}.

Definition sample_scval_codec : XdrCodec xdr.ScVal :=
  {| toXDR := fun v =>
       match v with
       | xdr.scvVoid => "AAAAAQ=="
       | xdr.scvBool true => "AAAAAAAAAAE="
       | xdr.scvBool false => "AAAAAAAAAAA="
       | _ => "AAAAAg=="
       end;
     fromXDR := fun s =>
       if String.eqb s "AAAAAQ==" then Some xdr.scvVoid
       else if String.eqb s "AAAAAAAAAAE=" then Some (xdr.scvBool true)
       else if String.eqb s "AAAAAAAAAAA=" then Some (xdr.scvBool false)
       else None |}.

Definition sample_auth_codec : XdrCodec xdr.SorobanAuthorizationEntry :=
  {| toXDR := fun e =>
       match xdr.credentials e with
       | xdr.sorobanCredentialsSourceAccount => "source"
       | xdr.sorobanCredentialsAddress a =>
           match xdr.address a with
           | xdr.scAddressTypeAccount (xdr.publicKeyTypeEd25519 key) =>
               ("unsigned:" ++ string_of_list_byte key)%string
           | xdr.scAddressTypeContract _ => "contract"
           end
       end;
     fromXDR := fun s =>
       if String.eqb s "source" then Some source_entry
       else match strip_prefix "unsigned:" s with
            | Some key => Some (unsigned_entry (list_byte_of_string key))
            | None => None
            end |}.

Definition sample_options (T : Type) (parse : xdr.ScVal → Outcome T)
  : Options.t T :=
  {| Options.rpcUrl := "https://rpc.example";
     Options.contractId := "CSWAP";
     Options.networkPassphrase := "Standalone Network ; February 2017";
     Options.allowHttp := None;
     Options.publicKey := None;
     Options.signTransaction := None;
     Options.signAuthEntry := None;
     Options.errorTypes := Some {[ 3%N := {| message := "insufficient" |} ]};
     Options.fee := None;
     Options.timeoutInSeconds := Some 20;
     Options.simulate := None;
     Options.method := "swap";
     Options.args := None;
     Options.parseResultXdr := parse |}.

(** A transaction on which a simulation has completed: [auth] are the
    entries it reported, [writes] the read-write footprint, [retval] the
    return value. *)
Definition simulated {T} (parse : xdr.ScVal → Outcome T)
    (auth : list xdr.SorobanAuthorizationEntry) (writes : list xdr.LedgerKey)
    (retval : xdr.ScVal) : AssembledTransaction.t T :=
  {| AssembledTransaction.options := sample_options T parse;
     AssembledTransaction.raw := None;
     AssembledTransaction.built := Some (sample_tx auth);
     AssembledTransaction.simulation :=
       Some (Api.SimulationSuccess
               {| Api.transactionData := sample_data writes;
                  Api.minResourceFee := 5000;
                  Api.result := Some {| Api.auth := auth; Api.retval := retval |};
                  Api.restorePreamble := None;
                  Api.latestLedger := 99 |});
     AssembledTransaction.simulationResult := None;
     AssembledTransaction.simulationTransactionData := None;
     AssembledTransaction.server :=
       {| serverURL := "https://rpc.example"; serverAllowHttp := false |};
     AssembledTransaction.signed := None |}.

Definition parse_bool (v : xdr.ScVal) : Outcome bool :=
  match v with
  | xdr.scvBool b => Returns b
  | _ => throw Error "not a bool"
  end.

(** A contract with a counter and a greeting: [inc()] declares no input,
    [hello(to)] one; error code 3 is documented. *)
Definition sample_spec : ContractSpec :=
  {| funcs :=
       [ {| name := "inc"; inputs := []; outputs := ["u32"] |};
         {| name := "hello"; inputs := [("to", "symbol")];
            outputs := ["vec"] |} ];
     errorCases := [ {| doc := "insufficient"; value := 3 |} ];
     getFunc := fun method =>
       if String.eqb method "inc"
       then Returns {| name := "inc"; inputs := []; outputs := ["u32"] |}
       else if String.eqb method "hello"
       then Returns {| name := "hello"; inputs := [("to", "symbol")];
                       outputs := ["vec"] |}
       else throw Error ("no such entry: " ++ method);
     funcArgsToScVals := fun method args =>
       if String.eqb method "inc" then Returns []
       else
         match args with
         | None => throw TypeError "Cannot read properties of undefined"
         | Some a =>
             match a !! "to" with
             | Some (JsString to) => Returns [xdr.scvSymbol to]
             | _ => throw Error "invalid argument"
             end
         end |}.

(** Client options that also carry a default fee. *)
Definition sample_client_options : gmap string JsValue :=
  list_to_map
    [ ("rpcUrl", JsString "https://rpc.example");
      ("contractId", JsString "CSWAP");
      ("networkPassphrase", JsString "Standalone Network ; February 2017");
      ("fee", JsNumber 100) ].

(** Client options with the keys of [ClientOptions] only. *)
Definition typed_client_options : gmap string JsValue :=
  list_to_map
    [ ("rpcUrl", JsString "https://rpc.example");
      ("contractId", JsString "CSWAP");
      ("networkPassphrase", JsString "Standalone Network ; February 2017");
      ("publicKey", JsString "GINVOKER") ].

Definition sample_method_options : gmap string JsValue :=
  list_to_map [ ("fee", JsNumber 500); ("simulate", JsBoolean false) ].

(** The transaction of the swap, with Alice's and Bob's entries unsigned
    and one entry of the invoker. *)
Definition swap_auth : list xdr.SorobanAuthorizationEntry :=
  [unsigned_entry alice; source_entry; unsigned_entry bob; unsigned_entry alice].

Definition sample_envelope_codec : XdrCodec TransactionEnvelope :=
  table_codec (envelopeTypeTx (sample_body swap_auth)) "AAAAAgAAAAB".

Definition sample_data_codec : XdrCodec xdr.SorobanTransactionData :=
  table_codec (sample_data []) "AAAAAAAAAAE".

(** A node that accepts submissions and never finds them afterwards. *)
Definition sample_net : Network :=
  {| getAccount := fun publicKey =>
       Returns {| accountId := publicKey; sequenceNumber := 41 |};
     simulateTransaction := fun _ =>
       Returns (Api.SimulationError "HostError: Error(Contract, #3)");
     sendTransaction := fun _ =>
       Returns {| Api.sendStatus := Api.PENDING;
                  Api.hash := "abc123";
                  Api.errorResult := None |};
     getTransaction := fun _ _ =>
       Returns {| Api.status := Api.NOT_FOUND;
                  Api.returnValue := None;
                  Api.ledger := 0 |};
     getLedgerEntries := fun _ =>
       Returns {| Api.entries :=
                    Some [ {| Api.liveUntilLedgerSeq := Some 1000 |} ] |} |}.

(** A stand-in for [new Contract(id)]: the ids of the samples start with
    the letter C, and the contract is kept by its id. *)
Definition sample_new_Contract (contractId : string) : Outcome string :=
  match contractId with
  | String "C" _ => Returns contractId
  | _ => throw Error ("Invalid contract ID: " ++ contractId)
  end.

Definition sample_assembleTransaction (tx : Tx)
    (s : Api.SimulateTransactionSuccessResponse) : Outcome TransactionBuilder.t :=
  TransactionBuilder.cloneFrom tx (Tx_fee tx + Api.minResourceFee s)%N None
    (Api.transactionData s).

Definition sample_authorizeEntry (entry : xdr.SorobanAuthorizationEntry)
    (signAuthEntry : SignAuthEntry) (ledger : nat) (passphrase : string)
  : Outcome xdr.SorobanAuthorizationEntry :=
  let! _ := signAuthEntry "preimage" in
  match xdr.credentials entry with
  | xdr.sorobanCredentialsAddress a =>
      match xdr.address a with
      | xdr.scAddressTypeAccount (xdr.publicKeyTypeEd25519 key) =>
          Returns (signed_entry key)
      | _ => Returns entry
      end
  | _ => Returns entry
  end.

(** A wallet that returns the envelope it is given. *)
Definition sample_wallet : SignTransaction := fun tx _ => Returns tx.

Definition sample_signAuthEntry : SignAuthEntry := fun _ => Returns "c2ln".

(** The swap as simulated: it writes one ledger entry. *)
Definition swap_simulated : AssembledTransaction.t bool :=
  simulated parse_bool swap_auth
    [xdr.ledgerKeyContractCode (list_byte_of_string "BALANCE")]
    (xdr.scvBool true).

(** A transaction whose co-signers have signed: what is left is the entry
    of the invoker. *)
Definition ready_to_sign : AssembledTransaction.t bool :=
  simulated parse_bool [source_entry; signed_entry bob]
    [xdr.ledgerKeyContractCode (list_byte_of_string "BALANCE")]
    (xdr.scvBool true).

(** A read call: no auth entry, no write. *)
Definition read_call : AssembledTransaction.t bool :=
  simulated parse_bool [] [] (xdr.scvBool true).

(** A call whose simulation failed with contract error 3. *)
Definition failed_call : AssembledTransaction.t bool :=
  {| AssembledTransaction.options := sample_options bool parse_bool;
     AssembledTransaction.raw := None;
     AssembledTransaction.built := Some (sample_tx []);
     AssembledTransaction.simulation :=
       Some (Api.SimulationError "HostError: Error(Contract, #3)");
     AssembledTransaction.simulationResult := None;
     AssembledTransaction.simulationTransactionData := None;
     AssembledTransaction.server :=
       {| serverURL := "https://rpc.example"; serverAllowHttp := false |};
     AssembledTransaction.signed := None |}.

(** A submission of [ready_to_sign] with a poll budget of one second. *)
Definition one_second (o : Options.t bool) : Options.t bool :=
  {| Options.rpcUrl := Options.rpcUrl o;
     Options.contractId := Options.contractId o;
     Options.networkPassphrase := Options.networkPassphrase o;
     Options.allowHttp := Options.allowHttp o;
     Options.publicKey := Options.publicKey o;
     Options.signTransaction := Options.signTransaction o;
     Options.signAuthEntry := Options.signAuthEntry o;
     Options.errorTypes := Options.errorTypes o;
     Options.fee := Options.fee o;
     Options.timeoutInSeconds := Some 1;
     Options.simulate := Options.simulate o;
     Options.method := Options.method o;
     Options.args := Options.args o;
     Options.parseResultXdr := Options.parseResultXdr o |}.

Definition sample_sent : SentTransaction.t bool :=
  {| SentTransaction.signTransaction := Some sample_wallet;
     SentTransaction.assembled :=
       {| AssembledTransaction.options :=
            one_second (AssembledTransaction.options ready_to_sign);
          AssembledTransaction.raw := None;
          AssembledTransaction.built := AssembledTransaction.built ready_to_sign;
          AssembledTransaction.simulation := None;
          AssembledTransaction.simulationResult :=
            Some {| Api.auth := [source_entry; signed_entry bob];
                    Api.retval := xdr.scvBool true |};
          AssembledTransaction.simulationTransactionData := Some (sample_data []);
          AssembledTransaction.server :=
            AssembledTransaction.server ready_to_sign;
          AssembledTransaction.signed := None |};
     SentTransaction.server :=
       {| serverURL := "https://rpc.example"; serverAllowHttp := false |};
     SentTransaction.signed := None;
     SentTransaction.sendTransactionResponse := None;
     SentTransaction.getTransactionResponseAll := None;
     SentTransaction.getTransactionResponse := None |}.

(** A call whose return value the parser rejects with a contract error that
    the error table does not register. *)
Definition unregistered_error : Thrown :=
  ErrorObject Error "HostError: Error(Contract, #4)".

Definition unparsed_call : AssembledTransaction.t bool :=
  simulated (fun _ => Throws unregistered_error) [] [] xdr.scvVoid.

(** A transaction that has been constructed and nothing more. *)
Definition fresh : AssembledTransaction.t bool :=
  AssembledTransaction.constructor (sample_options bool parse_bool).

(** ** Reference definitions for the further properties *)

(** [passes_read_check force this thisr]: [sign] gets past its read-call
    guard on [this], which leaves the object as [thisr]: either [force] is
    set, and the guard is skipped, or [isReadCall] is read and is false. *)
Definition passes_read_check {T} (JSON_stringify : ∀ A : Type, A → string)
    (force : option bool) (this thisr : AssembledTransaction.t T) : Prop :=
  (force = Some true ∧ thisr = this)
  ∨ ((force = None ∨ force = Some false)
     ∧ AssembledTransaction.isReadCall JSON_stringify this
       = (Returns false, thisr)).

(** The [signTransaction] parameter of [sign] after its default. *)
Definition effective_signTransaction {T} (this : AssembledTransaction.t T)
    (signTransaction_arg : option SignTransaction) : option SignTransaction :=
  match signTransaction_arg with
  | Some f => Some f
  | None => Options.signTransaction (AssembledTransaction.options this)
  end.

(** The [signAuthEntry] parameter of [signAuthEntries] after its default. *)
Definition effective_signAuthEntry {T} (this : AssembledTransaction.t T)
    (signAuthEntry_arg : option SignAuthEntry) : option SignAuthEntry :=
  match signAuthEntry_arg with
  | Some f => Some f
  | None => Options.signAuthEntry (AssembledTransaction.options this)
  end.

(** [entry_visited ... entry entry']: what one round of the loop of
    [signAuthEntries] that does not throw makes of [entry]: a
    source-credentialed entry and an entry of another account are left as
    they are; an entry of [publicKey] (signed before or not) is replaced by
    what [authorizeEntry] returns for it. *)
Definition entry_visited
    (encodeEd25519PublicKey : Buffer → string)
    (authorizeEntry :
       xdr.SorobanAuthorizationEntry → SignAuthEntry → nat → string →
       Outcome xdr.SorobanAuthorizationEntry)
    (expiration : Outcome nat) (signAuthEntry : SignAuthEntry)
    (publicKey : option string) (passphrase : string)
    (entry entry' : xdr.SorobanAuthorizationEntry) : Prop :=
  match xdr.credentials entry with
  | xdr.sorobanCredentialsSourceAccount => entry' = entry
  | xdr.sorobanCredentialsAddress a =>
      ∃ key,
        xdr.address a = xdr.scAddressTypeAccount (xdr.publicKeyTypeEd25519 key)
        ∧ if bool_decide (Some (encodeEd25519PublicKey key) = publicKey)
          then ∃ ledger,
                 expiration = Returns ledger
                 ∧ authorizeEntry entry signAuthEntry ledger passphrase
                   = Returns entry'
          else entry' = entry
  end.

(** [this.built.operations[0].auth ?? []], when [this.built] has a first
    operation. *)
Definition first_auth (built0 : Tx)
  : option (list xdr.SorobanAuthorizationEntry) :=
  match Tx_operations built0 with
  | Some (op :: _) => Some (Operation_auth op ?? [])
  | _ => None
  end.

(** The [expiration] parameter of [signAuthEntries] after its default. *)
Definition effective_expiration {T} (net : Network)
    (this : AssembledTransaction.t T) (expiration_arg : option (Outcome nat))
  : Outcome nat :=
  match expiration_arg with
  | Some e => e
  | None => AssembledTransaction.getStorageExpiration net this
  end.

(** The method the constructor attaches under the name [method] when
    [spec.getFunc(method)] answers [fn]: of one parameter when [fn] declares
    no input, of two otherwise. *)
Definition bound_method (spec : ContractSpec) (options : gmap string JsValue)
    (method : string) (fn : ScSpecFunctionV0) : ClientMethod :=
  match inputs fn with
  | [] =>
      {| parameters := ["opts"];
         call := fun opts _ =>
           ContractClient.assembleTransaction spec options method None opts |}
  | _ :: _ =>
      {| parameters := ["args"; "methodOptions"];
         call := ContractClient.assembleTransaction spec options method |}
  end.

(** The error cases of a code, in declaration order. *)
Definition cases_of (spec : ContractSpec) (code : N)
  : list ScSpecUdtErrorEnumCaseV0 :=
  List.filter (fun c => bool_decide (value c = code)) (errorCases spec).

(** ** Further sample data *)

(** The builder of the swap as [build] leaves it in [raw]. *)
Definition sample_raw : TransactionBuilder.t :=
  TransactionBuilder.setTimeout 1000 20
    (TransactionBuilder.addOperation
       (AssembledTransaction.Contract_call "CSWAP" "swap"
          [xdr.scvU32 10; xdr.scvU32 5])
       (TransactionBuilder.new
          {| accountId := "GINVOKER"; sequenceNumber := 41 |} 100
          "Standalone Network ; February 2017")).

(** The swap, simulated, with its builder still at hand. *)
Definition assembled_swap : AssembledTransaction.t bool :=
  AssembledTransaction.set_raw (Some sample_raw) swap_simulated.

(** A transaction that has its builder and has not been simulated. *)
Definition unsimulated : AssembledTransaction.t bool :=
  AssembledTransaction.set_raw (Some sample_raw) fresh.

(** A node that cannot be reached. *)
Definition unreachable_net : Network :=
  {| getAccount := fun _ => throw Error "Network Error";
     simulateTransaction := fun _ => throw Error "Network Error";
     sendTransaction := fun _ => throw Error "Network Error";
     getTransaction := fun _ _ => throw Error "Network Error";
     getLedgerEntries := fun _ => throw Error "Network Error" |}.

Definition sample_success : Api.SimulateTransactionSuccessResponse :=
  {| Api.transactionData := sample_data [];
     Api.minResourceFee := 5000;
     Api.result := Some {| Api.auth := []; Api.retval := xdr.scvBool true |};
     Api.restorePreamble := None;
     Api.latestLedger := 99 |}.

(** A node that simulates with success and closes every submission in the
    ledger that follows. *)
Definition settling_net : Network :=
  {| getAccount := fun publicKey =>
       Returns {| accountId := publicKey; sequenceNumber := 41 |};
     simulateTransaction := fun _ => Returns (Api.SimulationSuccess sample_success);
     sendTransaction := fun _ =>
       Returns {| Api.sendStatus := Api.PENDING;
                  Api.hash := "abc123";
                  Api.errorResult := None |};
     getTransaction := fun _ _ =>
       Returns {| Api.status := Api.SUCCESS;
                  Api.returnValue := Some (xdr.scvBool true);
                  Api.ledger := 100 |};
     getLedgerEntries := fun _ =>
       Returns {| Api.entries :=
                    Some [ {| Api.liveUntilLedgerSeq := Some 1000 |} ] |} |}.

(** A swap that Bob has signed and Alice has not. *)
Definition half_signed : AssembledTransaction.t bool :=
  simulated parse_bool [signed_entry bob; unsigned_entry alice; source_entry]
    [xdr.ledgerKeyContractCode (list_byte_of_string "BALANCE")]
    (xdr.scvBool true).

(** An entry of a contract address, signed. *)
Definition contract_entry : xdr.SorobanAuthorizationEntry :=
  {| xdr.credentials :=
       xdr.sorobanCredentialsAddress
         {| xdr.address :=
              xdr.scAddressTypeContract (list_byte_of_string "SWAP");
            xdr.nonce := 7;
            xdr.signatureExpirationLedger := 1000;
            xdr.signature := xdr.scvVec [] |};
     xdr.rootInvocation := swap_invocation |}.

(** A call with an entry of Alice and, after it, one of a contract. *)
Definition mixed_call : AssembledTransaction.t bool :=
  simulated parse_bool [unsigned_entry alice; contract_entry]
    [xdr.ledgerKeyContractCode (list_byte_of_string "BALANCE")]
    (xdr.scvBool true).

(** A transaction that holds a signed envelope. *)
Definition already_signed : AssembledTransaction.t bool :=
  AssembledTransaction.set_signed (Some (sample_tx swap_auth)) swap_simulated.

(** A stand-in for [SentTransaction.init]: it answers with the envelope it
    was given. *)
Definition sample_init (_ : Options.t bool) (signed0 : Tx) : Outcome Tx :=
  Returns signed0.

(** The JSON document of the simulated swap. *)
Definition sample_json : JSON :=
  JSONObject
    [ ("method", JSONString "swap");
      ("tx", JSONString "AAAAAgAAAAB");
      ("simulationResult",
       JSONObject
         [ ("auth", JSONArray [JSONString "unsigned:ALICE"; JSONString "source"]);
           ("retval", JSONString "AAAAAAAAAAE=") ]);
      ("simulationTransactionData", JSONString "AAAAAAAAAAE") ].

(** The argument record of a call of [hello]. *)
Definition hello_args : gmap string JsValue := {[ "to" := JsString "world" ]}.

(** A node that turns every submission down. *)
Definition rejecting_net : Network :=
  {| getAccount := fun publicKey =>
       Returns {| accountId := publicKey; sequenceNumber := 41 |};
     simulateTransaction := fun _ => Returns (Api.SimulationSuccess sample_success);
     sendTransaction := fun _ =>
       Returns {| Api.sendStatus := Api.ERROR;
                  Api.hash := "abc123";
                  Api.errorResult := Some "txBadSeq" |};
     getTransaction := fun _ _ =>
       Returns {| Api.status := Api.NOT_FOUND;
                  Api.returnValue := None;
                  Api.ledger := 0 |};
     getLedgerEntries := fun _ =>
       Returns {| Api.entries :=
                    Some [ {| Api.liveUntilLedgerSeq := Some 1000 |} ] |} |}.

(** ** Properties of [AssembledTransaction] *)

Section simulate_properties.
Context {T : Type}.
Variable net : Network.
Variable assembleTransaction :
  Tx → Api.SimulateTransactionSuccessResponse → Outcome TransactionBuilder.t.

(** A transaction on which a simulation has completed has its [built]
    envelope. *)
Lemma simulate_sets_built (this this' : AssembledTransaction.t T) :
  AssembledTransaction.simulate net assembleTransaction this
    = (Returns tt, this') →
  is_Some (AssembledTransaction.built this')
  ∧ is_Some (AssembledTransaction.simulation this').
Proof.
  unfold AssembledTransaction.simulate, mbind_method, mget, mthrow, mlift,
    massign, mreturn.
  intros Hsim.
  repeat (case_match; try discriminate).
  all: repeat match goal with
       | H : (_, _) = (_, _) |- _ => inversion H; clear H
       end; subst; cbn; eauto.
Qed.

End simulate_properties.

Section AssembledTransaction_properties.
Context {T : Type}.
Context {envelope_codec : XdrCodec TransactionEnvelope}.
Context {scval_codec : XdrCodec xdr.ScVal}.
Context {auth_codec : XdrCodec xdr.SorobanAuthorizationEntry}.
Context {data_codec : XdrCodec xdr.SorobanTransactionData}.
Variable net : Network.
Variable encodeEd25519PublicKey : Buffer → string.
Variable authorizeEntry :
  xdr.SorobanAuthorizationEntry → SignAuthEntry → nat → string →
  Outcome xdr.SorobanAuthorizationEntry.
Variable JSON_stringify : ∀ A : Type, A → string.

Abbreviation simulationData := (AssembledTransaction.simulationData JSON_stringify).
Abbreviation toJSON := (AssembledTransaction.toJSON JSON_stringify).
Abbreviation isReadCall := (AssembledTransaction.isReadCall JSON_stringify).
Abbreviation result := (AssembledTransaction.result JSON_stringify).
Abbreviation needsNonInvokerSigningBy :=
  (AssembledTransaction.needsNonInvokerSigningBy encodeEd25519PublicKey
     JSON_stringify).
Abbreviation sign :=
  (AssembledTransaction.sign encodeEd25519PublicKey JSON_stringify).
Abbreviation signAuthEntries :=
  (AssembledTransaction.signAuthEntries net encodeEd25519PublicKey
     authorizeEntry JSON_stringify).

Implicit Types this : AssembledTransaction.t T.

Local Arguments AssembledTransaction.decode_property : simpl never.
Local Arguments decodeXDR : simpl never.
Local Arguments omap_all : simpl never.

(** The getter either fails and leaves the object alone, or caches its
    answer; nothing else is assigned. *)
Lemma simulationData_throws this e this' :
  simulationData this = (Throws e, this') → this' = this.
Proof.
  unfold AssembledTransaction.simulationData.
  repeat case_match; congruence.
Qed.

Lemma simulationData_returns this sd this' :
  simulationData this = (Returns sd, this') →
  this' =
    AssembledTransaction.set_simulationTransactionData
      (Some (SimulationData.transactionData sd))
      (AssembledTransaction.set_simulationResult
         (Some (SimulationData.result sd)) this).
Proof.
  unfold AssembledTransaction.simulationData.
  destruct this as [o r b s sr sd0 sv sg]; cbn.
  repeat case_match; intros Heq; inversion Heq; subst; reflexivity.
Qed.

Lemma simulationData_cached this r d :
  AssembledTransaction.simulationResult this = Some r →
  AssembledTransaction.simulationTransactionData this = Some d →
  simulationData this =
    (Returns {| SimulationData.result := r;
                SimulationData.transactionData := d |}, this).
Proof.
  unfold AssembledTransaction.simulationData. intros Hr Hd.
  rewrite Hr, Hd. reflexivity.
Qed.

(** A second read of the getter gives the cached answer. *)
Lemma simulationData_again this sd this' :
  simulationData this = (Returns sd, this') →
  simulationData this' = (Returns sd, this').
Proof.
  intros H. pose proof (simulationData_returns _ _ _ H) as ->.
  destruct sd. apply simulationData_cached; reflexivity.
Qed.

Lemma simulationData_built this o this' :
  simulationData this = (o, this') →
  AssembledTransaction.built this' = AssembledTransaction.built this
  ∧ AssembledTransaction.options this' = AssembledTransaction.options this
  ∧ AssembledTransaction.signed this' = AssembledTransaction.signed this.
Proof.
  destruct o as [sd|e]; intros H.
  - rewrite (simulationData_returns _ _ _ H). done.
  - rewrite (simulationData_throws _ _ _ H). done.
Qed.

(** A transaction read back from JSON has its [built] envelope and its
    simulation data. *)
Lemma fromJSON_sets_built (options0 : Options.t T) json
    (txn : AssembledTransaction.t T) :
  AssembledTransaction.fromJSON options0 json = Returns txn →
  is_Some (AssembledTransaction.built txn)
  ∧ is_Some (AssembledTransaction.simulationResult txn)
  ∧ is_Some (AssembledTransaction.simulationTransactionData txn).
Proof.
  unfold AssembledTransaction.fromJSON, obind.
  intros Hjson.
  repeat (case_match; try discriminate).
  all: injection Hjson as <-; cbn; eauto.
Qed.

(** *** Serialisation *)

Lemma decode_roundtrip {A} `{XdrCodec A} (a : A) :
  RoundTrips a → decodeXDR (toXDR a) = Returns a.
Proof. unfold RoundTrips, decodeXDR. intros Ha. rewrite Ha. reflexivity. Qed.

Lemma decode_all_roundtrip {A} `{XdrCodec A} (xs : list A) :
  Forall RoundTrips xs →
  omap_all (fun item => AssembledTransaction.decode_property (Some item))
    ((fun a => JSONString (toXDR a)) <$> xs) = Returns xs.
Proof.
  induction 1 as [|x xs Hx _ IH]; [reflexivity|].
  rewrite fmap_cons. unfold omap_all; fold @omap_all.
  unfold AssembledTransaction.decode_property at 1.
  rewrite (decode_roundtrip x Hx). cbn [obind]. rewrite IH. reflexivity.
Qed.

(** What [toJSON] writes for a transaction that has its simulation data. *)
Lemma toJSON_simulated this sd this1 :
  simulationData this = (Returns sd, this1) →
  toJSON this =
    (Returns
       (JSONObject
          ([("method", JSONString (Options.method (AssembledTransaction.options this)))]
           ++ optional_property "tx"
                (JSONString <$> (Tx_toXDR <$> AssembledTransaction.built this))
           ++ [("simulationResult",
                 JSONObject
                   [("auth",
                      JSONArray ((fun a => JSONString (toXDR a))
                                   <$> Api.auth (SimulationData.result sd)));
                    ("retval",
                      JSONString (toXDR (Api.retval (SimulationData.result sd))))]);
               ("simulationTransactionData",
                 JSONString (toXDR (SimulationData.transactionData sd)))])),
     this1).
Proof.
  intros Hsd. pose proof (simulationData_again _ _ _ Hsd) as Hsd1.
  unfold AssembledTransaction.toJSON, mbind_method, mget, mreturn.
  rewrite Hsd, Hsd1, Hsd1. reflexivity.
Qed.

(** C1.  Serialisation round trip: for a transaction [this] that has been
    built and simulated, whose envelope, simulated auth entries, return
    value and transaction data survive the XDR codec, [toJSON] yields a
    document from which [fromJSON] produces a transaction whose built
    envelope, simulation return value, auth entries (one by one) and
    transaction data serialise to the same bytes as those of [this]. *)
Theorem fromJSON_toJSON_roundtrip this (options0 : Options.t T) built0 sd this1 :
  AssembledTransaction.built this = Some built0 →
  simulationData this = (Returns sd, this1) →
  RoundTrips (envelope built0) →
  Forall RoundTrips (Api.auth (SimulationData.result sd)) →
  RoundTrips (Api.retval (SimulationData.result sd)) →
  RoundTrips (SimulationData.transactionData sd) →
  ∃ json txn built' sd' txn',
    toJSON this = (Returns json, this1)
    ∧ AssembledTransaction.fromJSON options0 json = Returns txn
    ∧ AssembledTransaction.built txn = Some built'
    ∧ Tx_toXDR built' = Tx_toXDR built0
    ∧ simulationData txn = (Returns sd', txn')
    ∧ toXDR (Api.retval (SimulationData.result sd'))
      = toXDR (Api.retval (SimulationData.result sd))
    ∧ toXDR <$> Api.auth (SimulationData.result sd')
      = toXDR <$> Api.auth (SimulationData.result sd)
    ∧ toXDR (SimulationData.transactionData sd')
      = toXDR (SimulationData.transactionData sd).
Proof.
  intros Hbuilt Hsd Henv Hauth Hretval Hdata.
  rewrite (toJSON_simulated _ _ _ Hsd), Hbuilt.
  eexists _, _, _, sd, _. split; [reflexivity|].
  unfold AssembledTransaction.fromJSON. cbn.
  unfold TransactionBuilder.fromXDR, Tx_toXDR.
  rewrite (decode_roundtrip _ Henv). cbn.
  rewrite (decode_all_roundtrip _ Hauth). cbn.
  unfold AssembledTransaction.decode_property.
  rewrite (decode_roundtrip _ Hretval). cbn.
  rewrite (decode_roundtrip _ Hdata). cbn.
  split; [reflexivity|]. split; [reflexivity|]. split; [reflexivity|].
  destruct sd as [[auth retval] data].
  split; [apply simulationData_cached; reflexivity|done].
Qed.

(** C10.  A transaction on which no simulation has completed and whose two
    cache fields are absent cannot be serialised: [toJSON] throws
    [NotYetSimulated] and assigns nothing. *)
Theorem toJSON_not_yet_simulated this :
  AssembledTransaction.simulation this = None →
  AssembledTransaction.simulationResult this = None →
  AssembledTransaction.simulationTransactionData this = None →
  toJSON this =
    (throw NotYetSimulated "Transaction has not yet been simulated", this).
Proof.
  intros Hsim Hres Hdata.
  unfold AssembledTransaction.toJSON, mbind_method, mget.
  unfold AssembledTransaction.simulationData.
  rewrite Hsim, Hres. reflexivity.
Qed.

(** *** Read calls *)

(** C3.  Read-call identification.  For a transaction with simulation data
    [sd]: [isReadCall] is [true] exactly when the simulated auth list is
    empty and the footprint has no read-write entry; on such a read call
    that has been built, [sign] without [force] fails with
    [NoSignatureNeeded], whatever signer is passed or configured (none is
    consulted); and [result] returns the parsed return value, again without
    consulting any signer. *)
Theorem read_call_identification this sd this1 :
  simulationData this = (Returns sd, this1) →
  let auths := Api.auth (SimulationData.result sd) in
  let writes :=
    xdr.readWrite (xdr.footprint
      (xdr.resources (SimulationData.transactionData sd))) in
  (∃ b, isReadCall this = (Returns b, this1)
        ∧ (b = true ↔ auths = [] ∧ writes = []))
  ∧ (auths = [] → writes = [] →
     (∀ now force signTransaction_arg built0,
        AssembledTransaction.built this = Some built0 →
        force = None ∨ force = Some false →
        ∃ msg,
          sign now force signTransaction_arg this
          = (throw NoSignatureNeeded msg, this1))
     ∧ (∀ v,
          Options.parseResultXdr (AssembledTransaction.options this)
            (Api.retval (SimulationData.result sd)) = Returns v →
          result this = (Returns (Value v), this1))).
Proof.
  intros Hsd auths writes.
  pose proof (simulationData_again _ _ _ Hsd) as Hsd1.
  assert (HisRead : isReadCall this
            = (Returns (Nat.eqb (length auths) 0 && Nat.eqb (length writes) 0),
               this1)).
  { unfold AssembledTransaction.isReadCall, mbind_method, mreturn.
    rewrite Hsd, Hsd1. reflexivity. }
  split.
  - eexists. split; [exact HisRead|].
    rewrite andb_true_iff, !Nat.eqb_eq, !length_zero_iff_nil. reflexivity.
  - intros Hauths Hwrites. split.
    + intros now force arg built0 Hbuilt Hforce. eexists.
      unfold AssembledTransaction.sign, mbind_method, mget, mthrow.
      rewrite Hbuilt.
      assert (force ?? false = false) as -> by (destruct Hforce; subst; done).
      rewrite HisRead, Hauths, Hwrites. cbn. reflexivity.
    + intros v Hparse. unfold AssembledTransaction.result.
      rewrite Hsd.
      destruct (simulationData_built _ _ _ Hsd) as (_ & -> & _).
      rewrite Hparse. reflexivity.
Qed.

(** *** Co-signers *)

Lemma filter_drop_seen (seen : list string) (x : string) (l : list string) :
  x ∈ seen →
  List.filter (fun y => negb (bool_decide (y ∈ seen)))
    (List.filter (fun y => negb (String.eqb y x)) l)
  = List.filter (fun y => negb (bool_decide (y ∈ seen))) l.
Proof.
  intros Hx. induction l as [|y l IH]; [reflexivity|]. cbn.
  destruct (String.eqb_spec y x) as [->|Hne]; cbn.
  - rewrite bool_decide_eq_true_2 by done. cbn. exact IH.
  - rewrite IH. reflexivity.
Qed.

Lemma filter_extend_seen (seen : list string) (x : string) (l : list string) :
  List.filter (fun y => negb (bool_decide (y ∈ seen ++ [x]))) l
  = List.filter (fun y => negb (bool_decide (y ∈ seen)))
      (List.filter (fun y => negb (String.eqb y x)) l).
Proof.
  induction l as [|y l IH]; [reflexivity|]. cbn.
  destruct (String.eqb_spec y x) as [->|Hne]; cbn.
  - rewrite bool_decide_eq_true_2 by set_solver. cbn. exact IH.
  - rewrite IH.
    destruct (decide (y ∈ seen)) as [Hin|Hnin].
    + rewrite !bool_decide_eq_true_2 by set_solver. reflexivity.
    + rewrite !bool_decide_eq_false_2 by set_solver. reflexivity.
Qed.

Lemma Set_insert_all_first_occurrences (seen xs : list string) :
  Set_insert_all seen xs
  = seen ++ List.filter (fun y => negb (bool_decide (y ∈ seen)))
              (first_occurrences xs).
Proof.
  revert seen. induction xs as [|x xs IH]; intros seen; cbn.
  - by rewrite app_nil_r.
  - case_bool_decide as Hx; cbn.
    + rewrite IH, filter_drop_seen by done. reflexivity.
    + rewrite IH, <- app_assoc, filter_extend_seen. reflexivity.
Qed.

(** The set built by the code lists the first occurrences. *)
Lemma Set_values_first_occurrences (xs : list string) :
  Set_values xs = first_occurrences xs.
Proof.
  unfold Set_values. rewrite Set_insert_all_first_occurrences. cbn.
  induction (first_occurrences xs) as [|y l IH]; [reflexivity|].
  cbn. rewrite bool_decide_eq_false_2 by set_solver. cbn. by f_equal.
Qed.

Lemma first_occurrences_elem (x : string) (xs : list string) :
  x ∈ first_occurrences xs ↔ x ∈ xs.
Proof.
  induction xs as [|y xs IH]; cbn; [done|].
  rewrite !elem_of_cons, list_elem_of_In, filter_In, <- list_elem_of_In, IH.
  destruct (String.eqb_spec x y); naive_solver.
Qed.

Lemma first_occurrences_NoDup (xs : list string) : NoDup (first_occurrences xs).
Proof.
  induction xs as [|x xs IH]; cbn; constructor.
  - rewrite list_elem_of_In, filter_In. rewrite String.eqb_refl. naive_solver.
  - apply NoDup_ListNoDup, List.NoDup_filter, NoDup_ListNoDup, IH.
Qed.

Lemma first_occurrences_distinct (xs : list string) :
  NoDup xs → first_occurrences xs = xs.
Proof.
  induction 1 as [|x xs Hx _ IH]; cbn; [done|]. rewrite IH. f_equal.
  apply forallb_filter_id, forallb_forall. intros y Hy.
  destruct (String.eqb_spec y x) as [->|]; [|done].
  by apply list_elem_of_In in Hy.
Qed.

Lemma co_signers_keys auth accounts :
  co_signers auth accounts →
  omap_all (AssembledTransaction.entry_publicKey encodeEd25519PublicKey)
    (List.filter (AssembledTransaction.needs_signing false) auth)
  = Returns (encodeEd25519PublicKey <$> accounts).
Proof.
  induction 1 as [|entry auth accounts Hc _ IH
                  |entry a auth accounts Hc Hs _ IH
                  |entry a key auth accounts Hc Ha Hs _ IH]; [reflexivity| | |].
  - cbn [List.filter]. unfold AssembledTransaction.needs_signing at 1.
    rewrite Hc. exact IH.
  - cbn [List.filter]. unfold AssembledTransaction.needs_signing at 1.
    rewrite Hc. cbn [orb]. rewrite bool_decide_eq_false_2 by done. exact IH.
  - cbn [List.filter]. unfold AssembledTransaction.needs_signing at 1.
    rewrite Hc, Hs. cbn [orb xdr.switch_name].
    rewrite bool_decide_eq_true_2 by done.
    unfold omap_all; fold @omap_all.
    unfold AssembledTransaction.entry_publicKey at 1.
    rewrite Hc. cbn [xdr.credentials_address obind].
    rewrite Ha. cbn [xdr.ScAddress_accountId xdr.PublicKey_ed25519 obind].
    rewrite IH. reflexivity.
Qed.

(** C2.  Co-signer enumeration.  Without [built] the method throws.  For a
    built transaction whose first operation invokes a host function and
    whose address-credentialed auth entries with the signature slot still
    void are for accounts [accounts] (in order),
    [needsNonInvokerSigningBy()] returns the encoded accounts in order of
    first occurrence and without duplicates, the source-credentialed entries
    (and the entries signed already) being skipped; when the accounts are
    distinct it returns exactly their list. *)
Theorem needsNonInvokerSigningBy_enumerates this :
  (AssembledTransaction.built this = None →
   ∀ includeAlreadySigned,
     needsNonInvokerSigningBy includeAlreadySigned this
     = throw Error "Transaction has not yet been simulated")
  ∧ (∀ built0 body func auth rest accounts,
       AssembledTransaction.built this = Some built0 →
       envelope built0 = envelopeTypeTx body →
       operations body = InvokeHostFunction func auth :: rest →
       co_signers auth accounts →
       let keys := encodeEd25519PublicKey <$> accounts in
       ∃ signers,
         needsNonInvokerSigningBy false this = Returns signers
         ∧ signers = first_occurrences keys
         ∧ NoDup signers
         ∧ (∀ k, k ∈ signers ↔ k ∈ keys)
         ∧ (NoDup keys → signers = keys)).
Proof.
  split.
  - intros Hbuilt inc. unfold AssembledTransaction.needsNonInvokerSigningBy.
    rewrite Hbuilt. reflexivity.
  - intros built0 body func auth rest accounts Hbuilt Henv Hops Hco keys.
    exists (first_occurrences keys). split; [|split; [done|split; [|split]]].
    + unfold AssembledTransaction.needsNonInvokerSigningBy, Tx_operations.
      rewrite Hbuilt, Henv, Hops. cbn.
      rewrite (co_signers_keys _ _ Hco). cbn.
      by rewrite Set_values_first_occurrences.
    + apply first_occurrences_NoDup.
    + intros k. apply first_occurrences_elem.
    + apply first_occurrences_distinct.
Qed.

(** The three guards of [signAuthEntries], in the order the code runs
    them. *)
Lemma signAuthEntries_not_a_co_signer this built0 needs expiration
    signAuthEntry_arg publicKey_arg :
  AssembledTransaction.built this = Some built0 →
  needsNonInvokerSigningBy false this = Returns needs →
  effective_publicKey this publicKey_arg ?? EmptyString ∉ needs →
  ∃ msg,
    signAuthEntries expiration signAuthEntry_arg publicKey_arg this
    = (throw NoSignatureNeeded msg, this).
Proof.
  intros Hbuilt Hneeds Hpk. eexists.
  unfold AssembledTransaction.signAuthEntries, mbind_method, mget, mlift, mthrow.
  rewrite Hbuilt, Hneeds. cbn [truthy_array negb].
  unfold indexOf_is_minus_one. fold (effective_publicKey this publicKey_arg).
  rewrite bool_decide_eq_false_2 by done. reflexivity.
Qed.

Lemma signAuthEntries_no_signer this built0 needs expiration publicKey_arg :
  AssembledTransaction.built this = Some built0 →
  needsNonInvokerSigningBy false this = Returns needs →
  effective_publicKey this publicKey_arg ?? EmptyString ∈ needs →
  Options.signAuthEntry (AssembledTransaction.options this) = None →
  ∃ msg,
    signAuthEntries expiration None publicKey_arg this
    = (throw NoSigner msg, this).
Proof.
  intros Hbuilt Hneeds Hpk Hsigner. eexists.
  unfold AssembledTransaction.signAuthEntries, mbind_method, mget, mlift, mthrow.
  rewrite Hbuilt, Hneeds, Hsigner. cbn [truthy_array negb].
  unfold indexOf_is_minus_one. fold (effective_publicKey this publicKey_arg).
  rewrite bool_decide_eq_true_2 by done. reflexivity.
Qed.

(** C4.  What the code does on a built transaction with zero candidate auth
    entries: the emptiness test is [!needsNonInvokerSigningBy] on an array,
    which is never true, so the call goes on to the membership test and
    fails with [NoSignatureNeeded], whatever key and callback it is given;
    [NoUnsignedNonInvokerAuthEntries] is not raised. *)
Theorem signAuthEntries_zero_candidates this built0 expiration
    signAuthEntry_arg publicKey_arg :
  AssembledTransaction.built this = Some built0 →
  needsNonInvokerSigningBy false this = Returns [] →
  ∃ msg,
    signAuthEntries expiration signAuthEntry_arg publicKey_arg this
    = (throw NoSignatureNeeded msg, this).
Proof.
  intros Hbuilt Hneeds.
  eapply signAuthEntries_not_a_co_signer; [done..|]. set_solver.
Qed.

(** *** Signing the envelope *)

Lemma isReadCall_outcome this o this1 :
  isReadCall this = (o, this1) →
  (∃ sd b, simulationData this = (Returns sd, this1) ∧ o = Returns b)
  ∨ (∃ e, o = Throws e ∧ this1 = this).
Proof.
  unfold AssembledTransaction.isReadCall, mbind_method, mreturn.
  destruct (simulationData this) as [[sd|e] this0] eqn:Hsd.
  - rewrite (simulationData_again _ _ _ Hsd). intros [= <- <-]. left. eauto.
  - intros [= <- <-]. right. eauto using simulationData_throws.
Qed.

(** C5.  Envelope refresh.  When [sign], started at time [now], succeeds,
    the envelope handed to the signer is a rebuilt clone of [built]: same
    fee, same operations, the soroban data of the simulation, and time
    bounds [0 .. now + timeoutInSeconds], whatever the time bounds of the
    envelope built before. *)
Theorem sign_refreshes_envelope this now force signTransaction_arg this' :
  sign now force signTransaction_arg this = (Returns tt, this') →
  let passphrase := Options.networkPassphrase (AssembledTransaction.options this) in
  let timeoutInSeconds :=
    Options.timeoutInSeconds (AssembledTransaction.options this)
      ?? DEFAULT_TIMEOUT in
  ∃ built0 body0 sd this1 signTransaction body1 signature signed0,
    AssembledTransaction.built this = Some built0
    ∧ envelope built0 = envelopeTypeTx body0
    ∧ simulationData this = (Returns sd, this1)
    ∧ (signTransaction_arg = Some signTransaction
       ∨ signTransaction_arg = None
         ∧ Options.signTransaction (AssembledTransaction.options this)
           = Some signTransaction)
    ∧ AssembledTransaction.built this'
      = Some {| envelope := envelopeTypeTx body1;
                networkPassphrase := networkPassphrase built0 |}
    ∧ fee body1 = fee body0
    ∧ sorobanData body1 = Some (SimulationData.transactionData sd)
    ∧ timeBounds body1
      = Some {| minTime := 0; maxTime := now + timeoutInSeconds |}
    ∧ operations body1 = operations body0
    ∧ source body1 = source body0
    ∧ signTransaction (toXDR (envelopeTypeTx body1)) passphrase
      = Returns signature
    ∧ TransactionBuilder.fromXDR signature passphrase = Returns signed0
    ∧ AssembledTransaction.signed this' = Some signed0.
Proof.
  intros Hsign passphrase timeoutInSeconds.
  unfold AssembledTransaction.sign, mbind_method, mget, mthrow in Hsign.
  destruct (AssembledTransaction.built this) as [built0|] eqn:Hbuilt;
    [|discriminate].
  destruct ((if force ?? false then mreturn false else isReadCall) this)
    as [[readCall|e] thisr] eqn:Hread; [|discriminate].
  destruct readCall; [discriminate|].
  assert (AssembledTransaction.built thisr = Some built0
          ∧ AssembledTransaction.options thisr = AssembledTransaction.options this
          ∧ ∀ sd this2, simulationData thisr = (Returns sd, this2) →
                        ∃ this1, simulationData this = (Returns sd, this1))
    as (Hbuiltr & Hoptions & Hdata).
  { destruct (force ?? false).
    - injection Hread as <-. eauto.
    - apply isReadCall_outcome in Hread as [(sd & b & Hsd & _)|(e & ? & _)];
        [|discriminate].
      destruct (simulationData_built _ _ _ Hsd) as (Hb & Ho & _).
      rewrite Hb, Ho. split; [done|split; [done|]].
      intros sd' this2 Hsd'. rewrite (simulationData_again _ _ _ Hsd) in Hsd'.
      injection Hsd' as <- <-. eauto. }
  destruct (match signTransaction_arg with
            | Some f => Some f
            | None => Options.signTransaction (AssembledTransaction.options this)
            end) as [signTransaction|] eqn:Hsigner; [|discriminate].
  unfold mlift, massign in Hsign.
  destruct (needsNonInvokerSigningBy false thisr) as [needs|]; [|discriminate].
  destruct (negb (length needs =? 0)%nat); [discriminate|].
  rewrite Hbuiltr, Hoptions in Hsign.
  destruct (simulationData thisr) as [[sd|] this2] eqn:Hsd in Hsign;
    [|discriminate].
  destruct (Hdata _ _ Hsd) as (this1 & Hsd1).
  destruct (TransactionBuilder.cloneFrom built0 (Tx_fee built0) None
              (SimulationData.transactionData sd)) as [clone|] eqn:Hclone;
    [|discriminate].
  destruct (signTransaction _ _) as [signature|] eqn:Hsignature in Hsign;
    [|discriminate].
  destruct (TransactionBuilder.fromXDR signature _) as [signed0|] eqn:Hsigned
    in Hsign; [|discriminate].
  injection Hsign as <-.
  unfold TransactionBuilder.cloneFrom, Tx_fee in Hclone.
  destruct (envelope built0) as [body0|] eqn:Henvelope; [|discriminate].
  injection Hclone as <-.
  eexists built0, body0, sd, this1, signTransaction, _, signature, signed0.
  split; [done|]. split; [done|]. split; [exact Hsd1|].
  split. { destruct signTransaction_arg; [left|right]; naive_solver. }
  split; [reflexivity|]. cbn.
  split; [done|]. split; [done|]. split; [done|]. split; [done|].
  split; [done|]. split; [exact Hsignature|]. split; [exact Hsigned|done].
Qed.

(** *** Contract errors *)

Lemma strip_prefix_app (p s r : string) :
  strip_prefix p s = Some r → s = (p ++ r)%string.
Proof.
  revert s. induction p as [|a p IH]; intros [|b s]; cbn;
    try (intros [= <-]; reflexivity); try discriminate.
  destruct (Ascii.eqb_spec a b) as [->|]; [|discriminate].
  intros H. by rewrite (IH _ H).
Qed.

Lemma take_digits_app (s : string) :
  s = (take_digits s ++ string_drop (String.length (take_digits s)) s)%string
  ∧ all_digits (take_digits s) = true.
Proof.
  induction s as [|c s [IH1 IH2]]; cbn; [done|].
  destruct (is_digit c) eqn:Hc; cbn; [|done].
  rewrite Hc, IH2. split; [|done].
  unfold String.append; fold String.append. f_equal. exact IH1.
Qed.

(** A match of the pattern is an occurrence of [Error(Contract, #], a
    non-empty run of digits (the captured group) and a closing bracket. *)
Lemma match_contractErrorPattern_sound (s group1 : string) :
  match_contractErrorPattern s = Some group1 →
  ∃ before after,
    s = (before ++ contractErrorPrefix ++ group1 ++ ")" ++ after)%string
    ∧ group1 ≠ EmptyString
    ∧ all_digits group1 = true.
Proof.
  induction s as [|c s IH].
  - cbn. discriminate.
  - cbn [match_contractErrorPattern].
    destruct (match_contractError_here (String c s)) as [ds|] eqn:Hhere.
    + intros [= ->]. unfold match_contractError_here in Hhere.
      destruct (strip_prefix contractErrorPrefix (String c s)) as [rest|]
        eqn:Hprefix; [|discriminate].
      destruct (take_digits_app rest) as [Hrest Hdigits].
      destruct (take_digits rest) as [|d ds] eqn:Htake; [discriminate|].
      destruct (strip_prefix ")" _) as [after|] eqn:Hclose in Hhere;
        [|discriminate].
      injection Hhere as <-.
      exists EmptyString, after. split; [|done].
      rewrite (strip_prefix_app _ _ _ Hprefix).
      rewrite (strip_prefix_app _ _ _ Hclose) in Hrest.
      cbn [String.append]. rewrite Hrest at 1. reflexivity.
    + intros Hs. destruct (IH Hs) as (before & after & -> & ? & ?).
      by exists (String c before), after.
Qed.

Lemma strip_prefix_of_app (p r : string) :
  strip_prefix p (p ++ r)%string = Some r.
Proof.
  induction p as [|a p IH]; [reflexivity|].
  unfold String.append; fold String.append. cbn [strip_prefix].
  by rewrite Ascii.eqb_refl.
Qed.

Lemma take_digits_of_app (ds : string) (c : ascii) (r : string) :
  all_digits ds = true → is_digit c = false →
  take_digits (ds ++ String c r)%string = ds
  ∧ string_drop (String.length ds) (ds ++ String c r)%string = String c r.
Proof.
  intros Hds Hc. induction ds as [|d ds IH].
  - change (EmptyString ++ ?s)%string with s.
    cbn [take_digits String.length string_drop]. by rewrite Hc.
  - cbn in Hds. apply andb_true_iff in Hds as [Hd Hds].
    unfold String.append; fold String.append.
    cbn [take_digits String.length string_drop]. rewrite Hd.
    destruct (IH Hds) as [-> ->]. done.
Qed.

(** Where the pattern occurs, the anchored match finds it; so a string that
    holds an occurrence has a match. *)
Lemma match_contractError_here_occurrence (group1 after : string) :
  group1 ≠ EmptyString → all_digits group1 = true →
  match_contractError_here
    (contractErrorPrefix ++ group1 ++ ")" ++ after)%string
  = Some group1.
Proof.
  intros Hne Hdigits. unfold match_contractError_here.
  rewrite strip_prefix_of_app.
  change (")" ++ after)%string with (String ")"%char after).
  destruct (take_digits_of_app group1 ")"%char after Hdigits eq_refl)
    as [Htake Hdrop].
  rewrite Htake. destruct group1 as [|d ds]; [done|].
  rewrite Hdrop. cbn [strip_prefix]. by rewrite Ascii.eqb_refl.
Qed.

Lemma match_contractErrorPattern_complete (before group1 after : string) :
  group1 ≠ EmptyString → all_digits group1 = true →
  is_Some (match_contractErrorPattern
             (before ++ contractErrorPrefix ++ group1 ++ ")" ++ after)%string).
Proof.
  intros Hne Hdigits. induction before as [|c before IH].
  - change (EmptyString ++ ?s)%string with s.
    pose proof (match_contractError_here_occurrence group1 after Hne Hdigits)
      as Hhere.
    destruct (contractErrorPrefix ++ group1 ++ ")" ++ after)%string;
      cbn [match_contractErrorPattern]; by rewrite Hhere.
  - unfold String.append; fold String.append.
    cbn [match_contractErrorPattern].
    destruct (match_contractError_here _); [done|exact IH].
Qed.

Lemma result_catch_spec this e :
  AssembledTransaction.result_catch e this
  = match (if implementsToString e
           then AssembledTransaction.parseError this (toString e)
           else None) with
    | Some err => (Returns err, this)
    | None => (Throws e, this)
    end.
Proof.
  unfold AssembledTransaction.result_catch.
  destruct (implementsToString e); reflexivity.
Qed.

Lemma parseError_contract_error this e :
  (if implementsToString e
   then AssembledTransaction.parseError this (toString e)
   else None)
  = None ↔ ∀ err, ¬ contract_error this e err.
Proof.
  unfold contract_error, AssembledTransaction.parseError.
  destruct (implementsToString e); [|naive_solver].
  destruct (Options.errorTypes _) as [errorTypes|]; [|naive_solver].
  destruct (match_contractErrorPattern _) as [group1|]; [|naive_solver].
  destruct (errorTypes !! parseInt group1) as [err|] eqn:Herr; [|naive_solver].
  split; [done|]. intros H. destruct (H err). eauto 10.
Qed.

(** C6.  Error mapping.  Let [e] be thrown inside the [try] block of
    [result] (by the read of the simulation data or by [parseResultXdr]).
    If the string form of [e] matches the contract-error pattern with a
    numeric code registered in [options.errorTypes], [result] returns the
    [Err]-tagged registered entry and does not throw; for every other [e],
    [result] throws [e] again. *)
Theorem result_error_mapping this e this1 :
  (simulationData this = (Throws e, this1)
   ∨ ∃ sd,
       simulationData this = (Returns sd, this1)
       ∧ Options.parseResultXdr (AssembledTransaction.options this)
           (Api.retval (SimulationData.result sd)) = Throws e) →
  (∀ err, contract_error this e err → result this = (Returns (Err err), this1))
  ∧ ((∀ err, ¬ contract_error this e err) → result this = (Throws e, this1)).
Proof.
  intros Htry.
  assert (result this = AssembledTransaction.result_catch e this1
          ∧ AssembledTransaction.options this1 = AssembledTransaction.options this)
    as [Hresult Hoptions].
  { unfold AssembledTransaction.result.
    destruct Htry as [Hsd|(sd & Hsd & Hparse)]; rewrite Hsd;
      destruct (simulationData_built _ _ _ Hsd) as (_ & Ho & _);
      [done|]. by rewrite Ho, Hparse. }
  assert (Hsame : ∀ err, contract_error this1 e err ↔ contract_error this e err).
  { intros err. unfold contract_error. by rewrite Hoptions. }
  rewrite Hresult, result_catch_spec. split.
  - intros err (Himpl & errorTypes & group1 & Htypes & Hmatch & Hlookup).
    unfold AssembledTransaction.parseError.
    by rewrite Himpl, Hoptions, Htypes, Hmatch, Hlookup.
  - intros Hnone.
    assert ((if implementsToString e
             then AssembledTransaction.parseError this1 (toString e)
             else None) = None) as ->; [|done].
    apply parseError_contract_error. intros err. rewrite Hsame. apply Hnone.
Qed.

End AssembledTransaction_properties.

(** ** Properties of [SentTransaction] *)

Section backoff_properties.
Context {A : Type}.
Variable fn : nat → Outcome A.
Variable keepWaitingIf : A → bool.

(** While every attempt up to the deadline answers and is told to keep
    waiting, the loop ends at the deadline, having recorded one more
    attempt at least, each with such an answer. *)
Lemma backoff_attempts_keep_waiting (deadline i now : nat) attempts :
  (now ≤ deadline)%nat →
  (∀ t : nat, (now ≤ t ≤ deadline)%nat →
              ∃ r, fn t = Returns r ∧ keepWaitingIf r = true) →
  ∃ rs r,
    backoff_attempts fn keepWaitingIf deadline i now attempts
    = Returns (attempts ++ rs ++ [r])
    ∧ Forall (fun r => keepWaitingIf r = true) (rs ++ [r]).
Proof.
  funelim (backoff_attempts fn keepWaitingIf deadline i now attempts);
    intros Hle Hall;
    destruct (Hall now) as (r' & Hr' & Hkeep); try lia;
    try congruence.
  - (* one more attempt, after a sleep that stays within the deadline *)
    assert (r' = r) as -> by congruence.
    match goal with
    | IH : (_ <= _)%nat → _ |- _ =>
        destruct IH as (rs & r0 & -> & Hall'); [lia| |]
    end.
    { intros t Ht. apply Hall. lia. }
    exists (r :: rs), r0. split.
    + by rewrite <- app_assoc.
    + by constructor.
  - (* the deadline has passed *)
    assert (r' = r) as -> by congruence.
    exists [], r. split; [done|]. by constructor.
Qed.

(** While every attempt up to the deadline answers and is told to keep
    waiting, the attempts are those of the schedule, one answer for each,
    in order. *)
Lemma backoff_attempts_schedule (deadline i now : nat) attempts (fuel : nat) :
  (deadline - now ≤ fuel)%nat →
  (now ≤ deadline)%nat →
  (∀ t : nat, (now ≤ t ≤ deadline)%nat →
              ∃ r, fn t = Returns r ∧ keepWaitingIf r = true) →
  ∃ rs r,
    backoff_attempts fn keepWaitingIf deadline i now attempts
    = Returns (attempts ++ rs ++ [r])
    ∧ Forall2 (fun t r => fn t = Returns r) (schedule fuel i now deadline)
        (rs ++ [r])
    ∧ Forall (fun r => keepWaitingIf r = true) (rs ++ [r]).
Proof.
  revert fuel.
  funelim (backoff_attempts fn keepWaitingIf deadline i now attempts);
    intros fuel Hfuel Hle Hall;
    destruct (Hall now) as (r' & Hr' & Hkeep); try lia;
    try congruence.
  - (* one more attempt, after a sleep that stays within the deadline *)
    assert (r' = r) as -> by congruence.
    destruct fuel as [|fuel]; [lia|].
    pose proof (Nat.pow_nonzero 2 i).
    match goal with
    | IH : context [Forall2] |- _ =>
        destruct (IH fuel) as (rs & r0 & -> & Htimes & Hall'); [lia|lia| |]
    end.
    { intros t Ht. apply Hall. lia. }
    exists (r :: rs), r0. split; [by rewrite <- app_assoc|].
    split; [|by constructor].
    cbn [schedule]. rewrite decide_True by done. by constructor.
  - (* the deadline has passed *)
    assert (r' = r) as -> by congruence.
    exists [], r. split; [done|]. split; [|by constructor].
    destruct fuel; cbn [schedule]; [|rewrite decide_False by done];
      by repeat constructor.
Qed.

(** An answer of [withExponentialBackoff] holds an attempt at least. *)
Lemma backoff_attempts_nonempty (deadline i now : nat) attempts all :
  backoff_attempts fn keepWaitingIf deadline i now attempts = Returns all →
  ∃ rs r, all = attempts ++ rs ++ [r].
Proof.
  funelim (backoff_attempts fn keepWaitingIf deadline i now attempts);
    try discriminate.
  - intros [= <-]. by exists [], r.
  - intros Hall.
    match goal with
    | IH : ∀ all, _ = Returns all → _ |- _ =>
        destruct (IH _ Hall) as (rs & r0 & ->)
    end.
    exists (r :: rs), r0. by rewrite <- app_assoc.
  - intros [= <-]. by exists [], r.
Qed.

End backoff_properties.

Section SentTransaction_properties.
Context {T : Type}.
Context {envelope_codec : XdrCodec TransactionEnvelope}.
Context {data_codec : XdrCodec xdr.SorobanTransactionData}.
Variable net : Network.
Variable JSON_stringify : ∀ A : Type, A → string.

Abbreviation send_submit := (SentTransaction.send_submit net JSON_stringify).
Abbreviation send_poll := (SentTransaction.send_poll net JSON_stringify).
Abbreviation send := (SentTransaction.send net JSON_stringify).

Implicit Types this : SentTransaction.t T.

(** The first half of [send] returns a hash only for a submission that the
    node acknowledged as [PENDING]; the acknowledgement is recorded. *)
Lemma send_submit_pending this now updateTimeout timeoutInSeconds hash this1 :
  send_submit now updateTimeout timeoutInSeconds this = (Returns hash, this1) →
  ∃ response,
    SentTransaction.sendTransactionResponse this1 = Some response
    ∧ Api.sendStatus response = Api.PENDING
    ∧ Api.hash response = hash
    ∧ SentTransaction.getTransactionResponseAll this1
      = SentTransaction.getTransactionResponseAll this
    ∧ SentTransaction.getTransactionResponse this1
      = SentTransaction.getTransactionResponse this.
Proof.
  unfold SentTransaction.send_submit, SentTransaction.on_assembled,
    mbind_method, mget, mlift, massign, mthrow, mreturn.
  intros Hsubmit.
  repeat (case_match; try discriminate).
  all: repeat match goal with
       | H : (_, _) = (_, _) |- _ => injection H as ? ?
       end; subst.
  all: match goal with
       | H : negb (bool_decide _) = false |- _ =>
           apply negb_false_iff, bool_decide_eq_true in H
       end.
  all: eexists; split; [reflexivity|]; done.
Qed.

(** C7.  When the submission was acknowledged as [PENDING] and every poll
    of [getTransaction] up to the deadline answers [NOT_FOUND], [send]
    fails with [TransactionStillPending].  On the object it leaves,
    [getTransactionResponseAll] holds the answers of all the polls of the
    schedule, one for each in order (one poll at least, every answer
    [NOT_FOUND]), [getTransactionResponse] is the last of them, and every
    other field is what the submission left: the signer, the assembled
    transaction, the signed envelope and the [PENDING] response. *)
Theorem send_still_pending this now start updateTimeout hash this1 :
  let timeoutInSeconds :=
    Options.timeoutInSeconds
      (AssembledTransaction.options (SentTransaction.assembled this))
      ?? DEFAULT_TIMEOUT in
  send_submit now (updateTimeout ?? true) timeoutInSeconds this
    = (Returns hash, this1) →
  (∀ t : nat, (start ≤ t ≤ start + timeoutInSeconds)%nat →
     ∃ response,
       getTransaction net hash t = Returns response
       ∧ Api.status response = Api.NOT_FOUND) →
  ∃ msg all last_response this',
    send now start updateTimeout this
    = (throw TransactionStillPending msg, this')
    ∧ SentTransaction.getTransactionResponseAll this' = Some all
    ∧ SentTransaction.getTransactionResponse this' = Some last_response
    ∧ Forall2 (fun t response => getTransaction net hash t = Returns response)
        (attempt_times start timeoutInSeconds) all
    ∧ (1 ≤ length all)%nat
    ∧ last all = Some last_response
    ∧ Forall (fun response => Api.status response = Api.NOT_FOUND) all
    ∧ SentTransaction.signTransaction this'
      = SentTransaction.signTransaction this1
    ∧ SentTransaction.assembled this' = SentTransaction.assembled this1
    ∧ SentTransaction.server this' = SentTransaction.server this1
    ∧ SentTransaction.signed this' = SentTransaction.signed this1
    ∧ ∃ response,
        SentTransaction.sendTransactionResponse this' = Some response
        ∧ Api.sendStatus response = Api.PENDING
        ∧ Api.hash response = hash.
Proof.
  intros timeoutInSeconds Hsubmit Hpolls.
  destruct (backoff_attempts_schedule (getTransaction net hash)
              SentTransaction.keepWaiting (start + timeoutInSeconds) 0 start []
              timeoutInSeconds)
    as (rs & r & Hall & Htimes & Hkeep); [lia|lia| |].
  { intros t Ht. destruct (Hpolls t Ht) as (response & ? & Hstatus).
    exists response. split; [done|].
    unfold SentTransaction.keepWaiting. by apply bool_decide_eq_true. }
  assert (Hnot_found :
            Forall (fun response => Api.status response = Api.NOT_FOUND)
              (rs ++ [r])).
  { eapply Forall_impl; [exact Hkeep|]. intros response.
    unfold SentTransaction.keepWaiting. apply bool_decide_eq_true. }
  destruct (send_submit_pending _ _ _ _ _ _ Hsubmit)
    as (response & Hresponse & Hpending & Hhash & _).
  eexists _, (rs ++ [r]), r, _. split.
  { unfold SentTransaction.send, mbind_method, mget.
    fold timeoutInSeconds. rewrite Hsubmit.
    unfold SentTransaction.send_poll, mbind_method, mget, mlift, massign,
      mthrow, withExponentialBackoff.
    rewrite Hall. cbn [app]. rewrite last_snoc.
    rewrite bool_decide_eq_true_2; [reflexivity|].
    apply Forall_app in Hnot_found as [_ Hr]. by inversion Hr. }
  cbn.
  split; [reflexivity|]. split; [reflexivity|]. split; [exact Htimes|].
  split; [rewrite length_app; cbn; lia|]. split; [apply last_snoc|].
  split; [exact Hnot_found|]. repeat (split; [reflexivity|]).
  by exists response.
Qed.

End SentTransaction_properties.

(** ** Properties of the two [ContractClient] classes *)

Section ContractClient_properties.
Variable spec : ContractSpec.
Variable options : gmap string JsValue.

(** What the object literal of a method ends with, in both classes: the
    error table folded from [spec.errorCases()] and the parser bound to the
    method name; no spread property can replace them. *)
Lemma assembleTransaction_prepopulated method args methodOptions obj :
  ContractClient.assembleTransaction spec options method args methodOptions
    = Returns obj →
  obj !! "errorTypes" = Some (JsErrorTypes (errorTypes_of spec))
  ∧ obj !! "parseResultXdr" = Some (JsParseResultXdr method).
Proof.
  unfold ContractClient.assembleTransaction.
  destruct args as [a|]; cbn; [destruct (funcArgsToScVals _ _ _); cbn|];
    intros [= <-]; by simplify_map_eq.
Qed.

(** In the class of [contract/sent_transaction.ts] the per-invocation
    options are spread last: their value wins for every key they share with
    the client options. *)
Lemma assembleTransaction_method_options_win method args methodOptions obj k v :
  ContractClient.assembleTransaction spec options method args
    (Some methodOptions) = Returns obj →
  methodOptions !! k = Some v →
  k ≠ "errorTypes" → k ≠ "parseResultXdr" →
  obj !! k = Some v.
Proof.
  unfold ContractClient.assembleTransaction, spread.
  intros Hobj Hk Hne1 Hne2.
  destruct args as [a|]; cbn in Hobj;
    [destruct (funcArgsToScVals _ _ _); cbn in Hobj; [|discriminate]|];
    injection Hobj as <-;
    rewrite !lookup_insert_ne by done;
    by apply lookup_union_Some_l.
Qed.

(** In the class of [contract_client/client.ts] the client options are
    spread after the per-invocation options: of a key that both objects
    hold, the object passed to [AssembledTransaction.build] has the
    client-level value. *)
Lemma legacy_client_options_win name0 args methodOptions obj :
  contract_client.ContractClient.method_body spec options name0 args
    methodOptions = Returns obj →
  (∀ k v, options !! k = Some v →
          k ≠ "errorTypes" → k ≠ "parseResultXdr" →
          obj !! k = Some v)
  ∧ obj !! "errorTypes" = Some (JsErrorTypes (errorTypes_of spec))
  ∧ obj !! "parseResultXdr" = Some (JsParseResultXdr name0).
Proof.
  unfold contract_client.ContractClient.method_body, spread.
  destruct (funcArgsToScVals _ _ _) as [vals|]; cbn; [|discriminate].
  intros [= <-]. split; [|by simplify_map_eq].
  intros k v Hk Hne1 Hne2.
  rewrite !lookup_insert_ne by done.
  by apply lookup_union_Some_l.
Qed.

(** The two option records have no key in common. *)
Lemma typed_options_disjoint (methodOptions : gmap string JsValue) k v :
  map_Forall (fun k _ => k ∈ ClientOptions_keys) options →
  map_Forall (fun k _ => k ∈ MethodOptions_keys) methodOptions →
  methodOptions !! k = Some v →
  options !! k = None ∧ k ≠ "errorTypes" ∧ k ≠ "parseResultXdr"
  ∧ k ≠ "method" ∧ k ≠ "args".
Proof.
  intros Hclient Hmethod Hk. apply Hmethod in Hk as Hkey.
  assert (Hkeys : k = "fee" ∨ k = "timeoutInSeconds" ∨ k = "simulate").
  { unfold MethodOptions_keys in Hkey. set_solver. }
  split.
  - destruct (options !! k) as [w|] eqn:Hw; [|done].
    apply Hclient in Hw. unfold ClientOptions_keys in Hw.
    exfalso. destruct Hkeys as [-> | [-> | ->]]; set_solver.
  - destruct Hkeys as [-> | [-> | ->]]; done.
Qed.


Lemma legacy_bind_lookup (fns : list ScSpecFunctionV0)
    (methods : gmap string ClientMethod) (f : ScSpecFunctionV0) :
  let m := {| parameters := ["args"; "options"];
              call := contract_client.ContractClient.method_body spec options
                        (name f) |} in
  f ∈ fns ∨ methods !! name f = Some m →
  fold_left (contract_client.ContractClient.bind_method spec options) fns
    methods !! name f = Some m.
Proof.
  intros m. revert methods.
  induction fns as [|g fns IH]; intros methods [Hf|Hm]; cbn [fold_left].
  - by apply elem_of_nil in Hf.
  - done.
  - apply IH. apply elem_of_cons in Hf as [->|Hf]; [right|by left].
    unfold contract_client.ContractClient.bind_method, attach.
    by rewrite lookup_insert_eq.
  - apply IH. right.
    unfold contract_client.ContractClient.bind_method, attach.
    destruct (decide (name g = name f)) as [->|Hne].
    + by rewrite lookup_insert_eq.
    + by rewrite lookup_insert_ne.
Qed.

(** C8.  In the class of [contract_client/client.ts] every function of the
    spec gets a method of its name, and every such method declares the two
    parameters [(args, options)] and marshals its first argument as the
    argument record, whatever the number of inputs the function declares. *)
Theorem legacy_client_methods_take_args f :
  f ∈ funcs spec →
  ∃ m,
    contract_client.ContractClient.constructor spec options !! name f = Some m
    ∧ parameters m = ["args"; "options"]
    ∧ call m = contract_client.ContractClient.method_body spec options (name f).
Proof.
  intros Hf. eexists. split.
  { unfold contract_client.ContractClient.constructor.
    apply legacy_bind_lookup. by left. }
  split; reflexivity.
Qed.

(** The sibling class does bind by declaration: a function without inputs
    gets a method of the one parameter [(opts?)], any other a method of
    [(args?, methodOptions?)]. *)
Lemma forEach_binds (fns : list ScSpecFunctionV0)
    (methods : gmap string ClientMethod) :
  (∀ g, g ∈ fns → getFunc spec (name g) = Returns g) →
  NoDup (name <$> fns) →
  ∃ methods',
    ContractClient.forEach spec options fns methods = Returns methods'
    ∧ (∀ g, g ∈ fns →
            methods' !! name g = Some (declared_method spec options g))
    ∧ (∀ k, k ∉ name <$> fns → methods' !! k = methods !! k).
Proof.
  revert methods. induction fns as [|f fns IH]; intros methods Hget Hnd.
  - exists methods. split; [done|]. split; [|done].
    intros g Hg. by apply elem_of_nil in Hg.
  - rewrite fmap_cons in Hnd. apply NoDup_cons in Hnd as [Hf Hnd].
    cbn [ContractClient.forEach]. unfold ContractClient.bind_method at 1.
    rewrite (Hget f) by left. cbn [obind].
    edestruct IH as (methods' & -> & Hbound & Hother); [|exact Hnd|].
    { intros g Hg. apply Hget. by right. }
    exists methods'. split; [done|]. split.
    + intros g [Hgf|Hg]%elem_of_cons; [subst g|by apply Hbound].
      rewrite Hother by done. unfold attach. rewrite lookup_insert_eq.
      unfold declared_method. by destruct (inputs f).
    + intros k Hk. rewrite fmap_cons in Hk.
      apply not_elem_of_cons in Hk as [Hne Hk].
      rewrite Hother by done. unfold attach. by rewrite lookup_insert_ne.
Qed.

Lemma client_binds_by_declaration :
  (∀ f, f ∈ funcs spec → getFunc spec (name f) = Returns f) →
  NoDup (name <$> funcs spec) →
  ∃ methods,
    ContractClient.constructor spec options = Returns methods
    ∧ ∀ f, f ∈ funcs spec →
           methods !! name f = Some (declared_method spec options f).
Proof.
  intros Hget Hnd. unfold ContractClient.constructor.
  destruct (forEach_binds (funcs spec) ∅) as (methods & ? & ? & _);
    [done|done|].
  by exists methods.
Qed.

End ContractClient_properties.

(** ** Further properties of [AssembledTransaction] *)

Section simulate_more.
Context {T : Type}.
Variable net : Network.
Variable new_Contract : string → Outcome string.
Variable assembleTransaction :
  Tx → Api.SimulateTransactionSuccessResponse → Outcome TransactionBuilder.t.
Variable JSON_stringify : ∀ A : Type, A → string.

Abbreviation simulate := (AssembledTransaction.simulate net assembleTransaction).
Abbreviation simulationData := (AssembledTransaction.simulationData JSON_stringify).

Implicit Types this : AssembledTransaction.t T.

(** [simulate] assigns [built] and [simulation] and nothing else. *)
Lemma simulate_frame this o this' :
  simulate this = (o, this') →
  AssembledTransaction.simulationResult this'
    = AssembledTransaction.simulationResult this
  ∧ AssembledTransaction.simulationTransactionData this'
    = AssembledTransaction.simulationTransactionData this
  ∧ AssembledTransaction.options this' = AssembledTransaction.options this
  ∧ AssembledTransaction.raw this' = AssembledTransaction.raw this
  ∧ AssembledTransaction.signed this' = AssembledTransaction.signed this.
Proof.
  unfold AssembledTransaction.simulate, mbind_method, mget, mthrow, mlift,
    massign, mreturn.
  intros Hsim.
  repeat (case_match; try discriminate).
  all: repeat match goal with
       | H : (_, _) = (_, _) |- _ => inversion H; clear H
       end; subst; done.
Qed.

(** X1.  Once [simulationData] has answered, its answer is cached for good:
    a later [simulate], whatever the node answers and whether it succeeds,
    leaves [simulationData] with the earlier answer. *)
Theorem simulationData_survives_simulate this sd this1 o this2 :
  simulationData this = (Returns sd, this1) →
  simulate this1 = (o, this2) →
  simulationData this2 = (Returns sd, this2).
Proof.
  intros Hsd Hsim.
  destruct (simulate_frame _ _ _ Hsim) as (Hres & Hdata & _).
  rewrite (simulationData_returns _ _ _ _ Hsd) in Hres, Hdata. cbn in Hres, Hdata.
  destruct sd as [r d]. by apply simulationData_cached.
Qed.

(** X2.  A simulation that the node answers with an error does not make
    [simulate] throw: [built] is the envelope of [raw], and the failure
    surfaces at the next read of [simulationData], as an [Error] that quotes
    the node's text. *)
Theorem simulate_failure_is_lazy this raw0 error :
  AssembledTransaction.raw this = Some raw0 →
  simulateTransaction net (TransactionBuilder.build raw0)
    = Returns (Api.SimulationError error) →
  AssembledTransaction.simulationResult this = None
    ∨ AssembledTransaction.simulationTransactionData this = None →
  ∃ this',
    simulate this = (Returns tt, this')
    ∧ AssembledTransaction.built this' = Some (TransactionBuilder.build raw0)
    ∧ simulationData this'
      = (throw Error
           ("Transaction simulation failed: " ++ dquote ++ error ++ dquote),
         this').
Proof.
  intros Hraw Hrpc Hcache. eexists. split; [|split].
  - unfold AssembledTransaction.simulate, mbind_method, mget, mlift, massign,
      mreturn.
    rewrite Hraw, Hrpc. reflexivity.
  - reflexivity.
  - unfold AssembledTransaction.simulationData. cbn.
    destruct Hcache as [-> | ->]; [done|].
    by destruct (AssembledTransaction.simulationResult this).
Qed.

(** X3.  When the simulation request itself fails, [simulate] rethrows, yet
    [built] has been assigned already.  On a transaction that had no
    simulation, that leaves an envelope without simulation data. *)
Theorem simulate_rejected_leaves_built this raw0 e :
  AssembledTransaction.raw this = Some raw0 →
  simulateTransaction net (TransactionBuilder.build raw0) = Throws e →
  AssembledTransaction.simulation this = None →
  AssembledTransaction.simulationResult this = None →
  ∃ this',
    simulate this = (Throws e, this')
    ∧ AssembledTransaction.built this' = Some (TransactionBuilder.build raw0)
    ∧ simulationData this'
      = (throw NotYetSimulated "Transaction has not yet been simulated", this').
Proof.
  intros Hraw Hrpc Hsim Hres. eexists. split; [|split].
  - unfold AssembledTransaction.simulate, mbind_method, mget, mlift, massign.
    rewrite Hraw, Hrpc. reflexivity.
  - reflexivity.
  - unfold AssembledTransaction.simulationData. cbn. by rewrite Hres, Hsim.
Qed.

(** X4.  Leaving [simulate] out of the options is asking for the
    simulation: [build] gives the same transaction as with
    [simulate: true]. *)
Theorem build_simulates_by_default now (options0 : Options.t T) :
  Options.simulate options0 = None →
  AssembledTransaction.build net assembleTransaction new_Contract now options0
  = AssembledTransaction.build net assembleTransaction new_Contract now
      (Options.set_simulate true options0).
Proof.
  intros Hnone. unfold AssembledTransaction.build, AssembledTransaction.constructor.
  rewrite Hnone. reflexivity.
Qed.

(** X5.  With [simulate: false] and no public key, [build] asks the node
    nothing: its outcome is the same whatever node and whatever
    [assembleTransaction] it is given.  When it returns, the contract id
    was accepted by [new Contract], the options are unchanged, [raw] is a
    builder on the null account at sequence number 0 with the one
    invocation, and nothing is built, simulated or signed. *)
Theorem build_offline now (options0 : Options.t T) (net' : Network)
    (assembleTransaction' :
       Tx → Api.SimulateTransactionSuccessResponse → Outcome TransactionBuilder.t) :
  Options.simulate options0 = Some false →
  truthy_string (Options.publicKey options0) = false →
  AssembledTransaction.build net assembleTransaction new_Contract now options0
  = AssembledTransaction.build net' assembleTransaction' new_Contract now
      options0
  ∧ ∀ tx,
      AssembledTransaction.build net assembleTransaction new_Contract now
        options0 = Returns tx →
      ∃ contract,
        new_Contract (Options.contractId options0) = Returns contract
        ∧ AssembledTransaction.options tx = options0
        ∧ AssembledTransaction.raw tx
          = Some
              (TransactionBuilder.setTimeout now
                 (Options.timeoutInSeconds options0 ?? DEFAULT_TIMEOUT)
                 (TransactionBuilder.addOperation
                    (AssembledTransaction.Contract_call contract
                       (Options.method options0)
                       (Options.args options0 ?? []))
                    (TransactionBuilder.new
                       {| accountId := NULL_ACCOUNT; sequenceNumber := 0 |}
                       (Options.fee options0 ?? BASE_FEE)
                       (Options.networkPassphrase options0))))
        ∧ AssembledTransaction.built tx = None
        ∧ AssembledTransaction.simulation tx = None
        ∧ AssembledTransaction.signed tx = None.
Proof.
  intros Hsim Hkey.
  unfold AssembledTransaction.build, AssembledTransaction.constructor.
  rewrite Hkey, Hsim. cbn.
  destruct (new_Contract (Options.contractId options0)) as [contract|e]; cbn;
    [|by split].
  split; [reflexivity|]. intros tx [= <-]. exists contract. cbn.
  split; [done|]. split; [|done]. destruct options0. cbn in *. by rewrite Hsim.
Qed.

(** X6.  A successful simulation on a transaction that has no cached data
    leaves [built] as the envelope [assembleTransaction] made of the
    simulation, and the next read of [simulationData] gives the result and
    the transaction data of that simulation. *)
Theorem simulate_success_data this raw0 s assembled r :
  AssembledTransaction.raw this = Some raw0 →
  simulateTransaction net (TransactionBuilder.build raw0)
    = Returns (Api.SimulationSuccess s) →
  assembleTransaction (TransactionBuilder.build raw0) s = Returns assembled →
  Api.restorePreamble s = None →
  Api.result s = Some r →
  AssembledTransaction.simulationResult this = None →
  ∃ this' this'',
    simulate this = (Returns tt, this')
    ∧ AssembledTransaction.built this'
      = Some (TransactionBuilder.build assembled)
    ∧ simulationData this'
      = (Returns {| SimulationData.result := r;
                    SimulationData.transactionData := Api.transactionData s |},
         this'')
    ∧ AssembledTransaction.built this'' = AssembledTransaction.built this'.
Proof.
  intros Hraw Hrpc Hassemble Hrestore Hresult Hcache. eexists _, _.
  split; [|split; [|split]].
  - unfold AssembledTransaction.simulate, mbind_method, mget, mlift, massign,
      mreturn.
    rewrite Hraw, Hrpc, Hassemble. reflexivity.
  - reflexivity.
  - unfold AssembledTransaction.simulationData. cbn.
    rewrite Hcache, Hrestore, Hresult.
    rewrite bool_decide_eq_false_2 by (by intros [? ?]). reflexivity.
  - reflexivity.
Qed.

End simulate_more.

Section AssembledTransaction_more.
Context {T : Type}.
Context {envelope_codec : XdrCodec TransactionEnvelope}.
Context {scval_codec : XdrCodec xdr.ScVal}.
Context {auth_codec : XdrCodec xdr.SorobanAuthorizationEntry}.
Context {data_codec : XdrCodec xdr.SorobanTransactionData}.
Variable encodeEd25519PublicKey : Buffer → string.
Variable JSON_stringify : ∀ A : Type, A → string.

Abbreviation simulationData := (AssembledTransaction.simulationData JSON_stringify).
Abbreviation isReadCall := (AssembledTransaction.isReadCall JSON_stringify).
Abbreviation result := (AssembledTransaction.result JSON_stringify).
Abbreviation needsNonInvokerSigningBy :=
  (AssembledTransaction.needsNonInvokerSigningBy encodeEd25519PublicKey
     JSON_stringify).
Abbreviation sign :=
  (AssembledTransaction.sign encodeEd25519PublicKey JSON_stringify).

Implicit Types this : AssembledTransaction.t T.

Lemma isReadCall_frame this o thisr :
  isReadCall this = (o, thisr) →
  AssembledTransaction.built thisr = AssembledTransaction.built this
  ∧ AssembledTransaction.options thisr = AssembledTransaction.options this
  ∧ AssembledTransaction.signed thisr = AssembledTransaction.signed this.
Proof.
  intros Hread.
  destruct (isReadCall_outcome _ _ _ _ Hread) as [(sd & b & Hsd & _)|(e & _ & ->)];
    [|done].
  exact (simulationData_built _ _ _ _ Hsd).
Qed.

Lemma read_check_frame force this o thisr :
  (if force ?? false then mreturn false else isReadCall) this = (o, thisr) →
  AssembledTransaction.built thisr = AssembledTransaction.built this
  ∧ AssembledTransaction.options thisr = AssembledTransaction.options this
  ∧ AssembledTransaction.signed thisr = AssembledTransaction.signed this.
Proof.
  destruct (force ?? false).
  - by intros [= _ <-].
  - apply isReadCall_frame.
Qed.

Lemma passes_read_check_run force this thisr :
  passes_read_check JSON_stringify force this thisr →
  (if force ?? false then mreturn false else isReadCall) this
  = (Returns false, thisr).
Proof.
  intros [[-> ->]|[[-> | ->] Hread]]; done.
Qed.

(** The co-signers are read off [built] alone. *)
Lemma needsNonInvokerSigningBy_built includeAlreadySigned this this' :
  AssembledTransaction.built this' = AssembledTransaction.built this →
  needsNonInvokerSigningBy includeAlreadySigned this'
  = needsNonInvokerSigningBy includeAlreadySigned this.
Proof.
  unfold AssembledTransaction.needsNonInvokerSigningBy. by intros ->.
Qed.

(** X7.  [sign] succeeds only when no co-signer is outstanding: right
    before a successful [sign], with [force] or without,
    [needsNonInvokerSigningBy()] is the empty list. *)
Theorem sign_success_no_cosigner this now force signTransaction_arg this' :
  sign now force signTransaction_arg this = (Returns tt, this') →
  needsNonInvokerSigningBy false this = Returns [].
Proof.
  intros Hsign.
  unfold AssembledTransaction.sign, mbind_method, mget, mthrow, mlift in Hsign.
  destruct (AssembledTransaction.built this) as [built0|] eqn:Hbuilt;
    [|discriminate].
  destruct ((if force ?? false then mreturn false else isReadCall) this)
    as [[readCall|e] thisr] eqn:Hread; [|discriminate].
  destruct (read_check_frame _ _ _ _ Hread) as (Hb & _).
  destruct readCall; [discriminate|].
  destruct (match signTransaction_arg with Some f => Some f | None => _ end);
    [|discriminate].
  rewrite <- (needsNonInvokerSigningBy_built false this thisr) by done.
  destruct (needsNonInvokerSigningBy false thisr) as [needs|]; [|discriminate].
  destruct needs; [done|discriminate].
Qed.

(** X8.  A [sign] that throws, at whatever step, has not assigned
    [signed]. *)
Theorem sign_failure_keeps_signed this now force signTransaction_arg e this' :
  sign now force signTransaction_arg this = (Throws e, this') →
  AssembledTransaction.signed this' = AssembledTransaction.signed this.
Proof.
  intros Hsign.
  unfold AssembledTransaction.sign, mbind_method, mget, mthrow, mlift, massign
    in Hsign.
  destruct (AssembledTransaction.built this) as [built0|] eqn:Hbuilt;
    [|by injection Hsign as _ <-].
  destruct ((if force ?? false then mreturn false else isReadCall) this)
    as [[readCall|e0] thisr] eqn:Hread.
  2: { injection Hsign as _ <-. by destruct (read_check_frame _ _ _ _ Hread) as (_ & _ & ?). }
  destruct (read_check_frame _ _ _ _ Hread) as (Hb & _ & Hsigned).
  rewrite <- Hsigned.
  destruct readCall; [by injection Hsign as _ <-|].
  destruct (match signTransaction_arg with Some f => Some f | None => _ end);
    [|by injection Hsign as _ <-].
  destruct (needsNonInvokerSigningBy false thisr) as [needs|];
    [|by injection Hsign as _ <-].
  destruct (negb (length needs =? 0)%nat); [by injection Hsign as _ <-|].
  rewrite Hb, Hbuilt in Hsign.
  destruct (simulationData thisr) as [[sd|] this2] eqn:Hsd in Hsign.
  2: { injection Hsign as _ <-. by destruct (simulationData_built _ _ _ _ Hsd) as (_ & _ & ?). }
  destruct (simulationData_built _ _ _ _ Hsd) as (_ & _ & <-).
  repeat (case_match; try discriminate);
    by injection Hsign as _ <-.
Qed.

(** X9.  On a built transaction that is not held back as a read call, a
    missing signer is reported before anything else: [sign] throws
    [NoSigner], also when co-signers are outstanding, and leaves the
    envelope as it was. *)
Theorem sign_without_signer this now force built0 thisr :
  AssembledTransaction.built this = Some built0 →
  passes_read_check JSON_stringify force this thisr →
  Options.signTransaction (AssembledTransaction.options this) = None →
  ∃ msg,
    sign now force None this = (throw NoSigner msg, thisr)
    ∧ AssembledTransaction.built thisr = Some built0.
Proof.
  intros Hbuilt Hpass Hsigner. apply passes_read_check_run in Hpass as Hread.
  destruct (read_check_frame _ _ _ _ Hread) as (Hb & _).
  eexists. split; [|congruence].
  unfold AssembledTransaction.sign, mbind_method, mget, mthrow.
  rewrite Hbuilt, Hread, Hsigner. reflexivity.
Qed.

(** X10.  With a signer at hand, a built transaction that still has
    co-signers to wait for is not signed: [sign] throws
    [NeedsMoreSignatures], with [force] or without, and the envelope is not
    refreshed. *)
Theorem sign_with_pending_cosigners this now force signTransaction_arg built0
    thisr signer needs :
  AssembledTransaction.built this = Some built0 →
  passes_read_check JSON_stringify force this thisr →
  effective_signTransaction this signTransaction_arg = Some signer →
  needsNonInvokerSigningBy false this = Returns needs →
  needs ≠ [] →
  ∃ msg,
    sign now force signTransaction_arg this = (throw NeedsMoreSignatures msg, thisr)
    ∧ AssembledTransaction.built thisr = Some built0
    ∧ AssembledTransaction.signed thisr = AssembledTransaction.signed this.
Proof.
  intros Hbuilt Hpass Hsigner Hneeds Hne.
  apply passes_read_check_run in Hpass as Hread.
  destruct (read_check_frame _ _ _ _ Hread) as (Hb & _ & Hs).
  eexists. split; [|split; congruence].
  unfold AssembledTransaction.sign, mbind_method, mget, mthrow, mlift.
  unfold effective_signTransaction in Hsigner.
  rewrite Hbuilt, Hread, Hsigner.
  rewrite (needsNonInvokerSigningBy_built false this thisr) by done.
  rewrite Hneeds. destruct needs; [done|reflexivity].
Qed.

Lemma omap_all_filter_weaken {A B} (f : A → Outcome B) (p q : A → bool)
    (xs : list A) (ys : list B) :
  (∀ x, p x = true → q x = true) →
  omap_all f (List.filter q xs) = Returns ys →
  ∃ zs, omap_all f (List.filter p xs) = Returns zs ∧ zs ⊆ ys.
Proof.
  intros Hpq. revert ys. induction xs as [|x xs IH]; intros ys; cbn.
  - intros [= <-]. by exists [].
  - destruct (q x) eqn:Hq.
    + cbn. destruct (f x) as [y|] eqn:Hf; [cbn|discriminate].
      destruct (omap_all f (List.filter q xs)) as [ys'|] eqn:Hys;
        [cbn|discriminate].
      intros [= <-]. destruct (IH _ eq_refl) as (zs & Hzs & Hsub).
      destruct (p x); cbn.
      * rewrite Hf, Hzs. cbn. exists (y :: zs). split; [done|set_solver].
      * exists zs. split; [done|set_solver].
    + intros Hys. destruct (IH _ Hys) as (zs & Hzs & Hsub).
      destruct (p x) eqn:Hp; [|by exists zs].
      apply Hpq in Hp. congruence.
Qed.

Lemma Set_values_elem (x : string) (xs : list string) :
  x ∈ Set_values xs ↔ x ∈ xs.
Proof. rewrite Set_values_first_occurrences. apply first_occurrences_elem. Qed.

(** X11.  Asking for the accounts that have signed already only adds to the
    answer: when [needsNonInvokerSigningBy({ includeAlreadySigned: true })]
    returns, so does the plain call, with accounts that are all among the
    former. *)
Theorem needsNonInvokerSigningBy_includeAlreadySigned this all :
  needsNonInvokerSigningBy true this = Returns all →
  ∃ pending,
    needsNonInvokerSigningBy false this = Returns pending ∧ pending ⊆ all.
Proof.
  unfold AssembledTransaction.needsNonInvokerSigningBy.
  destruct (AssembledTransaction.built this) as [built0|]; [|discriminate].
  destruct (Tx_operations built0) as [ops|]; [|discriminate].
  destruct (AssembledTransaction.first_operation ops) as [op|]; cbn;
    [|discriminate].
  destruct (omap_all _ (List.filter (AssembledTransaction.needs_signing true) _))
    as [keys|] eqn:Hkeys; cbn; [|discriminate].
  intros [= <-].
  assert (Hweaken : ∀ entry,
            AssembledTransaction.needs_signing false entry = true →
            AssembledTransaction.needs_signing true entry = true).
  { intros entry. unfold AssembledTransaction.needs_signing.
    by destruct (xdr.credentials entry). }
  destruct (omap_all_filter_weaken _ _ _ _ _ Hweaken Hkeys) as (zs & -> & Hsub).
  cbn. eexists. split; [reflexivity|].
  intros k. rewrite !Set_values_elem. apply Hsub.
Qed.

(** X12.  Before any simulation, [result] throws [NotYetSimulated]: the
    error goes through the [catch] clause untouched, whatever error table
    the options hold. *)
Theorem result_before_simulation this :
  AssembledTransaction.simulation this = None →
  AssembledTransaction.simulationResult this = None →
  result this
  = (throw NotYetSimulated "Transaction has not yet been simulated", this).
Proof.
  intros Hsim Hres.
  unfold AssembledTransaction.result, AssembledTransaction.simulationData.
  rewrite Hres, Hsim.
  unfold AssembledTransaction.result_catch, AssembledTransaction.parseError.
  cbn [implementsToString negb].
  destruct (Options.errorTypes _); reflexivity.
Qed.

(** X13.  The only error values [result] ever returns are entries of the
    error table of the options: without a table, [result] returns a parsed
    value or throws. *)
Theorem result_Err_is_registered this err this' :
  result this = (Returns (Err err), this') →
  ∃ errorTypes code,
    Options.errorTypes (AssembledTransaction.options this) = Some errorTypes
    ∧ errorTypes !! code = Some err.
Proof.
  assert (Hcatch : ∀ e this1,
            AssembledTransaction.options this1 = AssembledTransaction.options this →
            AssembledTransaction.result_catch e this1 = (Returns (Err err), this') →
            ∃ errorTypes code,
              Options.errorTypes (AssembledTransaction.options this) = Some errorTypes
              ∧ errorTypes !! code = Some err).
  { intros e this1 Hoptions. rewrite result_catch_spec.
    unfold AssembledTransaction.parseError. rewrite Hoptions.
    destruct (implementsToString e); [|discriminate].
    destruct (Options.errorTypes _) as [errorTypes|]; [|discriminate].
    destruct (match_contractErrorPattern _) as [group1|]; [|discriminate].
    destruct (errorTypes !! parseInt group1) as [err0|] eqn:Hlookup;
      [|discriminate].
    intros Herr. inversion Herr; clear Herr; subst. eauto. }
  unfold AssembledTransaction.result.
  destruct (simulationData this) as [[sd|e] this1] eqn:Hsd;
    destruct (simulationData_built _ _ _ _ Hsd) as (_ & Hoptions & _).
  - destruct (Options.parseResultXdr _ _) as [v|e]; [discriminate|].
    by apply Hcatch.
  - by apply Hcatch.
Qed.

(** X14.  A transaction read back from JSON carries the envelope and the
    simulation data and nothing else: it is unsigned, has no simulation
    response and no [raw] builder, so it cannot be simulated again. *)
Theorem fromJSON_cannot_simulate (net : Network)
    (assembleTransaction :
       Tx → Api.SimulateTransactionSuccessResponse → Outcome TransactionBuilder.t)
    (options0 : Options.t T) json (txn : AssembledTransaction.t T) :
  AssembledTransaction.fromJSON options0 json = Returns txn →
  AssembledTransaction.signed txn = None
  ∧ AssembledTransaction.simulation txn = None
  ∧ AssembledTransaction.raw txn = None
  ∧ AssembledTransaction.simulate net assembleTransaction txn
    = (throw Error
         "Transaction has not yet been assembled; call `AssembledTransaction.build` first.",
       txn).
Proof.
  unfold AssembledTransaction.fromJSON, obind. intros Hjson.
  repeat (case_match; try discriminate).
  all: injection Hjson as <-; done.
Qed.

End AssembledTransaction_more.

Section signAuthEntries_more.
Context {T : Type}.
Variable net : Network.
Variable encodeEd25519PublicKey : Buffer → string.
Variable authorizeEntry :
  xdr.SorobanAuthorizationEntry → SignAuthEntry → nat → string →
  Outcome xdr.SorobanAuthorizationEntry.
Variable JSON_stringify : ∀ A : Type, A → string.

Abbreviation signAuthEntries :=
  (AssembledTransaction.signAuthEntries net encodeEd25519PublicKey
     authorizeEntry JSON_stringify).
Abbreviation signAuthEntries_loop :=
  (AssembledTransaction.signAuthEntries_loop encodeEd25519PublicKey
     authorizeEntry).
Abbreviation visits :=
  (entry_visited encodeEd25519PublicKey authorizeEntry).

Implicit Types this : AssembledTransaction.t T.

(** The loop walks the entries in order; it stops at the first one whose
    key cannot be read or whose signing fails, and leaves the array with
    the entries before that one as it made them. *)
Lemma signAuthEntries_loop_visits expiration signAuthEntry publicKey passphrase
    (signed_so_far todo : list xdr.SorobanAuthorizationEntry) o l :
  signAuthEntries_loop expiration signAuthEntry publicKey passphrase
    signed_so_far todo = (o, l) →
  ∃ visited visited' rest,
    todo = visited ++ rest
    ∧ l = signed_so_far ++ visited' ++ rest
    ∧ Forall2 (visits expiration signAuthEntry publicKey passphrase)
        visited visited'
    ∧ match o with Returns _ => rest = [] | Throws _ => rest ≠ [] end.
Proof.
  revert signed_so_far.
  induction todo as [|entry todo IH]; intros signed_so_far; cbn.
  { intros [= <- <-]. exists [], [], []. cbn. rewrite app_nil_r.
    repeat split; [constructor]. }
  assert (Hcontinue : ∀ entry',
            visits expiration signAuthEntry publicKey passphrase
              entry entry' →
            signAuthEntries_loop expiration signAuthEntry publicKey passphrase
              (signed_so_far ++ [entry']) todo = (o, l) →
            ∃ visited visited' rest,
              entry :: todo = visited ++ rest
              ∧ l = signed_so_far ++ visited' ++ rest
              ∧ Forall2 (visits expiration signAuthEntry publicKey
                           passphrase) visited visited'
              ∧ match o with Returns _ => rest = [] | Throws _ => rest ≠ [] end).
  { intros entry' Hentry Hloop.
    destruct (IH _ Hloop) as (visited & visited' & rest & -> & -> & Hall & Ho).
    exists (entry :: visited), (entry' :: visited'), rest.
    split; [done|]. split; [by rewrite <- app_assoc|].
    split; [by constructor|done]. }
  assert (Habort : ∀ e,
            (Throws e, signed_so_far ++ entry :: todo) = (o, l) →
            ∃ visited visited' rest,
              entry :: todo = visited ++ rest
              ∧ l = signed_so_far ++ visited' ++ rest
              ∧ Forall2 (visits expiration signAuthEntry publicKey
                           passphrase) visited visited'
              ∧ match o with Returns _ => rest = [] | Throws _ => rest ≠ [] end).
  { intros e [= <- <-]. exists [], [], (entry :: todo).
    split; [done|]. split; [done|]. split; [constructor|done]. }
  unfold AssembledTransaction.entry_publicKey.
  destruct (xdr.credentials entry) as [|a] eqn:Hcredentials; cbn.
  { apply Hcontinue. unfold entry_visited. by rewrite Hcredentials. }
  destruct (xdr.address a) as [[key]|contract] eqn:Haddress; cbn;
    [|by apply Habort].
  destruct (bool_decide (Some (encodeEd25519PublicKey key) = publicKey))
    eqn:Hkey; cbn.
  - destruct expiration as [ledger|e]; [|by apply Habort].
    destruct (authorizeEntry entry signAuthEntry ledger passphrase)
      as [entry'|e] eqn:Hauthorize; [|by apply Habort].
    apply Hcontinue. unfold entry_visited. rewrite Hcredentials.
    exists key. split; [done|]. rewrite Hkey. eauto.
  - apply Hcontinue. unfold entry_visited. rewrite Hcredentials.
    exists key. split; [done|]. by rewrite Hkey.
Qed.

(** What a run of [signAuthEntries] leaves behind: either an exception of
    one of its guards and the object as it was, or the entries of the first
    operation visited in order up to the end or to the first failure. *)
Lemma signAuthEntries_run this expiration_arg signAuthEntry_arg publicKey_arg
    o this' :
  signAuthEntries expiration_arg signAuthEntry_arg publicKey_arg this
  = (o, this') →
  (this' = this ∧ ∃ e, o = Throws e)
  ∨ ∃ built0 auth signAuthEntry visited visited' rest,
      AssembledTransaction.built this = Some built0
      ∧ first_auth built0 = Some auth
      ∧ effective_signAuthEntry this signAuthEntry_arg = Some signAuthEntry
      ∧ auth = visited ++ rest
      ∧ Forall2
          (visits (effective_expiration net this expiration_arg)
             signAuthEntry (effective_publicKey this publicKey_arg)
             (Options.networkPassphrase (AssembledTransaction.options this)))
          visited visited'
      ∧ match o with Returns _ => rest = [] | Throws _ => rest ≠ [] end
      ∧ this'
        = AssembledTransaction.set_built
            (Some (AssembledTransaction.with_auth (visited' ++ rest) built0))
            this.
Proof.
  unfold AssembledTransaction.signAuthEntries, mbind_method, mget, mthrow,
    mlift, massign.
  fold (effective_expiration net this expiration_arg).
  fold (effective_signAuthEntry this signAuthEntry_arg).
  fold (effective_publicKey this publicKey_arg).
  destruct (AssembledTransaction.built this) as [built0|] eqn:Hbuilt.
  2: { intros [= <- <-]. left. eauto. }
  destruct (AssembledTransaction.needsNonInvokerSigningBy _ _ _ _)
    as [needs|e].
  2: { intros [= <- <-]. left. eauto. }
  destruct (negb (truthy_array needs)).
  { intros [= <- <-]. left. eauto. }
  destruct (indexOf_is_minus_one _ _).
  { intros [= <- <-]. left. eauto. }
  destruct (effective_signAuthEntry this signAuthEntry_arg)
    as [signAuthEntry|] eqn:Hsigner.
  2: { intros [= <- <-]. left. eauto. }
  destruct (Tx_operations built0) as [ops|] eqn:Hops.
  2: { intros [= <- <-]. left. eauto. }
  destruct ops as [|op ops]; cbn.
  { intros [= <- <-]. left. eauto. }
  destruct (signAuthEntries_loop _ _ _ _ _ _) as [outcome auth'] eqn:Hloop.
  destruct (signAuthEntries_loop_visits _ _ _ _ _ _ _ _ Hloop)
    as (visited & visited' & rest & Hauth & -> & Hall & Ho).
  intros [= <- <-]. right.
  exists built0, (Operation_auth op ?? []), signAuthEntry, visited, visited', rest.
  unfold first_auth. rewrite Hops. done.
Qed.



End signAuthEntries_more.

Section send_more.
Context {T : Type}.
Context {envelope_codec : XdrCodec TransactionEnvelope}.
Variable encodeEd25519PublicKey : Buffer → string.
Variable JSON_stringify : ∀ A : Type, A → string.
Variable Sent : Type.
Variable SentTransaction_init : Options.t T → Tx → Outcome Sent.

Abbreviation signAndSend :=
  (AssembledTransaction.signAndSend encodeEd25519PublicKey JSON_stringify
     Sent SentTransaction_init).

Implicit Types this : AssembledTransaction.t T.

(** A [sign] that returns has assigned [signed], and the options are the
    ones the object had. *)
Lemma sign_returns_signed this now force signTransaction_arg this' :
  AssembledTransaction.sign encodeEd25519PublicKey JSON_stringify now force
    signTransaction_arg this = (Returns tt, this') →
  (∃ signed0, AssembledTransaction.signed this' = Some signed0)
  ∧ AssembledTransaction.options this' = AssembledTransaction.options this.
Proof.
  intros Hsign.
  unfold AssembledTransaction.sign, mbind_method, mget, mthrow, mlift, massign
    in Hsign.
  destruct (AssembledTransaction.built this) as [built0|] eqn:Hbuilt;
    [|discriminate].
  destruct ((if force ?? false then mreturn false
             else AssembledTransaction.isReadCall JSON_stringify) this)
    as [[readCall|e0] thisr] eqn:Hread; [|discriminate].
  destruct (read_check_frame _ _ _ _ _ Hread) as (Hb & Ho & _).
  destruct readCall; [discriminate|].
  destruct (match signTransaction_arg with Some f => Some f | None => _ end);
    [|discriminate].
  destruct (AssembledTransaction.needsNonInvokerSigningBy _ _ _ thisr)
    as [needs|]; [|discriminate].
  destruct (negb (length needs =? 0)%nat); [discriminate|].
  rewrite Hb, Hbuilt in Hsign.
  destruct (AssembledTransaction.simulationData JSON_stringify thisr)
    as [[sd|] this2] eqn:Hsd in Hsign; [|discriminate].
  destruct (simulationData_built _ _ _ _ Hsd) as (_ & Ho2 & _).
  repeat (case_match; try discriminate).
  all: injection Hsign as <-; cbn; split; [eauto|congruence].
Qed.

(** X18.  A transaction that is signed already is sent as it is: whatever
    [force] and [signTransaction] are given, [signAndSend] does not run the
    guards of [sign], asks no signer and leaves the envelope and its time
    bounds alone. *)
Theorem signAndSend_keeps_signature this now force signTransaction_arg signed0 :
  AssembledTransaction.signed this = Some signed0 →
  signAndSend now force signTransaction_arg this
  = (SentTransaction_init (AssembledTransaction.options this) signed0, this).
Proof.
  intros Hsigned.
  unfold AssembledTransaction.signAndSend, AssembledTransaction.send,
    mbind_method, mget, mlift, mreturn.
  by rewrite !Hsigned.
Qed.

Lemma sign_read_call this now force signTransaction_arg built0 thisr :
  AssembledTransaction.built this = Some built0 →
  force ?? false = false →
  AssembledTransaction.isReadCall JSON_stringify this = (Returns true, thisr) →
  AssembledTransaction.sign encodeEd25519PublicKey JSON_stringify now force
    signTransaction_arg this
  = (throw NoSignatureNeeded
       "This is a read call. It requires no signature or sending. Use `force: true` to sign and send anyway.",
     thisr).
Proof.
  intros Hbuilt Hforce Hread.
  unfold AssembledTransaction.sign, mbind_method, mget, mthrow.
  by rewrite Hbuilt, Hforce, Hread.
Qed.

(** X19.  A read call is not sent by accident: on an unsigned, built
    transaction that [isReadCall] reports as a read call, [signAndSend]
    with [force] false or left out throws [NoSignatureNeeded]; no signer is
    asked and nothing reaches [SentTransaction.init]. *)
Theorem signAndSend_read_call this now force signTransaction_arg built0 thisr :
  AssembledTransaction.signed this = None →
  AssembledTransaction.built this = Some built0 →
  force ?? false = false →
  AssembledTransaction.isReadCall JSON_stringify this = (Returns true, thisr) →
  ∃ msg,
    signAndSend now force signTransaction_arg this
    = (throw NoSignatureNeeded msg, thisr)
    ∧ AssembledTransaction.signed thisr = None.
Proof.
  intros Hsigned Hbuilt Hforce Hread.
  destruct (isReadCall_frame _ _ _ _ Hread) as (_ & _ & Hs).
  eexists. split; [|congruence].
  unfold AssembledTransaction.signAndSend, mbind_method, mget.
  rewrite Hsigned, Hforce.
  by rewrite (sign_read_call _ _ (Some false) _ _ _ Hbuilt eq_refl Hread).
Qed.

End send_more.

Section sending_more.
Context {T : Type}.
Context {envelope_codec : XdrCodec TransactionEnvelope}.
Context {data_codec : XdrCodec xdr.SorobanTransactionData}.
Variable net : Network.
Variable encodeEd25519PublicKey : Buffer → string.
Variable JSON_stringify : ∀ A : Type, A → string.

Abbreviation send := (AssembledTransaction_send net JSON_stringify).
Abbreviation signAndSend :=
  (AssembledTransaction_signAndSend net encodeEd25519PublicKey JSON_stringify).
Abbreviation sign :=
  (AssembledTransaction.sign encodeEd25519PublicKey JSON_stringify).

Implicit Types this : AssembledTransaction.t T.

(** On the declared arguments the constructor and [init] taken on any
    values are the declared ones. *)
Lemma new_declared (signTransaction0 : option SignTransaction)
    (assembled0 : AssembledTransaction.t T) :
  SentTransaction.new (SentTransaction.signer_value signTransaction0)
    (SentTransaction.assembled_value assembled0)
  = SentTransaction.constructor signTransaction0 assembled0.
Proof. by destruct signTransaction0. Qed.

Lemma init_call_declared now start (signTransaction0 : option SignTransaction)
    (assembled0 : AssembledTransaction.t T) updateTimeout :
  SentTransaction.init_call net JSON_stringify now start
    (SentTransaction.signer_value signTransaction0)
    (SentTransaction.assembled_value assembled0) updateTimeout
  = SentTransaction.init net JSON_stringify now start signTransaction0
      assembled0 updateTimeout.
Proof.
  unfold SentTransaction.init_call, SentTransaction.init.
  by rewrite new_declared.
Qed.

(** The defaults of [signAndSend] are the defaults of [sign]. *)
Lemma sign_defaults this now force signTransaction_arg :
  AssembledTransaction.sign encodeEd25519PublicKey JSON_stringify now
    (Some (force ?? false))
    (match signTransaction_arg with
     | Some f => Some f
     | None => Options.signTransaction (AssembledTransaction.options this)
     end) this
  = AssembledTransaction.sign encodeEd25519PublicKey JSON_stringify now force
      signTransaction_arg this.
Proof.
  unfold AssembledTransaction.sign, mbind_method, mget.
  destruct force as [[]|], signTransaction_arg as [f|];
    try reflexivity;
    by destruct (Options.signTransaction (AssembledTransaction.options this)).
Qed.

(** X17.  As the two classes are written, [send] of [AssembledTransaction]
    cannot succeed.  It calls [SentTransaction.init(this.options,
    this.signed)], whose parameters are [(signTransaction, assembled,
    updateTimeout)]: the constructor takes the options object for a signer
    and reads [this.assembled.options.rpcUrl] on the signed transaction,
    which has no [options], so it throws a [TypeError].  Hence [send]
    throws on every transaction, [signAndSend] never returns a
    [SentTransaction], and after a [sign] that succeeded the object is
    signed while nothing has been submitted. *)
Theorem send_never_returns this signing now start force signTransaction_arg :
  (∃ e, send now start this = (Throws e, this))
  ∧ (∃ e this',
       signAndSend signing now start force signTransaction_arg this
       = (Throws e, this'))
  ∧ (∀ signed0,
       AssembledTransaction.signed this = Some signed0 →
       signAndSend signing now start force signTransaction_arg this
       = (throw TypeError
            "Cannot read properties of undefined (reading 'rpcUrl')", this))
  ∧ (∀ this1,
       AssembledTransaction.signed this = None →
       sign signing force signTransaction_arg this = (Returns tt, this1) →
       signAndSend signing now start force signTransaction_arg this
       = (throw TypeError
            "Cannot read properties of undefined (reading 'rpcUrl')", this1)
       ∧ is_Some (AssembledTransaction.signed this1)).
Proof.
  assert (Hsend : ∀ this0,
            send now start this0
            = (match AssembledTransaction.signed this0 with
               | Some _ =>
                   throw TypeError
                     "Cannot read properties of undefined (reading 'rpcUrl')"
               | None =>
                   throw Error
                     "The transaction has not yet been signed. Run `sign` first, or use `signAndSend` instead."
               end, this0)).
  { intros this0.
    unfold AssembledTransaction_send, AssembledTransaction.send, mbind_method,
      mget, mthrow, mlift.
    by destruct (AssembledTransaction.signed this0). }
  assert (Hsigned : ∀ signed0,
            AssembledTransaction.signed this = Some signed0 →
            signAndSend signing now start force signTransaction_arg this
            = (throw TypeError
                 "Cannot read properties of undefined (reading 'rpcUrl')",
               this)).
  { intros signed0 Hs. pose proof (Hsend this) as Hthis.
    rewrite Hs in Hthis.
    unfold AssembledTransaction_signAndSend, AssembledTransaction.signAndSend,
      mbind_method, mget, mreturn.
    rewrite Hs. exact Hthis. }
  assert (Hunsigned : ∀ o this1,
            AssembledTransaction.signed this = None →
            sign signing force signTransaction_arg this = (o, this1) →
            signAndSend signing now start force signTransaction_arg this
            = match o with
              | Returns _ => send now start this1
              | Throws e => (Throws e, this1)
              end).
  { intros o this1 Hs Hsign.
    unfold AssembledTransaction_signAndSend, AssembledTransaction.signAndSend,
      mbind_method, mget.
    rewrite Hs, sign_defaults, Hsign. reflexivity. }
  split; [|split; [|split]].
  - rewrite Hsend. destruct (AssembledTransaction.signed this); eauto.
  - destruct (AssembledTransaction.signed this) as [signed0|] eqn:Hs.
    { rewrite (Hsigned signed0) by done. eauto. }
    destruct (sign signing force signTransaction_arg this) as [o this1]
      eqn:Hsign.
    rewrite (Hunsigned o this1) by done.
    destruct o as [[]|e]; [|eauto].
    rewrite Hsend. destruct (AssembledTransaction.signed this1); eauto.
  - exact Hsigned.
  - intros this1 Hs Hsign. rewrite (Hunsigned _ this1 Hs Hsign).
    destruct (sign_returns_signed _ _ _ _ _ _ _ Hsign) as ((signed0 & Hs1) & _).
    rewrite Hsend, Hs1. eauto.
Qed.

End sending_more.

Section SentTransaction_more.
Context {T : Type}.
Context {envelope_codec : XdrCodec TransactionEnvelope}.
Context {data_codec : XdrCodec xdr.SorobanTransactionData}.
Variable net : Network.
Variable JSON_stringify : ∀ A : Type, A → string.

Abbreviation send_submit := (SentTransaction.send_submit net JSON_stringify).
Abbreviation send_poll := (SentTransaction.send_poll net JSON_stringify).
Abbreviation send := (SentTransaction.send net JSON_stringify).
Abbreviation init := (SentTransaction.init net JSON_stringify).

Implicit Types this : SentTransaction.t T.

(** Submitting keeps the signer and the options of the transaction. *)
Lemma send_submit_frame this now updateTimeout timeoutInSeconds o this1 :
  send_submit now updateTimeout timeoutInSeconds this = (o, this1) →
  SentTransaction.signTransaction this1 = SentTransaction.signTransaction this
  ∧ AssembledTransaction.options (SentTransaction.assembled this1)
    = AssembledTransaction.options (SentTransaction.assembled this)
  ∧ (updateTimeout = false →
     SentTransaction.assembled this1 = SentTransaction.assembled this)
  ∧ SentTransaction.getTransactionResponseAll this1
    = SentTransaction.getTransactionResponseAll this
  ∧ SentTransaction.getTransactionResponse this1
    = SentTransaction.getTransactionResponse this.
Proof.
  unfold SentTransaction.send_submit, SentTransaction.on_assembled,
    mbind_method, mget, mlift, massign, mthrow, mreturn.
  intros Hsubmit.
  destruct updateTimeout.
  - destruct (AssembledTransaction.built (SentTransaction.assembled this));
      [|by injection Hsubmit as _ <-].
    destruct (AssembledTransaction.simulationData JSON_stringify
                (SentTransaction.assembled this)) as [[sd|e] assembled1]
      eqn:Hsd in Hsubmit;
      destruct (simulationData_built _ _ _ _ Hsd) as (_ & Ho & _).
    2: { injection Hsubmit as _ <-. done. }
    repeat (case_match; try discriminate).
    all: repeat match goal with
         | H : (_, _) = (_, _) |- _ => injection H as ? ?
         end; subst; cbn in *; done.
  - repeat (case_match; try discriminate).
    all: repeat match goal with
         | H : (_, _) = (_, _) |- _ => injection H as ? ?
         end; subst; cbn in *; done.
Qed.

(** Polling touches the two poll fields only; it returns when the last
    answer is there and is not [NOT_FOUND]. *)
Lemma send_poll_spec this start timeoutInSeconds hash o this' :
  send_poll start timeoutInSeconds hash this = (o, this') →
  SentTransaction.signTransaction this' = SentTransaction.signTransaction this
  ∧ SentTransaction.assembled this' = SentTransaction.assembled this
  ∧ SentTransaction.signed this' = SentTransaction.signed this
  ∧ SentTransaction.sendTransactionResponse this'
    = SentTransaction.sendTransactionResponse this
  ∧ (o = Returns tt →
     ∃ all final,
       SentTransaction.getTransactionResponseAll this' = Some all
       ∧ last all = Some final
       ∧ SentTransaction.getTransactionResponse this' = Some final
       ∧ Api.status final ≠ Api.NOT_FOUND).
Proof.
  unfold SentTransaction.send_poll, mbind_method, mget, mlift, massign,
    mthrow, mreturn, SentTransaction.undefined_property.
  destruct (withExponentialBackoff _ _ _ _) as [all|e].
  2: { intros [= <- <-]. done. }
  destruct (last all) as [final|] eqn:Hlast.
  2: { intros [= <- <-]. done. }
  destruct (bool_decide (Api.status final = Api.NOT_FOUND)) eqn:Hstatus.
  { intros [= <- <-]. done. }
  intros [= <- <-]. repeat split; try done.
  intros _. exists all, final. repeat split; try done.
  by apply bool_decide_eq_false in Hstatus.
Qed.

Lemma send_returns this now start updateTimeout this' :
  send now start updateTimeout this = (Returns tt, this') →
  ∃ response all final,
    SentTransaction.sendTransactionResponse this' = Some response
    ∧ Api.sendStatus response = Api.PENDING
    ∧ SentTransaction.getTransactionResponseAll this' = Some all
    ∧ last all = Some final
    ∧ SentTransaction.getTransactionResponse this' = Some final
    ∧ Api.status final ≠ Api.NOT_FOUND
    ∧ SentTransaction.signTransaction this'
      = SentTransaction.signTransaction this
    ∧ AssembledTransaction.options (SentTransaction.assembled this')
      = AssembledTransaction.options (SentTransaction.assembled this).
Proof.
  unfold SentTransaction.send, mbind_method, mget.
  destruct (send_submit _ _ _ this) as [[hash|e] this1] eqn:Hsubmit;
    [|discriminate].
  intros Hpoll.
  destruct (send_submit_pending _ _ _ _ _ _ _ _ Hsubmit)
    as (response & Hresponse & Hpending & _).
  destruct (send_submit_frame _ _ _ _ _ _ Hsubmit) as (Hsigner & Ho & _).
  destruct (send_poll_spec _ _ _ _ _ _ Hpoll)
    as (Hsigner' & Hassembled & _ & Hsent & Hfinal).
  destruct (Hfinal eq_refl) as (all & final & ? & ? & ? & ?).
  exists response, all, final.
  rewrite Hsent, Hsigner', Hassembled. done.
Qed.

(** X20.  A [SentTransaction] that [init] returns has been through a whole
    submission: it was given a signer, the network acknowledged the
    envelope as [PENDING], and the last poll recorded is the last element
    of [getTransactionResponseAll] and is not [NOT_FOUND]. *)
Theorem init_returns_settled now start signTransaction0
    (assembled0 : AssembledTransaction.t T) updateTimeout sent :
  init now start signTransaction0 assembled0 updateTimeout = Returns sent →
  signTransaction0 ≠ None
  ∧ SentTransaction.signTransaction sent = signTransaction0
  ∧ ∃ response all final,
      SentTransaction.sendTransactionResponse sent = Some response
      ∧ Api.sendStatus response = Api.PENDING
      ∧ SentTransaction.getTransactionResponseAll sent = Some all
      ∧ last all = Some final
      ∧ SentTransaction.getTransactionResponse sent = Some final
      ∧ Api.status final ≠ Api.NOT_FOUND.
Proof.
  unfold SentTransaction.init, SentTransaction.constructor.
  destruct signTransaction0 as [f|]; [cbn [obind]|discriminate].
  match goal with
  | |- context [SentTransaction.send ?n ?j ?a ?b ?c ?d] =>
      destruct (SentTransaction.send n j a b c d) as [[[]|e] this'] eqn:Hsend;
        [|discriminate]
  end.
  intros [= <-].
  destruct (send_returns _ _ _ _ _ Hsend)
    as (response & all & final & ? & ? & ? & ? & ? & ? & Hsigner & _).
  split; [done|]. split; [by rewrite Hsigner|].
  by exists response, all, final.
Qed.

(** X21.  Once [send] has returned, [result] reads the last poll only: it
    is the parsed return value of that response, parsed with the parser of
    the options, or the error "Transaction failed!" when the response has
    none; it is never [SendFailed] or [SendResultOnly]. *)
Theorem result_after_send this now start updateTimeout this' :
  send now start updateTimeout this = (Returns tt, this') →
  ∃ final,
    SentTransaction.getTransactionResponse this' = Some final
    ∧ SentTransaction.result JSON_stringify this'
      = match Api.returnValue final with
        | Some returnValue =>
            Options.parseResultXdr
              (AssembledTransaction.options (SentTransaction.assembled this))
              returnValue
        | None => throw Error "Transaction failed! Cannot parse result."
        end.
Proof.
  intros Hsend.
  destruct (send_returns _ _ _ _ _ Hsend)
    as (response & all & final & _ & _ & _ & _ & Hfinal & _ & _ & Ho).
  exists final. split; [done|].
  unfold SentTransaction.result. by rewrite Hfinal, Ho.
Qed.

(** X22.  With [updateTimeout] false, [send] works on the envelope as it
    is: whatever the outcome, the assembled transaction is left untouched. *)
Theorem send_without_update_keeps_assembled this now start o this' :
  send now start (Some false) this = (o, this') →
  SentTransaction.assembled this' = SentTransaction.assembled this.
Proof.
  unfold SentTransaction.send, mbind_method, mget. cbn [nullish default].
  destruct (send_submit _ _ _ this) as [[hash|e] this1] eqn:Hsubmit.
  - intros Hpoll.
    destruct (send_submit_frame _ _ _ _ _ _ Hsubmit) as (_ & _ & Hassembled & _).
    destruct (send_poll_spec _ _ _ _ _ _ Hpoll) as (_ & -> & _).
    by apply Hassembled.
  - intros [= <- <-].
    destruct (send_submit_frame _ _ _ _ _ _ Hsubmit) as (_ & _ & Hassembled & _).
    by apply Hassembled.
Qed.

(** X23.  The network is polled only for a submission it acknowledged as
    [PENDING].  When the response [send] leaves on the object has another
    status, [send] has thrown and made no poll; on an object that had no
    poll recorded, [result] then throws [SendFailed] with the error result
    of the response, or [SendResultOnly] when the response has none. *)
Theorem send_rejected_submission this now start updateTimeout o this' response :
  send now start updateTimeout this = (o, this') →
  SentTransaction.sendTransactionResponse this' = Some response →
  Api.sendStatus response ≠ Api.PENDING →
  SentTransaction.getTransactionResponse this = None →
  (∃ e, o = Throws e)
  ∧ SentTransaction.getTransactionResponseAll this'
    = SentTransaction.getTransactionResponseAll this
  ∧ SentTransaction.getTransactionResponse this' = None
  ∧ SentTransaction.result JSON_stringify this'
    = match Api.errorResult response with
      | Some errorResult =>
          throw SendFailed
            ("Transaction simulation looked correct, but attempting to send the transaction failed. Check `simulation` and `sendTransactionResponseAll` to troubleshoot. Decoded `sendTransactionResponse.errorResultXdr`: "
             ++ errorResult)
      | None =>
          throw SendResultOnly
            "Transaction was sent to the network, but not yet awaited. No result to show. Await transaction completion with `getTransaction(sendTransactionResponse.hash)`"
      end.
Proof.
  unfold SentTransaction.send, mbind_method, mget.
  intros Hsend Hresponse Hstatus Hnone.
  destruct (send_submit _ _ _ this) as [[hash|e] this1] eqn:Hsubmit.
  - exfalso.
    destruct (send_submit_pending _ _ _ _ _ _ _ _ Hsubmit)
      as (response1 & Hresponse1 & Hpending & _).
    destruct (send_poll_spec _ _ _ _ _ _ Hsend) as (_ & _ & _ & Hsent & _).
    rewrite Hsent, Hresponse1 in Hresponse. congruence.
  - injection Hsend as <- <-.
    destruct (send_submit_frame _ _ _ _ _ _ Hsubmit)
      as (_ & _ & _ & Hall & Hlast).
    split; [eauto|]. split; [done|]. split; [congruence|].
    unfold SentTransaction.result. by rewrite Hlast, Hnone, Hresponse.
Qed.

End SentTransaction_more.

Section ContractClient_more.
Variable spec : ContractSpec.
Variable options : gmap string JsValue.

Lemma errorTypes_fold_lookup (cases : list ScSpecUdtErrorEnumCaseV0)
    (acc : gmap N ErrorMessage) (code : N) :
  fold_left
    (fun acc curr => <[value curr := {| message := doc curr |}]> acc)
    cases acc !! code
  = match last (List.filter (fun c => bool_decide (value c = code)) cases) with
    | Some c => Some {| message := doc c |}
    | None => acc !! code
    end.
Proof.
  revert acc. induction cases as [|c cases IH]; intros acc; [done|].
  cbn [fold_left List.filter]. rewrite IH.
  destruct (bool_decide (value c = code)) eqn:Hc.
  - apply bool_decide_eq_true in Hc.
    destruct (List.filter _ cases) as [|c' cs'] eqn:Hfilter; cbn.
    + by rewrite <- Hc, lookup_insert_eq.
    + rewrite last_cons. by destruct (last cs').
  - apply bool_decide_eq_false in Hc.
    destruct (last _); [done|]. by rewrite lookup_insert_ne.
Qed.

(** X24.  The error table a client hands to every call has an entry for
    each code the spec declares an error case for, and for no other; the
    message is the doc string of the last case declared with that code. *)
Theorem errorTypes_of_lookup (code : N) :
  errorTypes_of spec !! code
  = (fun c => {| message := doc c |}) <$> last (cases_of spec code).
Proof.
  unfold errorTypes_of, cases_of. rewrite errorTypes_fold_lookup.
  by destruct (last _).
Qed.

(** X25.  In the class of [contract/sent_transaction.ts], the object a
    method passes to [AssembledTransaction.build] holds, for every key but
    the three it computes itself, the value of the per-invocation options
    where they have the key, else the value of the client options, else
    the method name under [method] and nothing under any other key. *)
Theorem client_option_precedence method args methodOptions obj k :
  ContractClient.assembleTransaction spec options method args methodOptions
  = Returns obj →
  k ≠ "errorTypes" → k ≠ "parseResultXdr" → k ≠ "args" →
  obj !! k
  = match methodOptions ≫= (.!! k) with
    | Some v => Some v
    | None =>
        match options !! k with
        | Some v => Some v
        | None => if bool_decide (k = "method") then Some (JsString method)
                  else None
        end
    end.
Proof.
  unfold ContractClient.assembleTransaction, spread.
  intros Hobj Hne1 Hne2 Hne3.
  assert (Hbase : ∀ args' : JsValue,
            (<["args" := args']> {["method" := JsString method]}
               : gmap string JsValue) !! k
            = if bool_decide (k = "method") then Some (JsString method)
              else None).
  { intros args'. rewrite lookup_insert_ne by done.
    case_bool_decide as Hk; [subst k; by rewrite lookup_singleton_eq|].
    by rewrite lookup_singleton_ne. }
  destruct args as [a|]; cbn in Hobj;
    [destruct (funcArgsToScVals _ _ _); cbn in Hobj; [|discriminate]|];
    injection Hobj as <-;
    rewrite !lookup_insert_ne by done;
    (destruct methodOptions as [mo|]; cbn;
     rewrite !lookup_union, Hbase;
     [destruct (mo !! k)|]; destruct (options !! k);
     by destruct (bool_decide (k = "method"))).
Qed.

Lemma forEach_binds_names (fns : list ScSpecFunctionV0)
    (methods : gmap string ClientMethod) :
  (∀ g, g ∈ fns → ∃ fn, getFunc spec (name g) = Returns fn) →
  ∃ methods',
    ContractClient.forEach spec options fns methods = Returns methods'
    ∧ (∀ k, k ∉ name <$> fns → methods' !! k = methods !! k)
    ∧ (∀ g fn, g ∈ fns → getFunc spec (name g) = Returns fn →
               methods' !! name g
               = Some (bound_method spec options (name g) fn)).
Proof.
  revert methods. induction fns as [|g fns IH]; intros methods Hget.
  - exists methods. split; [done|]. split; [done|].
    intros g fn Hg. by apply elem_of_nil in Hg.
  - destruct (Hget g) as (f & Hf); [by left|].
    cbn [ContractClient.forEach]. unfold ContractClient.bind_method at 1.
    rewrite Hf. cbn [obind].
    edestruct IH as (methods' & -> & Hother & Hbound).
    { intros g' Hg'. apply Hget. by right. }
    exists methods'. split; [done|]. split.
    + intros k Hk. rewrite fmap_cons in Hk.
      apply not_elem_of_cons in Hk as [Hne Hk].
      rewrite Hother by done. unfold attach. by rewrite lookup_insert_ne.
    + intros h fn [->|Hh]%elem_of_cons Hfn; [|by apply Hbound].
      destruct (decide (name g ∈ name <$> fns)) as [Hin|Hout].
      * apply list_elem_of_fmap in Hin as (h' & Hname & Hh').
        rewrite Hname in Hfn |- *. by apply Hbound.
      * rewrite Hother by done. unfold attach. rewrite lookup_insert_eq.
        assert (fn = f) as -> by congruence.
        unfold bound_method. by destruct (inputs f).
Qed.

(** X26.  In the class of [contract/sent_transaction.ts], when
    [spec.getFunc] answers for the name of every function of the spec, the
    constructor returns, and the methods it has bound are under the names
    of those functions and under no other name; the method of a name takes
    its parameters from what [getFunc] answered for that name (one
    parameter when that entry has no input, two otherwise), also where
    several functions share the name. *)
Theorem client_constructor_binds :
  (∀ xdrFn, xdrFn ∈ funcs spec →
            ∃ fn, getFunc spec (name xdrFn) = Returns fn) →
  ∃ methods,
    ContractClient.constructor spec options = Returns methods
    ∧ (∀ k, k ∉ name <$> funcs spec → methods !! k = None)
    ∧ (∀ xdrFn fn,
         xdrFn ∈ funcs spec → getFunc spec (name xdrFn) = Returns fn →
         methods !! name xdrFn
         = Some (bound_method spec options (name xdrFn) fn)).
Proof.
  intros Hget. unfold ContractClient.constructor.
  destruct (forEach_binds_names (funcs spec) ∅ Hget)
    as (methods & Hrun & Hother & Hbound).
  exists methods. split; [done|]. split; [|done].
  intros k Hk. by rewrite Hother.
Qed.

End ContractClient_more.

(** ** The properties on the sample data *)

Section samples.
Local Existing Instance sample_envelope_codec.
Local Existing Instance sample_scval_codec.
Local Existing Instance sample_auth_codec.
Local Existing Instance sample_data_codec.

Lemma fromJSON_toJSON_roundtrip_witness :
  ∃ this1 json txn built' sd' txn',
    AssembledTransaction.toJSON sample_JSON_stringify
      (simulated parse_bool swap_auth [] (xdr.scvBool true))
    = (Returns json, this1)
    ∧ AssembledTransaction.fromJSON (sample_options bool parse_bool) json
      = Returns txn
    ∧ AssembledTransaction.built txn = Some built'
    ∧ Tx_toXDR built' = Tx_toXDR (sample_tx swap_auth)
    ∧ AssembledTransaction.simulationData sample_JSON_stringify txn
      = (Returns sd', txn')
    ∧ toXDR (Api.retval (SimulationData.result sd')) = toXDR (xdr.scvBool true)
    ∧ toXDR <$> Api.auth (SimulationData.result sd') = toXDR <$> swap_auth
    ∧ toXDR (SimulationData.transactionData sd') = toXDR (sample_data []).
Proof.
  eexists.
  eapply (fromJSON_toJSON_roundtrip sample_JSON_stringify
            (simulated parse_bool swap_auth [] (xdr.scvBool true))
            (sample_options bool parse_bool) (sample_tx swap_auth)
            {| SimulationData.result :=
                 {| Api.auth := swap_auth; Api.retval := xdr.scvBool true |};
               SimulationData.transactionData := sample_data [] |}).
  - reflexivity.
  - reflexivity.
  - reflexivity.
  - repeat constructor.
  - reflexivity.
  - reflexivity.
Defined.

Lemma needsNonInvokerSigningBy_enumerates_witness :
  AssembledTransaction.needsNonInvokerSigningBy sample_encodeEd25519PublicKey
    sample_JSON_stringify false swap_simulated
  = Returns ["GALICE"; "GBOB"]
  ∧ AssembledTransaction.needsNonInvokerSigningBy
      sample_encodeEd25519PublicKey sample_JSON_stringify false fresh
    = throw Error "Transaction has not yet been simulated".
Proof.
  split;
    [|exact (proj1 (needsNonInvokerSigningBy_enumerates
                      sample_encodeEd25519PublicKey sample_JSON_stringify
                      fresh) eq_refl false)].
  destruct (proj2 (needsNonInvokerSigningBy_enumerates
                     sample_encodeEd25519PublicKey sample_JSON_stringify
                     swap_simulated)
              (sample_tx swap_auth) (sample_body swap_auth)
              (hostFunctionTypeInvokeContract "CSWAP" "swap"
                 [xdr.scvU32 10; xdr.scvU32 5])
              swap_auth [] [alice; bob; alice]
              eq_refl eq_refl eq_refl)
    as (signers & Hcall & Hsigners & _).
  - eapply co_signers_address; [reflexivity..|].
    eapply co_signers_source; [reflexivity|].
    eapply co_signers_address; [reflexivity..|].
    eapply co_signers_address; [reflexivity..|].
    apply co_signers_nil.
  - rewrite Hcall, Hsigners. reflexivity.
Defined.

Lemma read_call_identification_witness :
  AssembledTransaction.isReadCall sample_JSON_stringify read_call
  = (Returns true,
     snd (AssembledTransaction.simulationData sample_JSON_stringify read_call))
  ∧ (∃ msg,
       AssembledTransaction.sign sample_encodeEd25519PublicKey
         sample_JSON_stringify 1000 None None read_call
       = (throw NoSignatureNeeded msg,
          snd (AssembledTransaction.simulationData sample_JSON_stringify
                 read_call)))
  ∧ AssembledTransaction.result sample_JSON_stringify read_call
    = (Returns (Value true),
       snd (AssembledTransaction.simulationData sample_JSON_stringify read_call))
  ∧ Options.signTransaction (AssembledTransaction.options read_call) = None.
Proof.
  destruct (read_call_identification sample_encodeEd25519PublicKey
              sample_JSON_stringify read_call _ _ eq_refl)
    as [(b & HisRead & Hb) [Hsign Hresult]]; [reflexivity..|].
  split; [|split; [|split]].
  - rewrite HisRead. f_equal. f_equal. by apply Hb.
  - apply (Hsign 1000 None None (sample_tx [])); [reflexivity|by left].
  - apply Hresult. reflexivity.
  - reflexivity.
Defined.

Lemma signAuthEntries_zero_candidates_witness :
  AssembledTransaction.needsNonInvokerSigningBy sample_encodeEd25519PublicKey
    sample_JSON_stringify false ready_to_sign = Returns []
  ∧ ∃ msg,
      AssembledTransaction.signAuthEntries sample_net
        sample_encodeEd25519PublicKey sample_authorizeEntry
        sample_JSON_stringify (Some (Returns 1000))
        (Some sample_signAuthEntry) (Some "GBOB") ready_to_sign
      = (throw NoSignatureNeeded msg, ready_to_sign).
Proof.
  split; [reflexivity|].
  apply (signAuthEntries_zero_candidates sample_net
           sample_encodeEd25519PublicKey sample_authorizeEntry
           sample_JSON_stringify ready_to_sign
           (sample_tx [source_entry; signed_entry bob]));
    reflexivity.
Defined.

Lemma sign_refreshes_envelope_witness :
  ∃ this' built1 body1,
    AssembledTransaction.sign sample_encodeEd25519PublicKey
      sample_JSON_stringify 2000 None (Some sample_wallet) ready_to_sign
    = (Returns tt, this')
    ∧ AssembledTransaction.built this' = Some built1
    ∧ envelope built1 = envelopeTypeTx body1
    ∧ fee body1 = 5100%N
    ∧ timeBounds body1 = Some {| minTime := 0; maxTime := 2020 |}
    ∧ timeBounds (sample_body [source_entry; signed_entry bob])
      = Some {| minTime := 0; maxTime := 1030 |}.
Proof.
  eexists.
  assert (Hsign :
    AssembledTransaction.sign sample_encodeEd25519PublicKey
      sample_JSON_stringify 2000 None (Some sample_wallet) ready_to_sign
    = (Returns tt, _)) by (vm_compute; reflexivity).
  destruct (sign_refreshes_envelope sample_encodeEd25519PublicKey
              sample_JSON_stringify ready_to_sign 2000 None
              (Some sample_wallet) _ Hsign)
    as (built0 & body0 & sd & this1 & signer & body1 & signature & signed0
        & Hbuilt0 & Henvelope & _ & _ & Hbuilt' & Hfee & _ & Hbounds & _).
  exists {| envelope := envelopeTypeTx body1;
            networkPassphrase := networkPassphrase built0 |}, body1.
  split; [exact Hsign|]. split; [exact Hbuilt'|]. split; [reflexivity|].
  injection Hbuilt0 as <-. injection Henvelope as <-.
  split; [exact Hfee|]. split; [exact Hbounds|reflexivity].
Defined.

Lemma result_error_mapping_witness :
  AssembledTransaction.result sample_JSON_stringify failed_call
  = (Returns (Err {| message := "insufficient" |}), failed_call)
  ∧ AssembledTransaction.result sample_JSON_stringify unparsed_call
    = (Throws unregistered_error,
       snd (AssembledTransaction.simulationData sample_JSON_stringify
              unparsed_call)).
Proof.
  split.
  - eapply (proj1 (result_error_mapping sample_JSON_stringify failed_call
                     _ failed_call (or_introl eq_refl))).
    split; [reflexivity|].
    exists {[ 3%N := {| message := "insufficient" |} ]}, "3".
    split; [reflexivity|]. split; reflexivity.
  - eapply (proj2 (result_error_mapping sample_JSON_stringify unparsed_call
                     unregistered_error _
                     (or_intror (ex_intro _ _ (conj eq_refl eq_refl))))).
    intros err (_ & errorTypes & group1 & Htypes & Hmatch & Hlookup).
    injection Htypes as <-. injection Hmatch as <-.
    vm_compute in Hlookup. discriminate.
Defined.

Lemma send_still_pending_witness :
  ∃ msg all last_response this',
    SentTransaction.send sample_net sample_JSON_stringify 2000 2001 None
      sample_sent
    = (throw TransactionStillPending msg, this')
    ∧ SentTransaction.getTransactionResponseAll this' = Some all
    ∧ SentTransaction.getTransactionResponse this' = Some last_response
    ∧ attempt_times 2001 1 = [2001; 2002]
    ∧ length all = 2
    ∧ last all = Some last_response
    ∧ Forall (fun response => Api.status response = Api.NOT_FOUND) all.
Proof.
  assert (Hsubmit :
    SentTransaction.send_submit sample_net sample_JSON_stringify 2000 true 1
      sample_sent
    = (Returns "abc123", _)) by (vm_compute; reflexivity).
  destruct (send_still_pending sample_net sample_JSON_stringify sample_sent
              2000 2001 None "abc123" _ Hsubmit)
    as (msg & all & last_response & this' & Hsend & Hall & Hlast & Htimes
        & _ & Hlast' & Hnot_found & _).
  { intros t _. eexists. split; reflexivity. }
  exists msg, all, last_response, this'.
  split; [exact Hsend|]. split; [exact Hall|]. split; [exact Hlast|].
  split; [reflexivity|].
  split; [symmetry; exact (Forall2_length _ _ _ Htimes)|].
  split; [exact Hlast'|exact Hnot_found].
Defined.

Lemma legacy_client_methods_take_args_witness :
  inputs {| name := "inc"; inputs := []; outputs := ["u32"] |} = []
  ∧ ∃ m,
      contract_client.ContractClient.constructor sample_spec
        sample_client_options !! "inc" = Some m
      ∧ parameters m = ["args"; "options"]
      ∧ call m = contract_client.ContractClient.method_body sample_spec
                   sample_client_options "inc".
Proof.
  split; [reflexivity|].
  apply (legacy_client_methods_take_args sample_spec sample_client_options
           {| name := "inc"; inputs := []; outputs := ["u32"] |}).
  apply list_elem_of_here.
Defined.


Lemma toJSON_not_yet_simulated_witness :
  ∃ tx,
    AssembledTransaction.build sample_net sample_assembleTransaction
      sample_new_Contract 1000
      (Options.set_simulate false (sample_options bool parse_bool))
    = Returns tx
    ∧ AssembledTransaction.toJSON sample_JSON_stringify tx
      = (throw NotYetSimulated "Transaction has not yet been simulated", tx).
Proof.
  eexists. split; [reflexivity|].
  apply toJSON_not_yet_simulated; reflexivity.
Defined.

(** The two classes on the same call: [inc] declares no input and is
    called with the method options as its only argument. *)
Example legacy_inc_takes_options_for_args :
  ∃ m obj,
    contract_client.ContractClient.constructor sample_spec
      sample_client_options !! "inc" = Some m
    ∧ call m (Some sample_method_options) None = Returns obj
    ∧ obj !! "fee" = Some (JsNumber 100)
    ∧ obj !! "simulate" = None.
Proof.
  eexists _, _. split.
  { apply (legacy_bind_lookup sample_spec sample_client_options
             (funcs sample_spec) ∅
             {| name := "inc"; inputs := []; outputs := ["u32"] |}).
    left. apply list_elem_of_here. }
  split; [reflexivity|]. split; reflexivity.
Qed.

Example client_inc_takes_options :
  ∃ methods m obj,
    ContractClient.constructor sample_spec sample_client_options
    = Returns methods
    ∧ methods !! "inc" = Some m
    ∧ parameters m = ["opts"]
    ∧ call m (Some sample_method_options) None = Returns obj
    ∧ obj !! "fee" = Some (JsNumber 500)
    ∧ obj !! "simulate" = Some (JsBoolean false).
Proof.
  destruct (client_binds_by_declaration sample_spec sample_client_options)
    as (methods & Hmethods & Hbound).
  { intros f Hf. cbn in Hf.
    apply elem_of_cons in Hf as [->|Hf]; [reflexivity|].
    apply list_elem_of_singleton in Hf as ->. reflexivity. }
  { cbn. repeat constructor; set_solver. }
  exists methods. eexists _, _. split; [exact Hmethods|].
  split.
  { apply (Hbound {| name := "inc"; inputs := []; outputs := ["u32"] |}).
    apply list_elem_of_here. }
  split; [reflexivity|]. split; [reflexivity|]. split; reflexivity.
Qed.

Example match_simulation_failure :
  match_contractErrorPattern
    (toString
       (ErrorObject Error
          ("Transaction simulation failed: " ++ dquote
           ++ "HostError: Error(Contract, #12)" ++ dquote)))
  = Some "12".
Proof. reflexivity. Qed.

Example match_needs_digits :
  match_contractErrorPattern "Error(Contract, #) Error(Contract, #x1)" = None.
Proof. reflexivity. Qed.

Example parseInt_leading_zero : parseInt "042" = 42%N.
Proof. reflexivity. Qed.

End samples.

(** ** The further properties on the sample data *)

Section more_samples.
Local Existing Instance sample_envelope_codec.
Local Existing Instance sample_scval_codec.
Local Existing Instance sample_auth_codec.
Local Existing Instance sample_data_codec.

Lemma simulationData_survives_simulate_witness :
  ∃ sd this1 o this2,
    AssembledTransaction.simulationData sample_JSON_stringify assembled_swap
    = (Returns sd, this1)
    ∧ AssembledTransaction.simulate sample_net sample_assembleTransaction this1
      = (o, this2)
    ∧ AssembledTransaction.simulation this2
      = Some (Api.SimulationError "HostError: Error(Contract, #3)")
    ∧ AssembledTransaction.simulationData sample_JSON_stringify this2
      = (Returns sd, this2).
Proof.
  eexists _, _, _, _.
  split; [vm_compute; reflexivity|]. split; [vm_compute; reflexivity|].
  split; [reflexivity|].
  eapply (simulationData_survives_simulate sample_net
            sample_assembleTransaction sample_JSON_stringify assembled_swap);
    vm_compute; reflexivity.
Defined.

Lemma simulate_failure_is_lazy_witness :
  ∃ this',
    AssembledTransaction.simulate sample_net sample_assembleTransaction
      unsimulated = (Returns tt, this')
    ∧ AssembledTransaction.built this'
      = Some (TransactionBuilder.build sample_raw)
    ∧ AssembledTransaction.simulationData sample_JSON_stringify this'
      = (throw Error
           ("Transaction simulation failed: " ++ dquote
            ++ "HostError: Error(Contract, #3)" ++ dquote),
         this').
Proof.
  apply (simulate_failure_is_lazy sample_net sample_assembleTransaction
           sample_JSON_stringify unsimulated sample_raw
           "HostError: Error(Contract, #3)");
    [reflexivity|reflexivity|left; reflexivity].
Defined.

Lemma simulate_rejected_leaves_built_witness :
  ∃ this',
    AssembledTransaction.simulate unreachable_net sample_assembleTransaction
      unsimulated = (throw Error "Network Error", this')
    ∧ AssembledTransaction.built this'
      = Some (TransactionBuilder.build sample_raw)
    ∧ AssembledTransaction.simulationData sample_JSON_stringify this'
      = (throw NotYetSimulated "Transaction has not yet been simulated", this').
Proof.
  apply (simulate_rejected_leaves_built unreachable_net
           sample_assembleTransaction sample_JSON_stringify unsimulated
           sample_raw (ErrorObject Error "Network Error"));
    reflexivity.
Defined.

Lemma build_simulates_by_default_witness :
  AssembledTransaction.build settling_net sample_assembleTransaction
    sample_new_Contract 1000 (sample_options bool parse_bool)
  = AssembledTransaction.build settling_net sample_assembleTransaction
      sample_new_Contract 1000
      (Options.set_simulate true (sample_options bool parse_bool)).
Proof.
  apply (build_simulates_by_default settling_net sample_new_Contract
           sample_assembleTransaction 1000 (sample_options bool parse_bool)).
  reflexivity.
Defined.

Lemma build_offline_witness :
  AssembledTransaction.build unreachable_net sample_assembleTransaction
    sample_new_Contract 1000
    (Options.set_simulate false (sample_options bool parse_bool))
  = AssembledTransaction.build settling_net sample_assembleTransaction
      sample_new_Contract 1000
      (Options.set_simulate false (sample_options bool parse_bool))
  ∧ ∃ tx,
      AssembledTransaction.build unreachable_net sample_assembleTransaction
        sample_new_Contract 1000
        (Options.set_simulate false (sample_options bool parse_bool))
      = Returns tx
      ∧ AssembledTransaction.built tx = None
      ∧ AssembledTransaction.simulation tx = None.
Proof.
  destruct (build_offline unreachable_net sample_new_Contract
              sample_assembleTransaction 1000
              (Options.set_simulate false (sample_options bool parse_bool))
              settling_net sample_assembleTransaction eq_refl eq_refl)
    as (Hsame & Hreturns).
  split; [exact Hsame|]. eexists. split; [reflexivity|].
  destruct (Hreturns _ eq_refl)
    as (contract & _ & _ & _ & Hbuilt & Hsimulation & _).
  split; [exact Hbuilt|exact Hsimulation].
Defined.

Lemma simulate_success_data_witness :
  ∃ this' this'' assembled,
    AssembledTransaction.simulate settling_net sample_assembleTransaction
      unsimulated = (Returns tt, this')
    ∧ AssembledTransaction.built this'
      = Some (TransactionBuilder.build assembled)
    ∧ AssembledTransaction.simulationData sample_JSON_stringify this'
      = (Returns {| SimulationData.result :=
                      {| Api.auth := []; Api.retval := xdr.scvBool true |};
                    SimulationData.transactionData := sample_data [] |},
         this'').
Proof.
  destruct (simulate_success_data settling_net sample_assembleTransaction
              sample_JSON_stringify unsimulated sample_raw sample_success _
              {| Api.auth := []; Api.retval := xdr.scvBool true |}
              eq_refl eq_refl eq_refl eq_refl eq_refl eq_refl)
    as (this' & this'' & Hsimulate & Hbuilt & Hdata & _).
  by eexists this', this'', _.
Defined.

Lemma sign_success_no_cosigner_witness :
  AssembledTransaction.needsNonInvokerSigningBy sample_encodeEd25519PublicKey
    sample_JSON_stringify false ready_to_sign
  = Returns [].
Proof.
  eapply (sign_success_no_cosigner sample_encodeEd25519PublicKey
            sample_JSON_stringify ready_to_sign 2000 None (Some sample_wallet)).
  vm_compute. reflexivity.
Defined.

Lemma sign_failure_keeps_signed_witness :
  ∃ e this',
    AssembledTransaction.sign sample_encodeEd25519PublicKey
      sample_JSON_stringify 2000 None None already_signed = (Throws e, this')
    ∧ AssembledTransaction.signed this' = Some (sample_tx swap_auth).
Proof.
  eexists _, _.
  assert (Hsign :
    AssembledTransaction.sign sample_encodeEd25519PublicKey
      sample_JSON_stringify 2000 None None already_signed = (Throws _, _))
    by (vm_compute; reflexivity).
  split; [exact Hsign|].
  exact (sign_failure_keeps_signed sample_encodeEd25519PublicKey
           sample_JSON_stringify already_signed 2000 None None _ _ Hsign).
Defined.

Lemma sign_without_signer_witness :
  ∃ msg,
    AssembledTransaction.sign sample_encodeEd25519PublicKey
      sample_JSON_stringify 2000 (Some true) None swap_simulated
    = (throw NoSigner msg, swap_simulated)
    ∧ AssembledTransaction.built swap_simulated = Some (sample_tx swap_auth).
Proof.
  apply (sign_without_signer sample_encodeEd25519PublicKey
           sample_JSON_stringify swap_simulated 2000 (Some true)
           (sample_tx swap_auth) swap_simulated);
    [reflexivity|left; split; reflexivity|reflexivity].
Defined.

Lemma sign_with_pending_cosigners_witness :
  ∃ msg,
    AssembledTransaction.sign sample_encodeEd25519PublicKey
      sample_JSON_stringify 2000 (Some true) (Some sample_wallet)
      swap_simulated
    = (throw NeedsMoreSignatures msg, swap_simulated)
    ∧ AssembledTransaction.built swap_simulated = Some (sample_tx swap_auth)
    ∧ AssembledTransaction.signed swap_simulated
      = AssembledTransaction.signed swap_simulated.
Proof.
  apply (sign_with_pending_cosigners sample_encodeEd25519PublicKey
           sample_JSON_stringify swap_simulated 2000 (Some true)
           (Some sample_wallet) (sample_tx swap_auth) swap_simulated
           sample_wallet ["GALICE"; "GBOB"]);
    [reflexivity|left; split; reflexivity|reflexivity|reflexivity|done].
Defined.

Lemma needsNonInvokerSigningBy_includeAlreadySigned_witness :
  ∃ pending,
    AssembledTransaction.needsNonInvokerSigningBy
      sample_encodeEd25519PublicKey sample_JSON_stringify false half_signed
    = Returns pending
    ∧ pending ⊆ ["GBOB"; "GALICE"].
Proof.
  apply (needsNonInvokerSigningBy_includeAlreadySigned
           sample_encodeEd25519PublicKey sample_JSON_stringify half_signed).
  reflexivity.
Defined.

Lemma result_before_simulation_witness :
  AssembledTransaction.result sample_JSON_stringify fresh
  = (throw NotYetSimulated "Transaction has not yet been simulated", fresh).
Proof.
  apply (result_before_simulation sample_JSON_stringify fresh); reflexivity.
Defined.

Lemma result_Err_is_registered_witness :
  ∃ errorTypes code,
    Options.errorTypes (AssembledTransaction.options failed_call)
    = Some errorTypes
    ∧ errorTypes !! code = Some {| message := "insufficient" |}.
Proof.
  eapply (result_Err_is_registered sample_JSON_stringify failed_call).
  vm_compute. reflexivity.
Defined.

Lemma fromJSON_cannot_simulate_witness :
  ∃ txn,
    AssembledTransaction.fromJSON (sample_options bool parse_bool) sample_json
    = Returns txn
    ∧ AssembledTransaction.raw txn = None
    ∧ AssembledTransaction.simulate settling_net sample_assembleTransaction txn
      = (throw Error
           "Transaction has not yet been assembled; call `AssembledTransaction.build` first.",
         txn).
Proof.
  eexists. split; [vm_compute; reflexivity|].
  eapply (fromJSON_cannot_simulate settling_net sample_assembleTransaction
            (sample_options bool parse_bool) sample_json).
  vm_compute. reflexivity.
Defined.



Lemma send_never_returns_witness :
  ∃ this1,
    AssembledTransaction.sign sample_encodeEd25519PublicKey
      sample_JSON_stringify 2000 None (Some sample_wallet) ready_to_sign
    = (Returns tt, this1)
    ∧ is_Some (AssembledTransaction.signed this1)
    ∧ AssembledTransaction_signAndSend settling_net
        sample_encodeEd25519PublicKey sample_JSON_stringify 2000 2001 2002
        None (Some sample_wallet) ready_to_sign
      = (throw TypeError
           "Cannot read properties of undefined (reading 'rpcUrl')", this1)
    ∧ AssembledTransaction_send settling_net sample_JSON_stringify 2001 2002
        this1
      = (throw TypeError
           "Cannot read properties of undefined (reading 'rpcUrl')", this1).
Proof.
  eexists.
  assert (Hsign :
    AssembledTransaction.sign sample_encodeEd25519PublicKey
      sample_JSON_stringify 2000 None (Some sample_wallet) ready_to_sign
    = (Returns tt, _)) by (vm_compute; reflexivity).
  split; [exact Hsign|].
  destruct (send_never_returns settling_net sample_encodeEd25519PublicKey
              sample_JSON_stringify ready_to_sign 2000 2001 2002 None
              (Some sample_wallet))
    as (_ & _ & _ & Hunsigned).
  destruct (Hunsigned _ eq_refl Hsign) as (Hrun & Hsigned).
  split; [exact Hsigned|]. split; [exact Hrun|].
  vm_compute. reflexivity.
Defined.

Lemma signAndSend_keeps_signature_witness :
  AssembledTransaction.signAndSend sample_encodeEd25519PublicKey
    sample_JSON_stringify Tx sample_init 2000 (Some true) None already_signed
  = (Returns (sample_tx swap_auth), already_signed).
Proof.
  apply (signAndSend_keeps_signature sample_encodeEd25519PublicKey
           sample_JSON_stringify Tx sample_init already_signed 2000
           (Some true) None (sample_tx swap_auth)).
  reflexivity.
Defined.

Lemma signAndSend_read_call_witness :
  ∃ msg thisr,
    AssembledTransaction.signAndSend sample_encodeEd25519PublicKey
      sample_JSON_stringify Tx sample_init 2000 None (Some sample_wallet)
      read_call
    = (throw NoSignatureNeeded msg, thisr)
    ∧ AssembledTransaction.signed thisr = None.
Proof.
  destruct (signAndSend_read_call sample_encodeEd25519PublicKey
              sample_JSON_stringify Tx sample_init read_call 2000 None
              (Some sample_wallet) (sample_tx [])
              (snd (AssembledTransaction.simulationData sample_JSON_stringify
                      read_call)))
    as (msg & Hrun & Hsigned); [reflexivity..|].
  by eexists msg, _.
Defined.

Lemma init_returns_settled_witness :
  ∃ sent final,
    SentTransaction.init settling_net sample_JSON_stringify 2000 2001
      (Some sample_wallet) (SentTransaction.assembled sample_sent) (Some false)
    = Returns sent
    ∧ SentTransaction.getTransactionResponse sent = Some final
    ∧ Api.status final ≠ Api.NOT_FOUND.
Proof.
  eexists.
  assert (Hinit :
    SentTransaction.init settling_net sample_JSON_stringify 2000 2001
      (Some sample_wallet) (SentTransaction.assembled sample_sent) (Some false)
    = Returns _) by (vm_compute; reflexivity).
  destruct (init_returns_settled _ _ _ _ _ _ _ _ Hinit)
    as (_ & _ & response & all & final & _ & _ & _ & _ & Hfinal & Hstatus).
  exists final. split; [exact Hinit|]. split; [exact Hfinal|exact Hstatus].
Defined.

Lemma result_after_send_witness :
  ∃ this',
    SentTransaction.send settling_net sample_JSON_stringify 2000 2001
      (Some false) sample_sent
    = (Returns tt, this')
    ∧ SentTransaction.result sample_JSON_stringify this' = Returns true.
Proof.
  eexists.
  assert (Hsend :
    SentTransaction.send settling_net sample_JSON_stringify 2000 2001
      (Some false) sample_sent
    = (Returns tt, _)) by (vm_compute; reflexivity).
  split; [exact Hsend|].
  destruct (result_after_send _ _ _ _ _ _ _ Hsend) as (final & Hfinal & ->).
  injection Hfinal as <-. reflexivity.
Defined.

Lemma send_without_update_keeps_assembled_witness :
  ∃ o this',
    SentTransaction.send settling_net sample_JSON_stringify 2000 2001
      (Some false) sample_sent
    = (o, this')
    ∧ SentTransaction.assembled this' = SentTransaction.assembled sample_sent.
Proof.
  eexists _, _. split; [vm_compute; reflexivity|].
  apply (send_without_update_keeps_assembled settling_net
           sample_JSON_stringify sample_sent 2000 2001 (Returns tt)).
  vm_compute. reflexivity.
Defined.

Lemma send_rejected_submission_witness :
  ∃ e this',
    SentTransaction.send rejecting_net sample_JSON_stringify 2000 2001
      (Some false) sample_sent
    = (Throws e, this')
    ∧ SentTransaction.getTransactionResponse this' = None
    ∧ SentTransaction.result sample_JSON_stringify this'
      = throw SendFailed
          "Transaction simulation looked correct, but attempting to send the transaction failed. Check `simulation` and `sendTransactionResponseAll` to troubleshoot. Decoded `sendTransactionResponse.errorResultXdr`: txBadSeq".
Proof.
  eexists _, _.
  assert (Hsend :
    SentTransaction.send rejecting_net sample_JSON_stringify 2000 2001
      (Some false) sample_sent
    = (Throws _, _)) by (vm_compute; reflexivity).
  split; [exact Hsend|].
  destruct (send_rejected_submission rejecting_net sample_JSON_stringify
              sample_sent 2000 2001 (Some false) _ _
              {| Api.sendStatus := Api.ERROR;
                 Api.hash := "abc123";
                 Api.errorResult := Some "txBadSeq" |}
              Hsend eq_refl)
    as (_ & _ & Hlast & Hresult); [done|reflexivity|].
  split; [exact Hlast|exact Hresult].
Defined.

Lemma client_option_precedence_witness :
  ∃ obj,
    ContractClient.assembleTransaction sample_spec sample_client_options
      "hello" (Some hello_args) (Some sample_method_options)
    = Returns obj
    ∧ obj !! "fee" = Some (JsNumber 500)
    ∧ obj !! "rpcUrl" = Some (JsString "https://rpc.example")
    ∧ obj !! "method" = Some (JsString "hello").
Proof.
  eexists. split; [reflexivity|].
  split; [|split];
    rewrite (client_option_precedence sample_spec sample_client_options
               "hello" (Some hello_args) (Some sample_method_options) _ _
               eq_refl) by done;
    reflexivity.
Defined.

Lemma client_constructor_binds_witness :
  ∃ methods m,
    ContractClient.constructor sample_spec typed_client_options
    = Returns methods
    ∧ methods !! "inc" = Some m
    ∧ parameters m = ["opts"]
    ∧ methods !! "transfer" = None.
Proof.
  destruct (client_constructor_binds sample_spec typed_client_options)
    as (methods & Hmethods & Hother & Hbound).
  { intros xdrFn Hfn. cbn in Hfn.
    apply elem_of_cons in Hfn as [->|Hfn]; [by eexists|].
    apply list_elem_of_singleton in Hfn as ->. by eexists. }
  exists methods. eexists. split; [exact Hmethods|]. split.
  { apply (Hbound {| name := "inc"; inputs := []; outputs := ["u32"] |});
      [apply list_elem_of_here|reflexivity]. }
  split; [reflexivity|].
  apply Hother. cbn. set_solver.
Defined.

End more_samples.
